(** * LauncherAdminPanel: storage layer, distribution manifest and stats channel

    A shallow embedding of [server/api.ts] (the distribution route and the
    [DatabaseStorage] class), [server/routes.ts] (the stat ingestion route and
    the stats WebSocket) and [shared/schema.ts] (the tables), followed by the
    properties of the specification that concern them.

    Conventions.
    - A table is the list of its rows in insertion order, with the [serial]
      sequence that numbers them.
    - Every [await] on a database statement is one [Await] node of an [Async]
      program: [run] plays a program to its end with no other handler in
      between, [run_upto] stops at a suspension point.
    - [new Date()] and [defaultNow()] read a clock passed as [now].
    - Strings are [string]; a character is one [ascii]. *)

From Stdlib Require Import ZArith List String Ascii Bool Lia.
From Stdlib Require Import Permutation Sorted.
Import ListNotations.
Local Open Scope string_scope.
Local Open Scope Z_scope.

(* ------------------------------------------------------------------ *)
(** ** JavaScript values *)

Module Js.

Inductive Error : Type :=
  | ReferenceError (name : string)
  | ZodError (issues : string)
  | DatabaseError (detail : string)
  | OtherError (message : string).

Inductive Result (A : Type) : Type :=
  | Ok (a : A)
  | Err (e : Error).
Arguments Ok {A} a.
Arguments Err {A} e.

(** A key of an object literal whose type is [T | null | undefined]:
    left out, or given as [null] or as a value. *)
Inductive Opt (A : Type) : Type :=
  | Absent
  | Given (v : option A).
Arguments Absent {A}.
Arguments Given {A} v.

(** [a || d] on a nullable string: [null] and the empty string are falsy. *)
Definition or_str (a : option string) (d : string) : string :=
    match a with
    | Some s => if String.eqb s "" then d else s
    | None => d
    end.

(** [a || d] on a nullable number: [null] and [0] are falsy. *)
Definition or_num (a : option Z) (d : Z) : Z :=
    match a with
    | Some n => if Z.eqb n 0 then d else n
    | None => d
    end.

(** Truthiness of a nullable boolean. *)
Definition truthy (b : option bool) : bool :=
    match b with
    | Some true => true
    | _ => false
    end.

(** [const [x] = xs]: the first element, [undefined] when there is none. *)
Definition first {A : Type} (xs : list A) : option A :=
    match xs with
    | x :: _ => Some x
    | [] => None
    end.

End Js.
Import Js.

(* ------------------------------------------------------------------ *)
(** ** shared/schema.ts: rows and insert objects *)

Definition Timestamp := Z.

Module Server.
Record t : Type := mk {
    id : Z;
    serverId : string;
    name : string;
    description : option string;
    icon : option string;
    version : string;
    address : option string;
    minecraftVersion : string;
    loaderType : string;
    loaderVersion : string;
    mainServer : option bool;
    autoconnect : option bool;
    createdAt : Timestamp;
    updatedAt : Timestamp
  }.
End Server.

Module InsertServer.
Record t : Type := mk {
    serverId : string;
    name : string;
    description : option string;
    icon : option string;
    version : string;
    address : option string;
    minecraftVersion : string;
    loaderType : string;
    loaderVersion : string;
    mainServer : Opt bool;
    autoconnect : Opt bool
  }.
End InsertServer.

Module Mod.
Record t : Type := mk {
    id : Z;
    serverId : string;
    modId : string;
    name : string;
    type : string;
    version : option string;
    required : option bool;
    enabled : option bool;
    optionalDefault : option bool;
    size : option Z;
    url : string;
    md5 : option string;
    createdAt : Timestamp;
    updatedAt : Timestamp
  }.

End Mod.

Module InsertMod.
Record t : Type := mk {
    serverId : string;
    modId : string;
    name : string;
    type : string;
    version : option string;
    required : Opt bool;
    enabled : Opt bool;
    optionalDefault : Opt bool;
    size : option Z;
    url : string;
    md5 : option string
  }.
End InsertMod.

Module File.
Record t : Type := mk {
    id : Z;
    serverId : string;
    path : string;
    isDirectory : option bool;
    isSticky : option bool;
    size : option Z;
    lastModified : Timestamp
  }.
End File.

Module ServerStat.
Record t : Type := mk {
    id : Z;
    serverId : string;
    activePlayers : option Z;
    currentBandwidth : option Z;
    totalBandwidth : option Z;
    totalSessionTime : option Z;
    timestamp : Timestamp
  }.
End ServerStat.

Module InsertServerStat.
Record t : Type := mk {
    serverId : string;
    activePlayers : Opt Z;
    currentBandwidth : Opt Z;
    totalBandwidth : Opt Z;
    totalSessionTime : Opt Z
  }.
End InsertServerStat.

Module InstallerSetting.
Record t : Type := mk {
    id : Z;
    isInstalled : option bool;
    dbHost : option string;
    dbPort : option string;
    dbName : option string;
    dbUser : option string;
    installedAt : option Timestamp
  }.
End InstallerSetting.

Module InsertInstallerSettings.
Record t : Type := mk {
    isInstalled : Opt bool;
    dbHost : Opt string;
    dbPort : Opt string;
    dbName : Opt string;
    dbUser : Opt string
  }.
End InsertInstallerSettings.

Module ApiConfig.
Record t : Type := mk {
    id : Z;
    rssUrl : option string;
    discordClientId : option string;
    discordSmallImageText : option string;
    discordSmallImageKey : option string;
    version : option string
  }.
End ApiConfig.

Module InsertApiConfig.
Record t : Type := mk {
    rssUrl : Opt string;
    discordClientId : Opt string;
    discordSmallImageText : Opt string;
    discordSmallImageKey : Opt string;
    version : Opt string
  }.
End InsertApiConfig.

Module SiteSettings.
Record t : Type := mk {
    id : Z;
    siteName : option string;
    siteUrl : option string;
    logoUrl : option string;
    maintenanceMode : option bool;
    enableRegistration : option bool;
    updatedAt : Timestamp
  }.
End SiteSettings.

Module InsertSiteSettings.
Record t : Type := mk {
    siteName : Opt string;
    siteUrl : Opt string;
    logoUrl : Opt string;
    maintenanceMode : Opt bool;
    enableRegistration : Opt bool
  }.
End InsertSiteSettings.

(* ------------------------------------------------------------------ *)
(** ** The database *)

Record Table (R : Type) : Type := mkTable {
  rows : list R;
  nextval : Z
}.
Arguments mkTable {R} rows nextval.
Arguments rows {R} t.
Arguments nextval {R} t.

Record Db : Type := mkDb {
  servers : Table Server.t;
  mods : Table Mod.t;
  files : Table File.t;
  serverStats : Table ServerStat.t;
  installerSettings : Table InstallerSetting.t;
  apiConfig : Table ApiConfig.t;
  siteSettings : Table SiteSettings.t
}.

Definition set_servers (t : Table Server.t) (db : Db) : Db :=
  mkDb t (mods db) (files db) (serverStats db) (installerSettings db)
       (apiConfig db) (siteSettings db).
Definition set_mods (t : Table Mod.t) (db : Db) : Db :=
  mkDb (servers db) t (files db) (serverStats db) (installerSettings db)
       (apiConfig db) (siteSettings db).
Definition set_serverStats (t : Table ServerStat.t) (db : Db) : Db :=
  mkDb (servers db) (mods db) (files db) t (installerSettings db)
       (apiConfig db) (siteSettings db).
Definition set_installerSettings (t : Table InstallerSetting.t) (db : Db) : Db :=
  mkDb (servers db) (mods db) (files db) (serverStats db) t
       (apiConfig db) (siteSettings db).
Definition set_apiConfig (t : Table ApiConfig.t) (db : Db) : Db :=
  mkDb (servers db) (mods db) (files db) (serverStats db)
       (installerSettings db) t (siteSettings db).
Definition set_siteSettings (t : Table SiteSettings.t) (db : Db) : Db :=
  mkDb (servers db) (mods db) (files db) (serverStats db)
       (installerSettings db) (apiConfig db) t.

(** [INSERT ... RETURNING] of one row numbered by the table's sequence. *)
Definition append {R : Type} (mk_row : Z -> R) (t : Table R) : R * Table R :=
  let r := mk_row (nextval t) in
  (r, mkTable (rows t ++ [r]) (nextval t + 1)).

(** An insert refused by a constraint: the sequence value is spent, the rows
    stay. *)
Definition refuse {R : Type} (t : Table R) : Table R :=
  mkTable (rows t) (nextval t + 1).

(** [UPDATE ... WHERE p RETURNING]: the table after, and the rows touched. *)
Definition update_where {R : Type} (p : R -> bool) (f : R -> R) (t : Table R)
  : list R * Table R :=
  (map f (filter p (rows t)),
   mkTable (map (fun r => if p r then f r else r) (rows t)) (nextval t)).

(** A column with a default on insert, and a column under [.set]. *)
Definition or_default {A : Type} (d : A) (f : Opt A) : option A :=
  match f with
  | Absent => Some d
  | Given v => v
  end.

Definition or_null {A : Type} (f : Opt A) : option A :=
  match f with
  | Absent => None
  | Given v => v
  end.

Definition or_keep {A : Type} (old : option A) (f : Opt A) : option A :=
  match f with
  | Absent => old
  | Given v => v
  end.

Definition is_absent {A : Type} (f : Opt A) : bool :=
  match f with
  | Absent => true
  | Given _ => false
  end.

(* ------------------------------------------------------------------ *)
(** ** Asynchronous programs over the database *)

(** One SQL statement: it runs as a whole, and either yields its rows or
    rejects. *)
Definition Stmt (A : Type) : Type := Db -> Result A * Db.

Inductive Async (A : Type) : Type :=
| Return (a : A)
| Throw (e : Error)
| Await {B : Type} (q : Stmt B) (k : B -> Async A).
Arguments Return {A} a.
Arguments Throw {A} e.
Arguments Await {A B} q k.

Fixpoint bind {A B : Type} (p : Async A) (f : A -> Async B) : Async B :=
  match p with
  | Return a => f a
  | Throw e => Throw e
  | Await q k => Await q (fun b => bind (k b) f)
  end.

Notation "x <- p ;; k" := (bind p (fun x => k))
  (at level 61, p at next level, right associativity).

Definition await {A : Type} (q : Stmt A) : Async A := Await q Return.

(** [try { p } catch (e) { h e }]. *)
Fixpoint try_catch {A : Type} (p : Async A) (h : Error -> Async A) : Async A :=
  match p with
  | Return a => Return a
  | Throw e => h e
  | Await q k =>
      Await (fun db => let '(r, db') := q db in (Ok r, db'))
            (fun r => match r with
                      | Ok b => try_catch (k b) h
                      | Err e => h e
                      end)
  end.

(** The whole program, uninterrupted. *)
Fixpoint run {A : Type} (p : Async A) (db : Db) : Result A * Db :=
  match p with
  | Return a => (Ok a, db)
  | Throw e => (Err e, db)
  | Await q k =>
      let '(r, db') := q db in
      match r with
      | Ok b => run (k b) db'
      | Err e => (Err e, db')
      end
  end.

(** The program up to its [n]-th suspension point: what is left to run, and
    the database another handler scheduled there would see. *)
Fixpoint run_upto {A : Type} (n : nat) (p : Async A) (db : Db) : Async A * Db :=
  match n with
  | O => (p, db)
  | S n' =>
      match p with
      | Await q k =>
          let '(r, db') := q db in
          match r with
          | Ok b => run_upto n' (k b) db'
          | Err e => (Throw e, db')
          end
      | _ => (p, db)
      end
  end.

(** [for (const x of xs) await f(x)] and the sequential reading of
    [Promise.all(xs.map(f))]. *)
Fixpoint for_each {A : Type} (xs : list A) (f : A -> Async unit) : Async unit :=
  match xs with
  | [] => Return tt
  | x :: xs' => _ <- f x ;; for_each xs' f
  end.

Fixpoint all {A B : Type} (xs : list A) (f : A -> Async B) : Async (list B) :=
  match xs with
  | [] => Return []
  | x :: xs' => y <- f x ;; ys <- all xs' f ;; Return (y :: ys)
  end.

(* ------------------------------------------------------------------ *)
(** ** PostgreSQL's [LIKE] *)

(** [%] matches any run of characters, [_] any one character, and a
    backslash takes the next pattern character literally.  A pattern ending
    in a lone backslash is refused by the server ([None]). *)
Fixpoint like_chars (p s : list ascii) {struct p} : option bool :=
  match p with
  | [] => Some (match s with [] => true | _ :: _ => false end)
  | c :: p' =>
      if Ascii.eqb c "%" then
        (fix skip (s : list ascii) : option bool :=
           match like_chars p' s with
           | None => None
           | Some true => Some true
           | Some false =>
               match s with
               | [] => Some false
               | _ :: s' => skip s'
               end
           end) s
      else if Ascii.eqb c "_" then
        match s with
        | [] => match like_chars p' [] with None => None | Some _ => Some false end
        | _ :: s' => like_chars p' s'
        end
      else if Ascii.eqb c "\" then
        match p' with
        | [] => None
        | e :: p'' =>
            match s with
            | [] => match like_chars p'' [] with None => None | Some _ => Some false end
            | x :: s' =>
                match like_chars p'' s' with
                | None => None
                | Some b => Some (Ascii.eqb x e && b)
                end
            end
        end
      else
        match s with
        | [] => match like_chars p' [] with None => None | Some _ => Some false end
        | x :: s' =>
            match like_chars p' s' with
            | None => None
            | Some b => Some (Ascii.eqb x c && b)
            end
        end
  end.

Definition like (s pattern : string) : option bool :=
  like_chars (list_ascii_of_string pattern) (list_ascii_of_string s).

(** What the path filter is meant to select: the node itself and everything
    below it. *)
Definition at_or_under (p path : string) : bool :=
  String.eqb path p || String.prefix (p ++ "/") path.

(** A path in which [LIKE] reads no character specially. *)
Definition is_literal (c : ascii) : bool :=
  negb (Ascii.eqb c "%") && negb (Ascii.eqb c "_") && negb (Ascii.eqb c "\").

Fixpoint literal (p : string) : bool :=
  match p with
  | EmptyString => true
  | String c p' => is_literal c && literal p'
  end.

(* ------------------------------------------------------------------ *)
(** ** server/api.ts, second half: [DatabaseStorage] *)

(** [ORDER BY] by insertion into a sorted list; rows that compare equal keep
    their table order. *)
Fixpoint insert_sorted {R : Type} (le : R -> R -> bool) (x : R) (xs : list R) : list R :=
  match xs with
  | [] => [x]
  | y :: ys => if le x y then x :: xs else y :: insert_sorted le x ys
  end.

Definition order_by {R : Type} (le : R -> R -> bool) (xs : list R) : list R :=
  fold_right (insert_sorted le) [] xs.

(** How a raw [sql] fragment [a OR b] lands inside [and(c, ...)].  drizzle's
    [and] joins its operands with [" and "] inside one pair of parentheses
    and copies a raw fragment as it stands, so the statement reads
    [(c and a OR b)], that is [(c and a) or b]: [Spliced].  [Grouped] is the
    reading [c and (a or b)]. *)
Inductive Fragment : Type := Spliced | Grouped.

Definition drizzle_fragment : Fragment := Spliced.

Record Library : Type := mkLibrary {
  lib_id : string;
  lib_name : string;
  lib_type : string;
  lib_url : string
}.

Module storage.

(** *** Servers *)

Definition select_servers_ordered : Stmt (list Server.t) := fun db =>
  (Ok (order_by (fun a b => String.leb (Server.name a) (Server.name b))
                (rows (servers db))), db).

Definition getServers : Async (list Server.t) :=
  await select_servers_ordered.

Definition select_server (id : string) : Stmt (list Server.t) := fun db =>
  (Ok (filter (fun s => String.eqb (Server.serverId s) id) (rows (servers db))), db).

Definition getServer (id : string) : Async (option Server.t) :=
  xs <- await (select_server id) ;;
  Return (first xs).

(** [server_id] is unique. *)
Definition insert_server (v : InsertServer.t) (updatedAt now : Timestamp)
  : Stmt Server.t := fun db =>
  let t := servers db in
  if existsb (fun s => String.eqb (Server.serverId s) (InsertServer.serverId v)) (rows t)
  then (Err (DatabaseError "servers_server_id_unique"), set_servers (refuse t) db)
  else
    let '(r, t') :=
      append (fun i =>
        Server.mk i (InsertServer.serverId v) (InsertServer.name v)
          (InsertServer.description v) (InsertServer.icon v)
          (InsertServer.version v) (InsertServer.address v)
          (InsertServer.minecraftVersion v) (InsertServer.loaderType v)
          (InsertServer.loaderVersion v)
          (or_default false (InsertServer.mainServer v))
          (or_default false (InsertServer.autoconnect v))
          now updatedAt) t in
    (Ok r, set_servers t' db).

(** *** Mods *)

Definition select_mods (serverId : string) : Stmt (list Mod.t) := fun db =>
  (Ok (filter (fun m => String.eqb (Mod.serverId m) serverId) (rows (mods db))), db).

Definition getMods (serverId : string) : Async (list Mod.t) :=
  await (select_mods serverId).

(** [server_id] references [servers.server_id]. *)
Definition insert_mod (v : InsertMod.t) (updatedAt now : Timestamp)
  : Stmt Mod.t := fun db =>
  let t := mods db in
  if existsb (fun s => String.eqb (Server.serverId s) (InsertMod.serverId v))
             (rows (servers db))
  then
    let '(r, t') :=
      append (fun i =>
        Mod.mk i (InsertMod.serverId v) (InsertMod.modId v) (InsertMod.name v)
          (InsertMod.type v) (InsertMod.version v)
          (or_default true (InsertMod.required v))
          (or_default true (InsertMod.enabled v))
          (or_default false (InsertMod.optionalDefault v))
          (InsertMod.size v) (InsertMod.url v) (InsertMod.md5 v)
          now updatedAt) t in
    (Ok r, set_mods t' db)
  else (Err (DatabaseError "mods_server_id_servers_server_id_fk"), set_mods (refuse t) db).

Definition createMod (now : Timestamp) (insertMod : InsertMod.t) : Async Mod.t :=
  await (insert_mod insertMod now now).

Definition defaultLibraries : list Library :=
  [ mkLibrary "net.fabricmc:fabric-loader:0.16.13" "Fabric" "Library"
      "https://maven.fabricmc.net/net/fabricmc/fabric-loader/0.16.13/fabric-loader-0.16.13.jar";
    mkLibrary "net.fabricmc:intermediary:1.20.1" "Fabric Intermediary" "Library"
      "https://maven.fabricmc.net/net/fabricmc/intermediary/1.20.1/intermediary-1.20.1.jar" ].

Definition createServer (now : Timestamp) (insertServer : InsertServer.t)
  : Async Server.t :=
  server <- await (insert_server insertServer now now) ;;
  _ <- for_each defaultLibraries (fun lib =>
         _ <- createMod now
                (InsertMod.mk (Server.serverId server) (lib_id lib) (lib_name lib)
                   (lib_type lib) None (Given (Some true)) Absent Absent None
                   (lib_url lib) None) ;;
         Return tt) ;;
  Return server.

(** *** Files *)

Definition files_where (g : Fragment) (serverId path : string) (f : File.t)
  : option bool :=
  match like (File.path f) (path ++ "/%") with
  | None => None
  | Some l =>
      let same_server := String.eqb (File.serverId f) serverId in
      let same_path := String.eqb (File.path f) path in
      Some (match g with
            | Spliced => (same_server && l) || same_path
            | Grouped => same_server && (l || same_path)
            end)
  end.

Fixpoint select_where {R : Type} (w : R -> option bool) (xs : list R)
  : option (list R) :=
  match xs with
  | [] => Some []
  | x :: xs' =>
      match w x, select_where w xs' with
      | Some b, Some ys => Some (if b then x :: ys else ys)
      | _, _ => None
      end
  end.

Definition select_files (g : Fragment) (serverId : string) (path : option string)
  : Stmt (list File.t) := fun db =>
  match path with
  | Some p =>
      if String.eqb p "" then
        (Ok (filter (fun f => String.eqb (File.serverId f) serverId) (rows (files db))), db)
      else
        match select_where (files_where g serverId p) (rows (files db)) with
        | Some xs => (Ok xs, db)
        | None => (Err (DatabaseError "LIKE pattern must not end with escape character"), db)
        end
  | None =>
      (Ok (filter (fun f => String.eqb (File.serverId f) serverId) (rows (files db))), db)
  end.

Definition getFiles_as (g : Fragment) (serverId : string) (path : option string)
  : Async (list File.t) :=
  await (select_files g serverId path).

Definition getFiles : string -> option string -> Async (list File.t) :=
  getFiles_as drizzle_fragment.

(** *** Server stats *)

(** [.limit(n)] puts a [LIMIT] on the query only for [n >= 0]: the query
    builder leaves the clause out for a negative number, and the query then
    returns every matching row. *)
Definition select_stats (serverId : string) (limit : Z) : Stmt (list ServerStat.t) :=
  fun db =>
  let ordered :=
    order_by (fun a b => ServerStat.timestamp b <=? ServerStat.timestamp a)
      (filter (fun s => String.eqb (ServerStat.serverId s) serverId)
         (rows (serverStats db))) in
  (Ok (if 0 <=? limit then firstn (Z.to_nat limit) ordered else ordered), db).

Definition getServerStats (serverId : string) (limit : option Z)
  : Async (list ServerStat.t) :=
  await (select_stats serverId (match limit with Some n => n | None => 24 end)).

(** [server_id] references [servers.server_id]. *)
Definition insert_stat (v : InsertServerStat.t) (now : Timestamp)
  : Stmt ServerStat.t := fun db =>
  let t := serverStats db in
  if existsb (fun s => String.eqb (Server.serverId s) (InsertServerStat.serverId v))
             (rows (servers db))
  then
    let '(r, t') :=
      append (fun i =>
        ServerStat.mk i (InsertServerStat.serverId v)
          (or_default 0 (InsertServerStat.activePlayers v))
          (or_default 0 (InsertServerStat.currentBandwidth v))
          (or_default 0 (InsertServerStat.totalBandwidth v))
          (or_default 0 (InsertServerStat.totalSessionTime v))
          now) t in
    (Ok r, set_serverStats t' db)
  else (Err (DatabaseError "server_stats_server_id_servers_server_id_fk"),
        set_serverStats (refuse t) db).

Definition createServerStat (now : Timestamp) (insertStat : InsertServerStat.t)
  : Async ServerStat.t :=
  await (insert_stat insertStat now).

(** *** Installer settings *)

Definition select_installerSettings : Stmt (list InstallerSetting.t) := fun db =>
  (Ok (rows (installerSettings db)), db).

Definition getInstallerSettings : Async (option InstallerSetting.t) :=
  xs <- await select_installerSettings ;;
  Return (first xs).

Definition update_installerSettings (v : InsertInstallerSettings.t)
  (installedAt : Timestamp) (id : Z) : Stmt (list InstallerSetting.t) := fun db =>
  let '(touched, t') :=
    update_where (fun r => InstallerSetting.id r =? id)
      (fun r =>
         InstallerSetting.mk (InstallerSetting.id r)
           (or_keep (InstallerSetting.isInstalled r) (InsertInstallerSettings.isInstalled v))
           (or_keep (InstallerSetting.dbHost r) (InsertInstallerSettings.dbHost v))
           (or_keep (InstallerSetting.dbPort r) (InsertInstallerSettings.dbPort v))
           (or_keep (InstallerSetting.dbName r) (InsertInstallerSettings.dbName v))
           (or_keep (InstallerSetting.dbUser r) (InsertInstallerSettings.dbUser v))
           (Some installedAt))
      (installerSettings db) in
  (Ok touched, set_installerSettings t' db).

Definition insert_installerSettings (v : InsertInstallerSettings.t)
  (installedAt : Timestamp) : Stmt InstallerSetting.t := fun db =>
  let '(r, t') :=
    append (fun i =>
      InstallerSetting.mk i
        (or_default false (InsertInstallerSettings.isInstalled v))
        (or_null (InsertInstallerSettings.dbHost v))
        (or_null (InsertInstallerSettings.dbPort v))
        (or_null (InsertInstallerSettings.dbName v))
        (or_null (InsertInstallerSettings.dbUser v))
        (Some installedAt))
      (installerSettings db) in
  (Ok r, set_installerSettings t' db).

Definition updateInstallerSettings (now : Timestamp)
  (updateSettings : InsertInstallerSettings.t) : Async (option InstallerSetting.t) :=
  xs <- await select_installerSettings ;;
  match first xs with
  | Some existingSettings =>
      ys <- await (update_installerSettings updateSettings now
                     (InstallerSetting.id existingSettings)) ;;
      Return (first ys)
  | None =>
      settings <- await (insert_installerSettings updateSettings now) ;;
      Return (Some settings)
  end.

(** *** API config *)

Definition select_apiConfig : Stmt (list ApiConfig.t) := fun db =>
  (Ok (rows (apiConfig db)), db).

Definition getApiConfig : Async (option ApiConfig.t) :=
  xs <- await select_apiConfig ;;
  Return (first xs).

Definition update_apiConfig (v : InsertApiConfig.t) (id : Z)
  : Stmt (list ApiConfig.t) := fun db =>
  let '(touched, t') :=
    update_where (fun r => ApiConfig.id r =? id)
      (fun r =>
         ApiConfig.mk (ApiConfig.id r)
           (or_keep (ApiConfig.rssUrl r) (InsertApiConfig.rssUrl v))
           (or_keep (ApiConfig.discordClientId r) (InsertApiConfig.discordClientId v))
           (or_keep (ApiConfig.discordSmallImageText r)
                    (InsertApiConfig.discordSmallImageText v))
           (or_keep (ApiConfig.discordSmallImageKey r)
                    (InsertApiConfig.discordSmallImageKey v))
           (or_keep (ApiConfig.version r) (InsertApiConfig.version v)))
      (apiConfig db) in
  (Ok touched, set_apiConfig t' db).

Definition insert_apiConfig (v : InsertApiConfig.t) : Stmt ApiConfig.t := fun db =>
  let '(r, t') :=
    append (fun i =>
      ApiConfig.mk i
        (or_null (InsertApiConfig.rssUrl v))
        (or_null (InsertApiConfig.discordClientId v))
        (or_null (InsertApiConfig.discordSmallImageText v))
        (or_null (InsertApiConfig.discordSmallImageKey v))
        (or_default "1.0.0" (InsertApiConfig.version v)))
      (apiConfig db) in
  (Ok r, set_apiConfig t' db).

(** The query builder's [.set] throws on an object with no defined key; here
    only [updateApiConfig] passes the caller's object as it is. *)
Definition no_values_to_set (v : InsertApiConfig.t) : bool :=
  is_absent (InsertApiConfig.rssUrl v)
  && is_absent (InsertApiConfig.discordClientId v)
  && is_absent (InsertApiConfig.discordSmallImageText v)
  && is_absent (InsertApiConfig.discordSmallImageKey v)
  && is_absent (InsertApiConfig.version v).

Definition updateApiConfig (updateConfig : InsertApiConfig.t)
  : Async (option ApiConfig.t) :=
  xs <- await select_apiConfig ;;
  match first xs with
  | Some existingConfig =>
      if no_values_to_set updateConfig then Throw (OtherError "No values to set")
      else
        ys <- await (update_apiConfig updateConfig (ApiConfig.id existingConfig)) ;;
        Return (first ys)
  | None =>
      config <- await (insert_apiConfig updateConfig) ;;
      Return (Some config)
  end.

(** *** Site settings *)

Definition select_siteSettings : Stmt (list SiteSettings.t) := fun db =>
  (Ok (rows (siteSettings db)), db).

Definition getSiteSettings : Async (option SiteSettings.t) :=
  xs <- await select_siteSettings ;;
  Return (first xs).

Definition update_siteSettings (v : InsertSiteSettings.t) (updatedAt : Timestamp)
  (id : Z) : Stmt (list SiteSettings.t) := fun db =>
  let '(touched, t') :=
    update_where (fun r => SiteSettings.id r =? id)
      (fun r =>
         SiteSettings.mk (SiteSettings.id r)
           (or_keep (SiteSettings.siteName r) (InsertSiteSettings.siteName v))
           (or_keep (SiteSettings.siteUrl r) (InsertSiteSettings.siteUrl v))
           (or_keep (SiteSettings.logoUrl r) (InsertSiteSettings.logoUrl v))
           (or_keep (SiteSettings.maintenanceMode r)
                    (InsertSiteSettings.maintenanceMode v))
           (or_keep (SiteSettings.enableRegistration r)
                    (InsertSiteSettings.enableRegistration v))
           updatedAt)
      (siteSettings db) in
  (Ok touched, set_siteSettings t' db).

Definition insert_siteSettings (v : InsertSiteSettings.t) (updatedAt : Timestamp)
  : Stmt SiteSettings.t := fun db =>
  let '(r, t') :=
    append (fun i =>
      SiteSettings.mk i
        (or_default "MineLaunch Admin Panel" (InsertSiteSettings.siteName v))
        (or_default "https://admin.minelauncher.com" (InsertSiteSettings.siteUrl v))
        (or_null (InsertSiteSettings.logoUrl v))
        (or_default false (InsertSiteSettings.maintenanceMode v))
        (or_default true (InsertSiteSettings.enableRegistration v))
        updatedAt)
      (siteSettings db) in
  (Ok r, set_siteSettings t' db).

Definition updateSiteSettings (now : Timestamp) (updateSettings : InsertSiteSettings.t)
  : Async (option SiteSettings.t) :=
  xs <- await select_siteSettings ;;
  match first xs with
  | Some existingSettings =>
      ys <- await (update_siteSettings updateSettings now
                     (SiteSettings.id existingSettings)) ;;
      Return (first ys)
  | None =>
      settings <- await (insert_siteSettings updateSettings now) ;;
      Return (Some settings)
  end.

(** [{ logoUrl, updatedAt: new Date() }] as the object set or inserted. *)
Definition logo_only (logoUrl : string) : InsertSiteSettings.t :=
  InsertSiteSettings.mk Absent Absent (Given (Some logoUrl)) Absent Absent.

Definition updateLogo (now : Timestamp) (logoUrl : string)
  : Async (option SiteSettings.t) :=
  xs <- await select_siteSettings ;;
  match first xs with
  | Some existingSettings =>
      ys <- await (update_siteSettings (logo_only logoUrl) now
                     (SiteSettings.id existingSettings)) ;;
      Return (first ys)
  | None =>
      settings <- await (insert_siteSettings (logo_only logoUrl) now) ;;
      Return (Some settings)
  end.

End storage.

(* ------------------------------------------------------------------ *)
(** ** HTTP responses *)

Inductive Artifact : Type :=
| ModArtifact (size : Z) (url : string) (MD5 : string)
| FileArtifact (size : Z) (url : string) (path : string).

(** The object [{ value: false }] stored under the key [required]. *)
Record Marker : Type := mkMarker { value : bool }.

(** One element of a server's [modules]; a key that the object does not have
    is [None]. *)
Record ModuleEntry : Type := mkModule {
  m_id : string;
  m_name : string;
  m_type : string;
  m_artifact : Artifact;
  m_required : option Marker
}.

Record Discord : Type := mkDiscord {
  clientId : string;
  smallImageText : string;
  smallImageKey : string
}.

Record ServerDiscord : Type := mkServerDiscord {
  shortId : string;
  largeImageText : string;
  largeImageKey : string
}.

Record ServerEntry : Type := mkServerEntry {
  s_id : string;
  s_name : string;
  s_description : string;
  s_icon : string;
  s_version : string;
  s_address : string;
  s_minecraftVersion : string;
  s_discord : ServerDiscord;
  s_mainServer : option bool;
  s_autoconnect : option bool;
  s_modules : list ModuleEntry
}.

Record Distribution : Type := mkDistribution {
  d_version : string;
  d_rss : string;
  d_discord : Discord;
  d_servers : list ServerEntry
}.

Inductive Body : Type :=
| ErrorBody (error : string)
| MessageBody (message : string)
| DistributionBody (d : Distribution)
| StatBody (s : ServerStat.t).

Record Response : Type := mkResponse {
  status : Z;
  body : Body
}.


Definition artifact_size (a : Artifact) : Z :=
  match a with
  | ModArtifact n _ _ => n
  | FileArtifact n _ _ => n
  end.

(* ------------------------------------------------------------------ *)
(** ** server/api.ts, first half: the distribution manifest *)

(** Node's [path] module, as far as the builder calls it. *)
Record PathModule : Type := mkPath { basename : string -> string }.

(** What the free identifier [path] of the builder's body is bound to in the
    file that holds it. *)
Record Scope : Type := mkScope { path_binding : option PathModule }.

(** api.ts imports [Express], [Request], [Response], [storage], [Server] and
    [Mod] (and, for the storage class, the schema tables, [db], [pool], the
    drizzle operators, [session] and [createMemoryStore]): [path] is not
    among them. *)
Definition api_ts : Scope := mkScope None.

Definition mods_url (server : Server.t) (mod_ : Mod.t) : string :=
  "/uploads/" ++ Server.serverId server ++ "/mods/" ++ Mod.modId mod_.

Definition mod_entry (server : Server.t) (mod_ : Mod.t) : ModuleEntry :=
  let baseModule :=
    mkModule (Mod.modId mod_) (Mod.name mod_)
      (if String.eqb (Mod.type mod_) "Library" then "Library" else "FabricMod")
      (ModArtifact (or_num (Mod.size mod_) 0) (mods_url server mod_)
                   (or_str (Mod.md5 mod_) ""))
      None in
  if negb (truthy (Mod.required mod_))
  then mkModule (m_id baseModule) (m_name baseModule) (m_type baseModule)
                (m_artifact baseModule) (Some (mkMarker false))
  else baseModule.

Definition file_entry (p : PathModule) (server : Server.t) (file : File.t)
  : ModuleEntry :=
  mkModule (basename p (File.path file)) (basename p (File.path file)) "File"
    (FileArtifact (or_num (File.size file) 0)
       ("/uploads/" ++ Server.serverId server ++ "/" ++ File.path file)
       (File.path file))
    None.

(** [files.forEach(file => { if (!file.isDirectory) modules.push({...}) })]:
    evaluating the pushed object reads [path]. *)
Fixpoint push_files (sc : Scope) (server : Server.t) (files : list File.t)
  (modules : list ModuleEntry) : Result (list ModuleEntry) :=
  match files with
  | [] => Ok modules
  | file :: rest =>
      if negb (truthy (File.isDirectory file)) then
        match path_binding sc with
        | None => Err (ReferenceError "path")
        | Some p => push_files sc server rest (modules ++ [file_entry p server file])%list
        end
      else push_files sc server rest modules
  end.

Definition transformModsToModules (sc : Scope) (mods : list Mod.t)
  (server : Server.t) : Async (list ModuleEntry) :=
  let modules :=
    fold_left (fun modules mod_ => (modules ++ [mod_entry server mod_])%list)
      mods [] in
  files <- storage.getFiles (Server.serverId server) None ;;
  match push_files sc server files modules with
  | Ok modules => Return modules
  | Err e => Throw e
  end.

Definition server_entry (apiConfig : ApiConfig.t) (server : Server.t)
  (modules : list ModuleEntry) : ServerEntry :=
  mkServerEntry (Server.serverId server) (Server.name server)
    (or_str (Server.description server) "")
    (or_str (Server.icon server) "")
    (Server.version server)
    (or_str (Server.address server) "")
    (Server.minecraftVersion server)
    (mkServerDiscord (or_str (ApiConfig.discordClientId apiConfig) "")
                     "logo" "logo_without_background")
    (Server.mainServer server) (Server.autoconnect server) modules.

(** [app.get("/api/distribution", ...)]. *)
Definition get_api_distribution (sc : Scope) : Async Response :=
  try_catch
    (apiConfig <- storage.getApiConfig ;;
     match apiConfig with
     | None => Return (mkResponse 500 (ErrorBody "API configuration not found"))
     | Some apiConfig =>
         serverInstances <- storage.getServers ;;
         servers <- all serverInstances (fun server =>
           serverMods <- storage.getMods (Server.serverId server) ;;
           modules <- transformModsToModules sc serverMods server ;;
           Return (server_entry apiConfig server modules)) ;;
         Return (mkResponse 200 (DistributionBody
           (mkDistribution
              (or_str (ApiConfig.version apiConfig) "1.0.0")
              (or_str (ApiConfig.rssUrl apiConfig) "")
              (mkDiscord
                 (or_str (ApiConfig.discordClientId apiConfig) "")
                 (or_str (ApiConfig.discordSmallImageText apiConfig) "logo")
                 (or_str (ApiConfig.discordSmallImageKey apiConfig) "logo"))
              servers)))
     end)
    (fun _ => Return (mkResponse 500 (ErrorBody "Failed to generate distribution.json"))).

(* ------------------------------------------------------------------ *)
(** ** server/routes.ts: stat ingestion *)

Definition handleError (error : Error) : Response :=
  match error with
  | ZodError message => mkResponse 400 (MessageBody message)
  | _ => mkResponse 500 (MessageBody "Internal server error")
  end.

Section StatIngestion.

(** The request body and the validator that drizzle-zod derives from the
    [server_stats] table. *)
Variable RequestBody : Type.
Variable insertServerStatSchema_parse : RequestBody -> Result InsertServerStat.t.

(** The handler of [app.post("/api/stats", statsRateLimit, ...)], for a
    request that the limiter lets through. *)
Definition post_api_stats (now : Timestamp) (req_body : RequestBody)
  : Async Response :=
  try_catch
    (match insertServerStatSchema_parse req_body with
     | Err e => Throw e
     | Ok statData =>
         server <- storage.getServer (InsertServerStat.serverId statData) ;;
         match server with
         | None => Return (mkResponse 404 (MessageBody "Server not found"))
         | Some _ =>
             stat <- storage.createServerStat now statData ;;
             Return (mkResponse 201 (StatBody stat))
         end
     end)
    (fun error => Return (handleError error)).

End StatIngestion.

(* ------------------------------------------------------------------ *)
(** ** server/routes.ts: the stats WebSocket *)

Inductive ReadyState : Type := CONNECTING | OPEN | CLOSING | CLOSED.

(** [stats[0] || { activePlayers: 0, ... }]. *)
Inductive Sample : Type :=
| Latest (s : ServerStat.t)
| Zeros.

Record StatsEntry : Type := mkStatsEntry {
  e_serverId : string;
  e_serverName : string;
  e_stats : Sample
}.

(** The reads of [sendCurrentStats], up to [Promise.all]. *)
Definition allStats : Async (list StatsEntry) :=
  servers <- storage.getServers ;;
  all servers (fun server =>
    stats <- storage.getServerStats (Server.serverId server) (Some 1) ;;
    Return (mkStatsEntry (Server.serverId server) (Server.name server)
              (match first stats with
               | Some s => Latest s
               | None => Zeros
               end))).

(** One connection: the socket, the interval armed for it (with its delay in
    milliseconds), the messages handed to [ws.send] while the socket was
    open, the number of calls of [sendCurrentStats], and the console. *)
Record Socket : Type := mkSocket {
  readyState : ReadyState;
  statsInterval : option Z;
  sent : list (list StatsEntry);
  calls : nat;
  console : list string
}.

Definition is_open (s : ReadyState) : bool :=
  match s with
  | OPEN => true
  | _ => false
  end.

Definition setInterval (delay : Z) (ws : Socket) : Socket :=
  mkSocket (readyState ws) (Some delay) (sent ws) (calls ws) (console ws).

Definition clearInterval (ws : Socket) : Socket :=
  mkSocket (readyState ws) None (sent ws) (calls ws) (console ws).

Definition console_log (line : string) (ws : Socket) : Socket :=
  mkSocket (readyState ws) (statsInterval ws) (sent ws) (calls ws)
           (console ws ++ [line]).

Definition set_readyState (s : ReadyState) (ws : Socket) : Socket :=
  mkSocket s (statsInterval ws) (sent ws) (calls ws) (console ws).

Definition ws_send (message : list StatsEntry) (ws : Socket) : Socket :=
  if is_open (readyState ws)
  then mkSocket (readyState ws) (statsInterval ws) (sent ws ++ [message])
                (calls ws) (console ws)
  else ws.

Definition called (ws : Socket) : Socket :=
  mkSocket (readyState ws) (statsInterval ws) (sent ws) (S (calls ws)) (console ws).

(** How the promise of an [async] call settles. *)
Inductive Promise : Type :=
| Fulfilled
| Rejected (e : Error).

(** [sendCurrentStats(ws)], run against the database [db].  [fault] is an
    error that the environment raises inside the [try] block (a read that
    rejects, a [ws.send] that throws); the reads and the send are taken at
    the instant of the call. *)
Definition sendCurrentStats (db : Db) (fault : option Error) (ws : Socket)
  : Promise * Socket :=
  let ws := called ws in
  let attempt :=
    match fault with
    | Some e => Err e
    | None => fst (run allStats db)
    end in
  match attempt with
  | Ok data => (Fulfilled, ws_send data ws)
  | Err _ => (Fulfilled, console_log "Error sending stats via WebSocket:" ws)
  end.

(** The callback given to [setInterval].  The call of the [async] function
    evaluates to its promise, which the callback drops. *)
Definition intervalCallback (db : Db) (fault : option Error) (ws : Socket)
  : Socket :=
  let attempt : Result unit * Socket :=
    if is_open (readyState ws)
    then let '(_, ws') := sendCurrentStats db fault ws in (Ok tt, ws')
    else (Ok tt, clearInterval ws) in
  match attempt with
  | (Ok _, ws') => ws'
  | (Err _, ws') => clearInterval (console_log "Error sending periodic stats:" ws')
  end.

(** [wss.on("connection", (ws) => ...)]: the socket is open when the event
    is emitted. *)
Definition accepted : Socket := mkSocket OPEN None [] O [].

Definition onConnection (db : Db) (fault : option Error) : Socket :=
  let ws := console_log "Stats WebSocket client connected" accepted in
  let attempt : Result unit * Socket :=
    let '(_, ws') := sendCurrentStats db fault ws in
    (Ok tt, setInterval 5000 ws') in
  match attempt with
  | (Ok _, ws') => ws'
  | (Err _, ws') => console_log "Error in WebSocket connection handler:" ws'
  end.

(** What happens to a connection afterwards. *)
Inductive Event : Type :=
| Tick (db : Db) (fault : option Error)
| Closing
| Close
| SocketError.


Definition step (ws : Socket) (ev : Event) : Socket :=
  match ev with
  | Tick db fault =>
      match statsInterval ws with
      | Some _ => intervalCallback db fault ws
      | None => ws
      end
  | Closing => set_readyState CLOSING ws
  | Close =>
      console_log "Stats WebSocket client disconnected"
        (clearInterval (set_readyState CLOSED ws))
  | SocketError =>
      clearInterval (console_log "Stats WebSocket error:" (set_readyState CLOSING ws))
  end.

Definition connection (db : Db) (fault : option Error) (evs : list Event) : Socket :=
  fold_left step evs (onConnection db fault).


(* ------------------------------------------------------------------ *)
(** ** Sequences of settings updates *)

Inductive SettingsCall : Type :=
| UpdateInstallerSettings (now : Timestamp) (v : InsertInstallerSettings.t)
| UpdateApiConfig (v : InsertApiConfig.t)
| UpdateSiteSettings (now : Timestamp) (v : InsertSiteSettings.t)
| UpdateLogo (now : Timestamp) (logoUrl : string).

Definition perform (db : Db) (c : SettingsCall) : Db :=
  match c with
  | UpdateInstallerSettings now v => snd (run (storage.updateInstallerSettings now v) db)
  | UpdateApiConfig v => snd (run (storage.updateApiConfig v) db)
  | UpdateSiteSettings now v => snd (run (storage.updateSiteSettings now v) db)
  | UpdateLogo now logoUrl => snd (run (storage.updateLogo now logoUrl) db)
  end.

Definition at_most_one {R : Type} (t : Table R) : Prop :=
  (List.length (rows t) <= 1)%nat.

Definition singletons (db : Db) : Prop :=
  at_most_one (installerSettings db)
  /\ at_most_one (apiConfig db)
  /\ at_most_one (siteSettings db).

(* ------------------------------------------------------------------ *)
(** ** Sample data *)

Definition empty_db : Db :=
  mkDb (mkTable [] 1) (mkTable [] 1) (mkTable [] 1) (mkTable [] 1)
       (mkTable [] 1) (mkTable [] 1) (mkTable [] 1).

Definition survival : InsertServer.t :=
  InsertServer.mk "survival" "Survival" None None "1.0.0" None "1.20.1"
    "Fabric" "0.16.13" Absent Absent.

Definition survival_row : Server.t :=
  Server.mk 1 "survival" "Survival" None None "1.0.0" None "1.20.1"
    "Fabric" "0.16.13" (Some false) (Some false) 1000 1000.

Definition creative_row : Server.t :=
  Server.mk 2 "creative" "Creative" None None "1.0.0" None "1.20.1"
    "Fabric" "0.16.13" (Some false) (Some false) 1000 1000.

Definition config_row : ApiConfig.t :=
  ApiConfig.mk 1 None None None None (Some "1.0.0").

Definition options_txt : File.t :=
  File.mk 1 "survival" "config/options.txt" (Some false) (Some false) (Some 12) 1000.

Definition config_dir : File.t :=
  File.mk 2 "survival" "config" (Some true) (Some false) (Some 0) 1000.

Definition sodium : Mod.t :=
  Mod.mk 1 "survival" "sodium" "Sodium" "FabricMod" None (Some false) (Some true)
    (Some true) (Some 2048) "https://cdn.example.org/sodium.jar" None 1000 1000.


Definition fabric_api : Mod.t :=
  Mod.mk 3 "survival" "fabric-api" "Fabric API" "Library" None (Some true) (Some true)
    (Some true) None "https://cdn.example.org/fabric-api.jar" (Some "9e107d9d") 1000 1000.

(** One server, its API config row, and the given mods and files. *)
Definition panel (ms : list Mod.t) (fs : list File.t) : Db :=
  mkDb (mkTable [survival_row] 2) (mkTable ms 4) (mkTable fs 3) (mkTable [] 1)
       (mkTable [] 1) (mkTable [config_row] 2) (mkTable [] 1).

(** Node's [path.basename] on POSIX paths: the last non-empty segment. *)
Fixpoint last_segment (cs last cur : list ascii) : list ascii :=
  match cs with
  | [] => match cur with [] => last | _ :: _ => cur end
  | c :: cs' =>
      if Ascii.eqb c "/"
      then last_segment cs' (match cur with [] => last | _ :: _ => cur end) []
      else last_segment cs' last (cur ++ [c])
  end.

Definition node_path : PathModule :=
  mkPath (fun p => string_of_list_ascii (last_segment (list_ascii_of_string p) [] [])).

(** A scope in which [path] is bound to Node's module, as in routes.ts. *)
Definition with_path : Scope := mkScope (Some node_path).

Definition mods_a : File.t :=
  File.mk 1 "survival" "mods_a" (Some true) (Some false) (Some 0) 1000.

Definition mods_a_jar : File.t :=
  File.mk 2 "survival" "mods_a/x.jar" (Some false) (Some false) (Some 7) 1000.

Definition modsXa_jar : File.t :=
  File.mk 3 "survival" "modsXa/y.jar" (Some false) (Some false) (Some 7) 1000.

Definition creative_mods_a : File.t :=
  File.mk 4 "creative" "mods_a" (Some true) (Some false) (Some 0) 1000.

Definition mods_ab : File.t :=
  File.mk 5 "survival" "mods_ab" (Some true) (Some false) (Some 0) 1000.

(** Two servers and five file rows. *)
Definition shelves : Db :=
  mkDb (mkTable [survival_row; creative_row] 3) (mkTable [] 1)
       (mkTable [mods_a; mods_a_jar; modsXa_jar; creative_mods_a; mods_ab] 6)
       (mkTable [] 1) (mkTable [] 1) (mkTable [] 1) (mkTable [] 1).

(** A database outage during one snapshot. *)
Definition outage : Error := DatabaseError "Connection terminated unexpectedly".

Definition snapshot : list StatsEntry :=
  [mkStatsEntry "survival" "Survival" Zeros].

(* ------------------------------------------------------------------ *)
(** ** Values of the programs on a database *)

(** The outcome of [Promise.all] over reads that each settle as [g] says. *)
Fixpoint collect {A B : Type} (g : A -> Result B) (xs : list A) : Result (list B) :=
  match xs with
  | [] => Ok []
  | x :: xs' =>
      match g x with
      | Err e => Err e
      | Ok y =>
          match collect g xs' with
          | Err e => Err e
          | Ok ys => Ok (y :: ys)
          end
      end
  end.

Definition mods_of (db : Db) (serverId : string) : list Mod.t :=
  filter (fun m => String.eqb (Mod.serverId m) serverId) (rows (mods db)).

Definition files_of (db : Db) (serverId : string) : list File.t :=
  filter (fun f => String.eqb (File.serverId f) serverId) (rows (files db)).

Definition is_file (f : File.t) : bool := negb (truthy (File.isDirectory f)).

(** The table the call reads and writes, as the ids of its rows. *)
Definition target_ids (c : SettingsCall) (db : Db) : list Z :=
  match c with
  | UpdateInstallerSettings _ _ => map InstallerSetting.id (rows (installerSettings db))
  | UpdateApiConfig _ => map ApiConfig.id (rows (apiConfig db))
  | UpdateSiteSettings _ _ => map SiteSettings.id (rows (siteSettings db))
  | UpdateLogo _ _ => map SiteSettings.id (rows (siteSettings db))
  end.


(* ------------------------------------------------------------------ *)
(** ** [DatabaseStorage], the remaining operations on servers, mods and files *)

Module InsertFile.
Record t : Type := mk {
    serverId : string;
    path : string;
    isDirectory : Opt bool;
    isSticky : Opt bool;
    size : option Z
  }.
End InsertFile.

Definition set_files (t : Table File.t) (db : Db) : Db :=
  mkDb (servers db) (mods db) t (serverStats db) (installerSettings db)
       (apiConfig db) (siteSettings db).

(** [DELETE ... WHERE p]: the sequence is not touched. *)
Definition delete_where {R : Type} (p : R -> bool) (t : Table R) : Table R :=
  mkTable (filter (fun r => negb (p r)) (rows t)) (nextval t).

Module DatabaseStorage.

(** [mods], [files] and [server_stats] reference [servers.server_id] with
    [onDelete: 'cascade']: their rows go with the server's. *)
Definition delete_server (id : string) : Stmt unit := fun db =>
  (Ok tt,
   mkDb (delete_where (fun s => String.eqb (Server.serverId s) id) (servers db))
        (delete_where (fun m => String.eqb (Mod.serverId m) id) (mods db))
        (delete_where (fun f => String.eqb (File.serverId f) id) (files db))
        (delete_where (fun s => String.eqb (ServerStat.serverId s) id) (serverStats db))
        (installerSettings db) (apiConfig db) (siteSettings db)).

Definition deleteServer (id : string) : Async bool :=
  _ <- await (delete_server id) ;;
  Return true.

Definition select_mod (id : Z) : Stmt (list Mod.t) := fun db =>
  (Ok (filter (fun m => Mod.id m =? id) (rows (mods db))), db).

Definition getMod (id : Z) : Async (option Mod.t) :=
  xs <- await (select_mod id) ;;
  Return (first xs).

Definition delete_mod (id : Z) : Stmt unit := fun db =>
  (Ok tt, set_mods (delete_where (fun m => Mod.id m =? id) (mods db)) db).

Definition deleteMod (id : Z) : Async bool :=
  _ <- await (delete_mod id) ;;
  Return true.

Definition select_file (id : Z) : Stmt (list File.t) := fun db =>
  (Ok (filter (fun f => File.id f =? id) (rows (files db))), db).

Definition getFile (id : Z) : Async (option File.t) :=
  xs <- await (select_file id) ;;
  Return (first xs).

(** [server_id] references [servers.server_id]. *)
Definition insert_file (v : InsertFile.t) (lastModified : Timestamp)
  : Stmt File.t := fun db =>
  let t := files db in
  if existsb (fun s => String.eqb (Server.serverId s) (InsertFile.serverId v))
             (rows (servers db))
  then
    let '(r, t') :=
      append (fun i =>
        File.mk i (InsertFile.serverId v) (InsertFile.path v)
          (or_default false (InsertFile.isDirectory v))
          (or_default false (InsertFile.isSticky v))
          (InsertFile.size v) lastModified) t in
    (Ok r, set_files t' db)
  else (Err (DatabaseError "files_server_id_servers_server_id_fk"),
        set_files (refuse t) db).

Definition createFile (now : Timestamp) (insertFile : InsertFile.t) : Async File.t :=
  await (insert_file insertFile now).

Definition delete_file (id : Z) : Stmt unit := fun db =>
  (Ok tt, set_files (delete_where (fun f => File.id f =? id) (files db)) db).

Definition deleteFile (id : Z) : Async bool :=
  _ <- await (delete_file id) ;;
  Return true.

(** [settings?.isInstalled || false]. *)
Definition isInstalled : Async bool :=
  xs <- await storage.select_installerSettings ;;
  Return (match first xs with
          | Some settings => truthy (InstallerSetting.isInstalled settings)
          | None => false
          end).

End DatabaseStorage.

(* ------------------------------------------------------------------ *)
(** ** Referential integrity *)

Definition known (db : Db) (serverId : string) : bool :=
  existsb (fun s => String.eqb (Server.serverId s) serverId) (rows (servers db)).

(** What the unique and foreign keys of the schema state. *)
Definition consistent (db : Db) : Prop :=
  NoDup (map Server.serverId (rows (servers db)))
  /\ Forall (fun m => known db (Mod.serverId m) = true) (rows (mods db))
  /\ Forall (fun f => known db (File.serverId f) = true) (rows (files db))
  /\ Forall (fun s => known db (ServerStat.serverId s) = true) (rows (serverStats db)).

Inductive Write : Type :=
| CreateServer (now : Timestamp) (v : InsertServer.t)
| DeleteServer (id : string)
| CreateMod (now : Timestamp) (v : InsertMod.t)
| DeleteMod (id : Z)
| CreateFile (now : Timestamp) (v : InsertFile.t)
| DeleteFile (id : Z)
| CreateServerStat (now : Timestamp) (v : InsertServerStat.t)
| Settings (c : SettingsCall).

Definition write (db : Db) (w : Write) : Db :=
  match w with
  | CreateServer now v => snd (run (storage.createServer now v) db)
  | DeleteServer id => snd (run (DatabaseStorage.deleteServer id) db)
  | CreateMod now v => snd (run (storage.createMod now v) db)
  | DeleteMod id => snd (run (DatabaseStorage.deleteMod id) db)
  | CreateFile now v => snd (run (DatabaseStorage.createFile now v) db)
  | DeleteFile id => snd (run (DatabaseStorage.deleteFile id) db)
  | CreateServerStat now v => snd (run (storage.createServerStat now v) db)
  | Settings c => perform db c
  end.

(** The rows of the four server-related tables, without the sequences. *)
Definition content (db : Db)
  : list Server.t * list Mod.t * list File.t * list ServerStat.t :=
  (rows (servers db), rows (mods db), rows (files db), rows (serverStats db)).

Definition stats_of (db : Db) (serverId : string) : list ServerStat.t :=
  filter (fun s => String.eqb (ServerStat.serverId s) serverId) (rows (serverStats db)).

(** Two servers stored in reverse order of name, with an API config row. *)
Definition shelves_with_config : Db :=
  mkDb (mkTable [survival_row; creative_row] 3) (mkTable [] 1) (mkTable [] 1)
       (mkTable [] 1) (mkTable [] 1) (mkTable [config_row] 2) (mkTable [] 1).

(* ------------------------------------------------------------------ *)
(** ** JavaScript strings, as the routes and the file browser use them *)

(** [s.split('/')]: never empty. *)
Fixpoint split_slash (s : string) : list string :=
  match s with
  | EmptyString => [EmptyString]
  | String c s' =>
      if Ascii.eqb c "/" then EmptyString :: split_slash s'
      else
        match split_slash s' with
        | part :: parts => String c part :: parts
        | [] => [String c EmptyString]
        end
  end.

(** [parts.join('/')]. *)
Fixpoint join_slash (parts : list string) : string :=
  match parts with
  | [] => ""
  | part :: rest =>
      match rest with
      | [] => part
      | _ :: _ => part ++ "/" ++ join_slash rest
      end
  end.

(** [s.split('/').pop()]. *)
Definition pop_split (s : string) : string := last (split_slash s) "".

(** [s.includes('/')]. *)
Fixpoint includes_slash (s : string) : bool :=
  match s with
  | EmptyString => false
  | String c s' => Ascii.eqb c "/" || includes_slash s'
  end.

(** [s.slice(n)] for [0 <= n]. *)
Fixpoint slice (n : nat) (s : string) : string :=
  match n, s with
  | O, _ => s
  | S n', String _ s' => slice n' s'
  | S _, EmptyString => EmptyString
  end.

(** A path with no backslash, the escape character of [LIKE]. *)
Fixpoint no_backslash (p : string) : bool :=
  match p with
  | EmptyString => true
  | String c p' => negb (Ascii.eqb c "\") && no_backslash p'
  end.

(* ------------------------------------------------------------------ *)
(** ** server/routes.ts: installer, server and file routes *)

Inductive Payload : Type :=
| Empty
| Message (message : string)
| InstalledJson (installed : bool)
| InstallerJson (settings : option InstallerSetting.t)
| ServerJson (server : Server.t)
| FileJson (file : File.t).

Record Reply : Type := mkReply {
  code : Z;
  payload : Payload
}.

(** [handleError(error, res)] on these routes. *)
Definition reply_error (error : Error) : Reply :=
  let res := handleError error in
  mkReply (status res)
    (match body res with
     | MessageBody message => Message message
     | ErrorBody message => Message message
     | _ => Empty
     end).

(** [req.file] as multer leaves it. *)
Record UploadedFile : Type := mkUploadedFile {
  originalname : string;
  file_size : Z
}.

(** How the two disk calls of the delete route end: [None] when the call
    succeeds, the error it throws otherwise. *)
Record Disk : Type := mkDisk {
  fs_remove : option Error;
  fs_unlink : option Error
}.

Section Routes.

Variable RequestBody : Type.
Variable insertInstallerSettingsSchema_parse
  : RequestBody -> Result InsertInstallerSettings.t.
Variable insertServerSchema_parse : RequestBody -> Result InsertServer.t.

(** [app.get("/api/installer/status", ...)]. *)
Definition get_api_installer_status : Async Reply :=
  try_catch
    (isInstalled <- DatabaseStorage.isInstalled ;;
     Return (mkReply 200 (InstalledJson isInstalled)))
    (fun _ => Return (mkReply 500 (Message "Failed to check installation status"))).

(** [app.post("/api/installer/complete", ...)]. *)
Definition post_api_installer_complete (now : Timestamp) (req_body : RequestBody)
  : Async Reply :=
  try_catch
    (match insertInstallerSettingsSchema_parse req_body with
     | Err e => Throw e
     | Ok installerData =>
         settings <- storage.updateInstallerSettings now
                       (InsertInstallerSettings.mk (Given (Some true))
                          (InsertInstallerSettings.dbHost installerData)
                          (InsertInstallerSettings.dbPort installerData)
                          (InsertInstallerSettings.dbName installerData)
                          (InsertInstallerSettings.dbUser installerData)) ;;
         Return (mkReply 201 (InstallerJson settings))
     end)
    (fun error => Return (reply_error error)).

(** [app.get("/api/servers/:id", ...)]. *)
Definition get_api_server (id : string) : Async Reply :=
  try_catch
    (server <- storage.getServer id ;;
     match server with
     | None => Return (mkReply 404 (Message "Server not found"))
     | Some server => Return (mkReply 200 (ServerJson server))
     end)
    (fun error => Return (reply_error error)).

(** [app.post("/api/servers", ...)]. *)
Definition post_api_servers (now : Timestamp) (isAuthenticated : bool)
  (req_body : RequestBody) : Async Reply :=
  try_catch
    (if negb isAuthenticated
     then Return (mkReply 401 (Message "Not authenticated"))
     else
       match insertServerSchema_parse req_body with
       | Err e => Throw e
       | Ok serverData =>
           server <- storage.createServer now serverData ;;
           Return (mkReply 201 (ServerJson server))
       end)
    (fun error => Return (reply_error error)).

(** [app.delete("/api/servers/:id", ...)]. *)
Definition delete_api_server (isAuthenticated : bool) (id : string) : Async Reply :=
  try_catch
    (if negb isAuthenticated
     then Return (mkReply 401 (Message "Not authenticated"))
     else
       _ <- DatabaseStorage.deleteServer id ;;
       Return (mkReply 204 Empty))
    (fun error => Return (reply_error error)).

End Routes.

(** The handler of [app.post("/api/files/:serverId/upload", ...)], run
    after multer has stored the file. *)
Definition post_api_files_upload (now : Timestamp) (isAuthenticated : bool)
  (req_file : option UploadedFile) (serverId : string) (query_path : option string)
  : Async Reply :=
  try_catch
    (if negb isAuthenticated
     then Return (mkReply 401 (Message "Not authenticated"))
     else
       match req_file with
       | None => Return (mkReply 400 (Message "No file uploaded"))
       | Some req_file =>
           let uploadPath := or_str query_path "" in
           let fullPath :=
             if String.eqb uploadPath "" then originalname req_file
             else uploadPath ++ "/" ++ originalname req_file in
           existingFiles <- storage.getFiles serverId (Some uploadPath) ;;
           if existsb (fun f => String.eqb (pop_split (File.path f))
                                           (originalname req_file))
                      existingFiles
           then Return (mkReply 400
                  (Message "A file with this name already exists in this directory"))
           else
             file <- DatabaseStorage.createFile now
                       (InsertFile.mk serverId fullPath (Given (Some false)) Absent
                          (Some (file_size req_file))) ;;
             Return (mkReply 200 (FileJson file))
       end)
    (fun error => Return (reply_error error)).

(** [app.delete("/api/files/:serverId/delete", ...)], with the body's
    [path] as a string when it is one. *)
Definition delete_api_files (disk : Disk) (isAuthenticated : bool)
  (serverId : string) (filePath : option string) (isDirectory : bool)
  : Async Reply :=
  try_catch
    (if negb isAuthenticated
     then Return (mkReply 401 (Message "Not authenticated"))
     else
       match filePath with
       | None => Return (mkReply 400 (Message "Path is required"))
       | Some filePath =>
           if String.eqb filePath ""
           then Return (mkReply 400 (Message "Path is required"))
           else
             match (if isDirectory then fs_remove disk else fs_unlink disk) with
             | Some e => Throw e
             | None =>
                 files <- storage.getFiles serverId (Some filePath) ;;
                 _ <- for_each files (fun file =>
                        _ <- DatabaseStorage.deleteFile (File.id file) ;;
                        Return tt) ;;
                 Return (mkReply 204 Empty)
             end
       end)
    (fun error => Return (reply_error error)).

(* ------------------------------------------------------------------ *)
(** ** client/src/components/files/file-browser.tsx *)

(** The filter of the query function: whether a row the server returned is
    shown in the directory [currentPath]. *)
Definition shown (currentPath : string) (file : File.t) : bool :=
  if String.eqb currentPath "" && negb (includes_slash (File.path file))
  then true
  else if negb (String.eqb currentPath "")
  then
    let parentPath := currentPath ++ "/" in
    String.prefix parentPath (File.path file)
    && negb (includes_slash (slice (String.length parentPath) (File.path file)))
  else false.

(** [handleNavigateUp]: the next value of [currentPath]. *)
Definition handleNavigateUp (currentPath : string) : string :=
  if String.eqb currentPath "" then currentPath
  else join_slash (removelast (split_slash currentPath)).

(** A file two levels below ["config"]. *)
Definition nested_options : File.t :=
  File.mk 3 "survival" "config/sub/options.txt" (Some false) (Some false) (Some 12) 1000.

Definition server_properties : UploadedFile := mkUploadedFile "server.properties" 640.

(* ------------------------------------------------------------------ *)
(** * Properties *)

(** ** Running programs *)

Lemma run_bind : forall (A B : Type) (p : Async A) (f : A -> Async B) (db : Db),
  run (bind p f) db =
  match run p db with
  | (Ok a, db') => run (f a) db'
  | (Err e, db') => (Err e, db')
  end.
Proof.
  induction p as [a | e | C q k IH]; intros f db; simpl; try reflexivity.
  destruct (q db) as [[b | e] db']; [apply IH | reflexivity].
Qed.

Lemma run_try_catch : forall (A : Type) (p : Async A) (h : Error -> Async A) (db : Db),
  run (try_catch p h) db =
  match run p db with
  | (Ok a, db') => (Ok a, db')
  | (Err e, db') => run (h e) db'
  end.
Proof.
  induction p as [a | e | C q k IH]; intros h db; simpl; try reflexivity.
  destruct (q db) as [[b | e] db']; [apply IH | reflexivity].
Qed.

Lemma run_await : forall (A : Type) (q : Stmt A) (db : Db),
  run (await q) db = q db.
Proof.
  intros A q db. unfold await. simpl.
  destruct (q db) as [[a | e] db']; reflexivity.
Qed.

Lemma run_all : forall (A B : Type) (f : A -> Async B) (g : A -> Result B) (db : Db),
  (forall x, run (f x) db = (g x, db)) ->
  forall xs, run (all xs f) db = (collect g xs, db).
Proof.
  intros A B f g db Hf xs.
  induction xs as [| x xs IH]; simpl; [reflexivity |].
  rewrite run_bind, Hf.
  destruct (g x) as [y | e]; [| reflexivity].
  rewrite run_bind, IH.
  destruct (collect g xs) as [ys | e]; reflexivity.
Qed.


(** ** The manifest builder *)

Example basename_of_nested_file :
  basename node_path "config/options.txt" = "options.txt".
Proof. reflexivity. Qed.

Example manifest_of_mods_only :
  fst (run (get_api_distribution api_ts) (panel [fabric_api] [config_dir]))
  = Ok (mkResponse 200 (DistributionBody
      (mkDistribution "1.0.0" "" (mkDiscord "" "logo" "logo")
         [mkServerEntry "survival" "Survival" "" "" "1.0.0" "" "1.20.1"
            (mkServerDiscord "" "logo" "logo_without_background")
            (Some false) (Some false)
            [mkModule "fabric-api" "Fabric API" "Library"
               (ModArtifact 0 "/uploads/survival/mods/fabric-api" "9e107d9d")
               None]]))).
Proof. reflexivity. Qed.

Example manifest_without_config :
  fst (run (get_api_distribution api_ts) empty_db)
  = Ok (mkResponse 500 (ErrorBody "API configuration not found")).
Proof. reflexivity. Qed.

Lemma push_mods : forall (server : Server.t) (ms : list Mod.t) (acc : list ModuleEntry),
  fold_left (fun modules m => (modules ++ [mod_entry server m])%list) ms acc
  = (acc ++ map (mod_entry server) ms)%list.
Proof.
  intros server ms. induction ms as [| m ms IH]; intros acc; simpl.
  - now rewrite app_nil_r.
  - rewrite IH, <- app_assoc. reflexivity.
Qed.

Lemma run_transformModsToModules :
  forall (sc : Scope) (ms : list Mod.t) (server : Server.t) (db : Db),
  run (transformModsToModules sc ms server) db
  = (push_files sc server (files_of db (Server.serverId server))
       (map (mod_entry server) ms), db).
Proof.
  intros sc ms server db. unfold transformModsToModules.
  rewrite run_bind. unfold storage.getFiles, storage.getFiles_as.
  rewrite run_await. simpl. rewrite push_mods. simpl.
  fold (files_of db (Server.serverId server)).
  destruct (push_files sc server _ _); reflexivity.
Qed.

Lemma push_files_bound :
  forall (p : PathModule) (server : Server.t) (fs : list File.t) (acc : list ModuleEntry),
  push_files (mkScope (Some p)) server fs acc
  = Ok (acc ++ map (file_entry p server) (filter is_file fs))%list.
Proof.
  intros p server fs. induction fs as [| f fs IH]; intros acc; simpl.
  - now rewrite app_nil_r.
  - unfold is_file at 1. destruct (negb (truthy (File.isDirectory f))); simpl.
    + rewrite IH, <- app_assoc. reflexivity.
    + apply IH.
Qed.

Lemma push_files_unbound :
  forall (server : Server.t) (fs : list File.t) (acc : list ModuleEntry),
  push_files api_ts server fs acc
  = if existsb is_file fs then Err (ReferenceError "path") else Ok acc.
Proof.
  intros server fs acc. induction fs as [| f fs IH]; simpl; [reflexivity |].
  unfold is_file at 1. destruct (negb (truthy (File.isDirectory f))); simpl.
  - reflexivity.
  - apply IH.
Qed.



Lemma run_getMods : forall (serverId : string) (db : Db),
  run (storage.getMods serverId) db = (Ok (mods_of db serverId), db).
Proof.
  intros. unfold storage.getMods. now rewrite run_await.
Qed.

Lemma run_get_api_distribution : forall (sc : Scope) (db : Db),
  run (get_api_distribution sc) db =
  (Ok match rows (apiConfig db) with
      | [] => mkResponse 500 (ErrorBody "API configuration not found")
      | cfg :: _ =>
          match collect
                  (fun server =>
                     match push_files sc server
                             (files_of db (Server.serverId server))
                             (map (mod_entry server)
                                  (mods_of db (Server.serverId server))) with
                     | Ok modules => Ok (server_entry cfg server modules)
                     | Err e => Err e
                     end)
                  (order_by (fun a b => String.leb (Server.name a) (Server.name b))
                            (rows (servers db))) with
          | Ok servers =>
              mkResponse 200 (DistributionBody
                (mkDistribution
                   (or_str (ApiConfig.version cfg) "1.0.0")
                   (or_str (ApiConfig.rssUrl cfg) "")
                   (mkDiscord
                      (or_str (ApiConfig.discordClientId cfg) "")
                      (or_str (ApiConfig.discordSmallImageText cfg) "logo")
                      (or_str (ApiConfig.discordSmallImageKey cfg) "logo"))
                   servers))
          | Err _ => mkResponse 500 (ErrorBody "Failed to generate distribution.json")
          end
      end, db).
Proof.
  intros sc db. unfold get_api_distribution.
  rewrite run_try_catch, run_bind.
  unfold storage.getApiConfig. rewrite run_bind. rewrite (run_await _ _ db).
  unfold storage.select_apiConfig. cbn [run].
  destruct (rows (apiConfig db)) as [| cfg rest]; cbn [first run]; [reflexivity |].
  rewrite run_bind. unfold storage.getServers. rewrite (run_await _ _ db).
  unfold storage.select_servers_ordered. rewrite run_bind.
  erewrite run_all.
  2:{ intros server. rewrite run_bind, run_getMods, run_bind,
        run_transformModsToModules.
      instantiate (1 := fun server =>
        match push_files sc server (files_of db (Server.serverId server))
                (map (mod_entry server) (mods_of db (Server.serverId server))) with
        | Ok modules => Ok (server_entry cfg server modules)
        | Err e => Err e
        end).
      simpl. destruct (push_files sc server _ _); reflexivity. }
  destruct (collect _ _); reflexivity.
Qed.

Lemma unbound_path_rejects :
  forall (ms : list Mod.t) (server : Server.t) (db : Db),
  run (transformModsToModules api_ts ms server) db
  = (if existsb is_file (files_of db (Server.serverId server))
     then Err (ReferenceError "path")
     else Ok (map (mod_entry server) ms), db).
Proof.
  intros ms server db.
  now rewrite run_transformModsToModules, push_files_unbound.
Qed.

(** Were [path] imported, every row that is not a directory would follow the
    mods as a ["File"] artifact with its size, url and path. *)
Lemma bound_path_lists_files :
  forall (p : PathModule) (ms : list Mod.t) (server : Server.t) (db : Db),
  run (transformModsToModules (mkScope (Some p)) ms server) db
  = (Ok (map (mod_entry server) ms
         ++ map (fun f =>
                   mkModule (basename p (File.path f)) (basename p (File.path f)) "File"
                     (FileArtifact (or_num (File.size f) 0)
                        ("/uploads/" ++ Server.serverId server ++ "/" ++ File.path f)
                        (File.path f))
                     None)
                (filter is_file (files_of db (Server.serverId server))))%list, db).
Proof.
  intros p ms server db.
  now rewrite run_transformModsToModules, push_files_bound.
Qed.

(** C1 (the code departs from the claim).  A server with one uploaded file
    that is not a directory: building its modules reads the identifier
    [path], which api.ts never binds, so the builder rejects with a
    ReferenceError instead of appending a ["File"] artifact, and the route
    answers 500 with no manifest. *)
Theorem uploaded_file_breaks_manifest :
  run (transformModsToModules api_ts [sodium] survival_row)
      (panel [sodium] [config_dir; options_txt])
  = (Err (ReferenceError "path"), panel [sodium] [config_dir; options_txt])
  /\ fst (run (get_api_distribution api_ts) (panel [sodium] [config_dir; options_txt]))
     = Ok (mkResponse 500 (ErrorBody "Failed to generate distribution.json")).
Proof.
  split; reflexivity.
Qed.








Lemma insert_sorted_perm :
  forall (R : Type) (le : R -> R -> bool) (x : R) (xs : list R),
  Permutation (insert_sorted le x xs) (x :: xs).
Proof.
  intros R le x xs. induction xs as [| y ys IH]; simpl; [reflexivity |].
  destruct (le x y); [reflexivity |].
  rewrite IH. apply perm_swap.
Qed.

Lemma order_by_perm : forall (R : Type) (le : R -> R -> bool) (xs : list R),
  Permutation (order_by le xs) xs.
Proof.
  intros R le xs. unfold order_by.
  induction xs as [| x xs IH]; simpl; [reflexivity |].
  rewrite insert_sorted_perm. now constructor.
Qed.

Lemma collect_all_ok :
  forall (A B : Type) (g : A -> Result B) (xs : list A),
  (forall x, In x xs -> exists y, g x = Ok y) ->
  exists ys, collect g xs = Ok ys.
Proof.
  intros A B g xs. induction xs as [| x xs IH]; intros Hok; simpl; [eauto |].
  destruct (Hok x (or_introl eq_refl)) as [y ->].
  destruct IH as [ys ->]; [intros x' Hx'; apply Hok; now right |].
  eauto.
Qed.

Lemma collect_one_err :
  forall (A B : Type) (g : A -> Result B) (xs : list A) (x : A) (e : Error),
  In x xs -> g x = Err e -> exists e', collect g xs = Err e'.
Proof.
  intros A B g xs x e. induction xs as [| x' xs IH]; intros Hin Hx; simpl.
  - destruct Hin.
  - destruct (g x') as [y | e1] eqn:Hx'; [| eauto].
    destruct Hin as [-> | Hin]; [congruence |].
    destruct (IH Hin Hx) as [e' ->]. eauto.
Qed.

(** C7.  With no row in [api_config] the distribution route answers 500
    with the body [{ error: "API configuration not found" }] and nothing
    else.  With a row, it answers 200 with a manifest in which [rss] and the
    discord [clientId] fall back to the empty string and [smallImageText]
    and [smallImageKey] to ["logo"] when the column is unset; the one
    exception is a builder that throws, which under a scope that leaves
    [path] unbound happens exactly when some stored server has a file row
    that is not a directory, and then the answer is 500 with
    [{ error: "Failed to generate distribution.json" }]. *)
Theorem distribution_needs_api_config : forall (sc : Scope) (db : Db),
  match rows (apiConfig db) with
  | [] =>
      run (get_api_distribution sc) db
      = (Ok (mkResponse 500 (ErrorBody "API configuration not found")), db)
  | cfg :: _ =>
      if match path_binding sc with
         | Some _ => false
         | None =>
             existsb (fun s => existsb is_file (files_of db (Server.serverId s)))
                     (rows (servers db))
         end
      then
        run (get_api_distribution sc) db
        = (Ok (mkResponse 500 (ErrorBody "Failed to generate distribution.json")), db)
      else
        exists d,
          run (get_api_distribution sc) db
          = (Ok (mkResponse 200 (DistributionBody d)), db)
          /\ d_rss d
             = match ApiConfig.rssUrl cfg with
               | Some s => if String.eqb s "" then "" else s
               | None => ""
               end
          /\ clientId (d_discord d)
             = match ApiConfig.discordClientId cfg with
               | Some s => if String.eqb s "" then "" else s
               | None => ""
               end
          /\ smallImageText (d_discord d)
             = match ApiConfig.discordSmallImageText cfg with
               | Some s => if String.eqb s "" then "logo" else s
               | None => "logo"
               end
          /\ smallImageKey (d_discord d)
             = match ApiConfig.discordSmallImageKey cfg with
               | Some s => if String.eqb s "" then "logo" else s
               | None => "logo"
               end
  end.
Proof.
  intros sc db. rewrite run_get_api_distribution.
  destruct (rows (apiConfig db)) as [| cfg rest]; [reflexivity |].
  set (by_name := order_by (fun a b => String.leb (Server.name a) (Server.name b))
                           (rows (servers db))).
  assert (Hperm : Permutation by_name (rows (servers db))) by apply order_by_perm.
  destruct sc as [[p |]]; cbn [path_binding].
  - match goal with
    | |- context [collect ?g by_name] => destruct (collect_all_ok _ _ g by_name) as [ys ->]
    end.
    + intros s _. rewrite push_files_bound. eauto.
    + eexists. split; [reflexivity |]. repeat split.
  - change (mkScope None) with api_ts.
    destruct (existsb _ (rows (servers db))) eqn:Hany.
    + apply existsb_exists in Hany. destruct Hany as [s [Hin Hs]].
      match goal with
      | |- context [collect ?g by_name] =>
          destruct (collect_one_err _ _ g by_name s (ReferenceError "path")) as [e ->]
      end.
      * exact (Permutation_in _ (Permutation_sym Hperm) Hin).
      * rewrite push_files_unbound, Hs. reflexivity.
      * reflexivity.
    + match goal with
      | |- context [collect ?g by_name] => destruct (collect_all_ok _ _ g by_name) as [ys ->]
      end.
      * intros s Hin. rewrite push_files_unbound.
        assert (Hs : existsb is_file (files_of db (Server.serverId s)) = false).
        { apply not_true_is_false. intros Hs.
          assert (Hex : existsb (fun s => existsb is_file (files_of db (Server.serverId s)))
                                (rows (servers db)) = true).
          { apply existsb_exists. exists s.
            split; [exact (Permutation_in _ Hperm Hin) | exact Hs]. }
          congruence. }
        rewrite Hs. eauto.
      * eexists. split; [reflexivity |]. repeat split.
Qed.

Lemma distribution_needs_api_config_witness :
  run (get_api_distribution api_ts) empty_db
  = (Ok (mkResponse 500 (ErrorBody "API configuration not found")), empty_db)
  /\ (exists d,
        run (get_api_distribution api_ts) (panel [fabric_api] [config_dir])
        = (Ok (mkResponse 200 (DistributionBody d)), panel [fabric_api] [config_dir])
        /\ d_rss d = ""
        /\ clientId (d_discord d) = ""
        /\ smallImageText (d_discord d) = "logo"
        /\ smallImageKey (d_discord d) = "logo")
  /\ run (get_api_distribution api_ts) (panel [fabric_api] [config_dir; options_txt])
     = (Ok (mkResponse 500 (ErrorBody "Failed to generate distribution.json")),
        panel [fabric_api] [config_dir; options_txt]).
Proof.
  split; [| split].
  - exact (distribution_needs_api_config api_ts empty_db).
  - exact (distribution_needs_api_config api_ts (panel [fabric_api] [config_dir])).
  - exact (distribution_needs_api_config api_ts
             (panel [fabric_api] [config_dir; options_txt])).
Defined.

(** Under api.ts's own bindings the manifest is produced when every file
    row is a directory. *)
Lemma manifest_without_files : forall (db : Db) (cfg : ApiConfig.t) (rest : list ApiConfig.t),
  rows (apiConfig db) = cfg :: rest ->
  (forall f, In f (rows (files db)) -> is_file f = false) ->
  exists d, run (get_api_distribution api_ts) db
            = (Ok (mkResponse 200 (DistributionBody d)), db).
Proof.
  intros db cfg rest Hcfg Hdirs.
  rewrite run_get_api_distribution, Hcfg.
  assert (Hall : forall xs, exists ys,
            collect (fun server =>
                       match push_files api_ts server
                               (files_of db (Server.serverId server))
                               (map (mod_entry server)
                                    (mods_of db (Server.serverId server))) with
                       | Ok modules => Ok (server_entry cfg server modules)
                       | Err e => Err e
                       end) xs = Ok ys).
  { induction xs as [| s xs [ys IH]]; simpl; [eauto |].
    rewrite push_files_unbound.
    assert (Hnone : existsb is_file (files_of db (Server.serverId s)) = false).
    { apply not_true_is_false. intros Hex.
      apply existsb_exists in Hex. destruct Hex as [f [Hin Hf]].
      unfold files_of in Hin. apply filter_In in Hin.
      rewrite (Hdirs f (proj1 Hin)) in Hf. discriminate. }
    rewrite Hnone, IH. eauto. }
  destruct (Hall (order_by (fun a b => String.leb (Server.name a) (Server.name b))
                           (rows (servers db)))) as [ys ->].
  eauto.
Qed.

(** ** Server creation *)

Lemma insert_mod_known_server :
  forall (v : InsertMod.t) (updatedAt now : Timestamp) (db : Db),
  existsb (fun s => String.eqb (Server.serverId s) (InsertMod.serverId v))
          (rows (servers db)) = true ->
  storage.insert_mod v updatedAt now db
  = (let r := Mod.mk (nextval (mods db)) (InsertMod.serverId v) (InsertMod.modId v)
                (InsertMod.name v) (InsertMod.type v) (InsertMod.version v)
                (or_default true (InsertMod.required v))
                (or_default true (InsertMod.enabled v))
                (or_default false (InsertMod.optionalDefault v))
                (InsertMod.size v) (InsertMod.url v) (InsertMod.md5 v)
                now updatedAt in
     (Ok r, set_mods (mkTable (rows (mods db) ++ [r]) (nextval (mods db) + 1)) db)).
Proof.
  intros v updatedAt now db Hfk. unfold storage.insert_mod.
  rewrite Hfk. reflexivity.
Qed.

Lemma run_createServer :
  forall (now : Timestamp) (ins : InsertServer.t) (db : Db),
  run (storage.createServer now ins) db
  = if existsb (fun s => String.eqb (Server.serverId s) (InsertServer.serverId ins))
               (rows (servers db))
    then (Err (DatabaseError "servers_server_id_unique"),
          set_servers (refuse (servers db)) db)
    else
      let server :=
        Server.mk (nextval (servers db)) (InsertServer.serverId ins)
          (InsertServer.name ins) (InsertServer.description ins)
          (InsertServer.icon ins) (InsertServer.version ins)
          (InsertServer.address ins) (InsertServer.minecraftVersion ins)
          (InsertServer.loaderType ins) (InsertServer.loaderVersion ins)
          (or_default false (InsertServer.mainServer ins))
          (or_default false (InsertServer.autoconnect ins)) now now in
      let loader :=
        Mod.mk (nextval (mods db)) (InsertServer.serverId ins)
          "net.fabricmc:fabric-loader:0.16.13" "Fabric" "Library" None
          (Some true) (Some true) (Some false) None
          "https://maven.fabricmc.net/net/fabricmc/fabric-loader/0.16.13/fabric-loader-0.16.13.jar"
          None now now in
      let intermediary :=
        Mod.mk (nextval (mods db) + 1) (InsertServer.serverId ins)
          "net.fabricmc:intermediary:1.20.1" "Fabric Intermediary" "Library" None
          (Some true) (Some true) (Some false) None
          "https://maven.fabricmc.net/net/fabricmc/intermediary/1.20.1/intermediary-1.20.1.jar"
          None now now in
      (Ok server,
       set_mods (mkTable (rows (mods db) ++ [loader; intermediary])
                         (nextval (mods db) + 1 + 1))
         (set_servers (mkTable (rows (servers db) ++ [server])
                               (nextval (servers db) + 1)) db)).
Proof.
  intros now ins db. unfold storage.createServer.
  rewrite run_bind. rewrite (run_await _ _ db).
  unfold storage.insert_server.
  destruct (existsb _ (rows (servers db))) eqn:Hdup; [reflexivity |].
  cbn [append]. cbv zeta.
  set (server := Server.mk _ _ _ _ _ _ _ _ _ _ _ _ _ _).
  set (db1 := set_servers _ db).
  assert (Hfk : existsb (fun s => String.eqb (Server.serverId s)
                                    (InsertServer.serverId ins))
                        (rows (servers db1)) = true).
  { unfold db1. cbn [servers set_servers rows]. rewrite existsb_app. simpl.
    rewrite String.eqb_refl. now rewrite orb_true_r. }
  rewrite run_bind. unfold storage.defaultLibraries, storage.createMod.
  cbn [for_each lib_id lib_name lib_type lib_url].
  rewrite run_bind, run_bind. rewrite (run_await _ _ db1).
  rewrite insert_mod_known_server by exact Hfk.
  cbv zeta. cbn [run].
  set (db2 := set_mods _ db1).
  rewrite run_bind, run_bind. rewrite (run_await _ _ db2).
  rewrite insert_mod_known_server by exact Hfk.
  cbv zeta. cbn [run].
  unfold db2, db1, server. cbn.
  rewrite <- app_assoc. reflexivity.
Qed.

Lemma createServer_refused :
  forall (now : Timestamp) (ins : InsertServer.t) (db : Db),
  existsb (fun s => String.eqb (Server.serverId s) (InsertServer.serverId ins))
          (rows (servers db)) = true ->
  exists e db',
    run (storage.createServer now ins) db = (Err e, db')
    /\ rows (servers db') = rows (servers db)
    /\ rows (mods db') = rows (mods db).
Proof.
  intros now ins db Hdup. rewrite run_createServer, Hdup.
  eexists. eexists. repeat split.
Qed.

Lemma createServer_accepted :
  forall (now : Timestamp) (ins : InsertServer.t) (db : Db),
  existsb (fun s => String.eqb (Server.serverId s) (InsertServer.serverId ins))
          (rows (servers db)) = false ->
  exists server db', run (storage.createServer now ins) db = (Ok server, db').
Proof.
  intros now ins db Hnew. rewrite run_createServer, Hnew.
  eexists. eexists. reflexivity.
Qed.

Lemma createServer_first_suspension :
  forall (now : Timestamp) (ins : InsertServer.t) (db : Db),
  snd (run_upto 1 (storage.createServer now ins) db)
  = snd (storage.insert_server ins now now db).
Proof.
  intros now ins db. unfold storage.createServer, await.
  cbn [bind run_upto].
  destruct (storage.insert_server ins now now db) as [[server | e] db'];
    reflexivity.
Qed.

(** C3, as the code has it.  A call of [createServer] that succeeds has
    inserted the server row and exactly two rows of [mods], both on the new
    server's [serverId], of type ["Library"], with [required] true: the
    loader ["net.fabricmc:fabric-loader:0.16.13"] and the intermediary
    ["net.fabricmc:intermediary:1.20.1"], each with its fixed maven url.
    The library rows are inserted by statements of their own after the
    server row: at the call's first suspension point the server row is
    stored and [mods] is as it was. *)
Theorem createServer_seeds_two_libraries :
  forall (now : Timestamp) (ins : InsertServer.t) (db db' : Db) (server : Server.t),
  run (storage.createServer now ins) db = (Ok server, db') ->
  Server.serverId server = InsertServer.serverId ins
  /\ rows (servers db') = (rows (servers db) ++ [server])%list
  /\ rows (mods db')
     = (rows (mods db)
        ++ [ Mod.mk (nextval (mods db)) (Server.serverId server)
               "net.fabricmc:fabric-loader:0.16.13" "Fabric" "Library" None
               (Some true) (Some true) (Some false) None
               "https://maven.fabricmc.net/net/fabricmc/fabric-loader/0.16.13/fabric-loader-0.16.13.jar"
               None now now;
             Mod.mk (nextval (mods db) + 1) (Server.serverId server)
               "net.fabricmc:intermediary:1.20.1" "Fabric Intermediary" "Library" None
               (Some true) (Some true) (Some false) None
               "https://maven.fabricmc.net/net/fabricmc/intermediary/1.20.1/intermediary-1.20.1.jar"
               None now now ])%list
  /\ rows (servers (snd (run_upto 1 (storage.createServer now ins) db)))
     = (rows (servers db) ++ [server])%list
  /\ rows (mods (snd (run_upto 1 (storage.createServer now ins) db)))
     = rows (mods db).
Proof.
  intros now ins db db' server Hrun.
  rewrite createServer_first_suspension.
  rewrite run_createServer in Hrun. unfold storage.insert_server.
  destruct (existsb _ (rows (servers db))); [discriminate |].
  cbv zeta in Hrun. injection Hrun as <- <-.
  repeat split.
Qed.

Lemma createServer_seeds_two_libraries_witness :
  Server.serverId survival_row = InsertServer.serverId survival
  /\ rows (servers (snd (run (storage.createServer 1000 survival) empty_db)))
     = (rows (servers empty_db) ++ [survival_row])%list
  /\ rows (mods (snd (run (storage.createServer 1000 survival) empty_db)))
     = (rows (mods empty_db)
        ++ [ Mod.mk (nextval (mods empty_db)) (Server.serverId survival_row)
               "net.fabricmc:fabric-loader:0.16.13" "Fabric" "Library" None
               (Some true) (Some true) (Some false) None
               "https://maven.fabricmc.net/net/fabricmc/fabric-loader/0.16.13/fabric-loader-0.16.13.jar"
               None 1000 1000;
             Mod.mk (nextval (mods empty_db) + 1) (Server.serverId survival_row)
               "net.fabricmc:intermediary:1.20.1" "Fabric Intermediary" "Library" None
               (Some true) (Some true) (Some false) None
               "https://maven.fabricmc.net/net/fabricmc/intermediary/1.20.1/intermediary-1.20.1.jar"
               None 1000 1000 ])%list
  /\ rows (servers (snd (run_upto 1 (storage.createServer 1000 survival) empty_db)))
     = (rows (servers empty_db) ++ [survival_row])%list
  /\ rows (mods (snd (run_upto 1 (storage.createServer 1000 survival) empty_db)))
     = rows (mods empty_db).
Proof.
  apply (createServer_seeds_two_libraries 1000 survival empty_db).
  reflexivity.
Defined.

(** C3 as stated fails on "atomically": the three inserts are three
    statements with a suspension point after each and no transaction around
    them.  At the first suspension point of a call on an empty database the
    server row is stored and neither library row is. *)
Lemma createServer_is_not_atomic :
  ~ (forall (now : Timestamp) (ins : InsertServer.t) (db : Db) (n : nat),
       let seen := snd (run_upto n (storage.createServer now ins) db) in
       (rows (servers seen) = rows (servers db) /\ rows (mods seen) = rows (mods db))
       \/ (exists server m1 m2,
              rows (servers seen) = (rows (servers db) ++ [server])%list
              /\ rows (mods seen) = (rows (mods db) ++ [m1; m2])%list)).
Proof.
  intros H.
  destruct (H 1000 survival empty_db 1%nat) as [[Hs _] | [server [m1 [m2 [_ Hm]]]]].
  - discriminate Hs.
  - discriminate Hm.
Qed.

(** ** The path filter of [getFiles] *)

Example like_underscore : like "modsXa/y.jar" "mods_a/%" = Some true.
Proof. reflexivity. Qed.

Example like_sibling : like "mods_ab" "mods_a/%" = Some false.
Proof. reflexivity. Qed.

Example getFiles_without_path :
  fst (run (storage.getFiles "creative" None) shelves) = Ok [creative_mods_a].
Proof. reflexivity. Qed.

(** C4 (the code departs from the claim).  [getFiles("survival", "mods_a")]
    over five rows, of which the claim selects the directory ["mods_a"] and
    the file ["mods_a/x.jar"] of that server.  The statement the code issues
    also returns ["modsXa/y.jar"], because the [_] of the path is a wildcard
    of [LIKE], and the row ["mods_a"] of the server "creative", because the
    raw [OR] fragment is not parenthesised under [and].  The first stranger
    is returned under either reading of the fragment. *)
Theorem getFiles_returns_strangers :
  fst (run (storage.getFiles "survival" (Some "mods_a")) shelves)
  = Ok [mods_a; mods_a_jar; modsXa_jar; creative_mods_a]
  /\ fst (run (storage.getFiles_as Grouped "survival" (Some "mods_a")) shelves)
     = Ok [mods_a; mods_a_jar; modsXa_jar]
  /\ filter (fun f => String.eqb (File.serverId f) "survival"
                      && at_or_under "mods_a" (File.path f))
            (rows (files shelves))
     = [mods_a; mods_a_jar]
  /\ at_or_under "mods_a" (File.path modsXa_jar) = false
  /\ String.eqb (File.serverId creative_mods_a) "survival" = false.
Proof.
  repeat split.
Qed.

Lemma like_percent : forall s : list ascii, like_chars ["%"%char] s = Some true.
Proof.
  induction s as [| x s IH]; [reflexivity |].
  simpl. simpl in IH. exact IH.
Qed.

Lemma like_slash_percent : forall s : list ascii,
  like_chars ["/"%char; "%"%char] s
  = Some (match s with
          | [] => false
          | x :: _ => Ascii.eqb x "/"
          end).
Proof.
  intros [| x s]; [reflexivity |].
  change (like_chars ["/"%char; "%"%char] (x :: s))
    with (match like_chars ["%"%char] s with
          | None => None
          | Some b => Some (Ascii.eqb x "/" && b)
          end).
  now rewrite like_percent, andb_true_r.
Qed.

Lemma prefix_empty : forall s : string, String.prefix "" s = true.
Proof.
  intros [| x s]; reflexivity.
Qed.

Lemma like_literal_prefix : forall p s : string,
  literal p = true ->
  like s (p ++ "/%") = Some (String.prefix (p ++ "/") s).
Proof.
  unfold like.
  induction p as [| c p IH]; intros s Hlit.
  - change (list_ascii_of_string ("" ++ "/%")) with ["/"%char; "%"%char].
    rewrite like_slash_percent.
    destruct s as [| x s]; [reflexivity |].
    cbn [list_ascii_of_string String.prefix String.append].
    destruct (ascii_dec "/" x) as [<- | Hne].
    + now rewrite prefix_empty.
    + f_equal. apply Ascii.eqb_neq. congruence.
  - cbn [literal] in Hlit. apply andb_true_iff in Hlit. destruct Hlit as [Hc Hp].
    unfold is_literal in Hc.
    apply andb_true_iff in Hc. destruct Hc as [Hc Hbs].
    apply andb_true_iff in Hc. destruct Hc as [Hpc Hus].
    apply negb_true_iff in Hpc, Hus, Hbs.
    change (list_ascii_of_string (String c p ++ "/%"))
      with (c :: list_ascii_of_string (p ++ "/%")).
    cbn [like_chars]. rewrite Hpc, Hus, Hbs.
    destruct s as [| x s].
    + cbn [list_ascii_of_string].
      change (@nil ascii) with (list_ascii_of_string "") at 1.
      rewrite (IH "" Hp). reflexivity.
    + cbn [list_ascii_of_string]. rewrite (IH s Hp).
      cbn [String.prefix String.append].
      destruct (ascii_dec c x) as [<- | Hne].
      * now rewrite Ascii.eqb_refl.
      * assert (Hx : Ascii.eqb x c = false) by (apply Ascii.eqb_neq; congruence).
        now rewrite Hx.
Qed.

Lemma select_where_total :
  forall (R : Type) (w : R -> option bool) (b : R -> bool) (xs : list R),
  (forall x, w x = Some (b x)) ->
  storage.select_where w xs = Some (filter b xs).
Proof.
  intros R w b xs Hw. induction xs as [| x xs IH]; simpl; [reflexivity |].
  rewrite Hw, IH. reflexivity.
Qed.

(** On a path without [%], [_] and backslash the filter is the prefix query,
    within the server when the fragment is grouped, and with the rows of any
    server at that very path besides when it is spliced. *)
Lemma getFiles_literal_path :
  forall (g : Fragment) (serverId p : string) (db : Db),
  literal p = true ->
  p <> "" ->
  run (storage.getFiles_as g serverId (Some p)) db
  = (Ok (filter (fun f =>
                   match g with
                   | Spliced =>
                       (String.eqb (File.serverId f) serverId
                        && at_or_under p (File.path f))
                       || String.eqb (File.path f) p
                   | Grouped =>
                       String.eqb (File.serverId f) serverId
                       && at_or_under p (File.path f)
                   end)
                (rows (files db))), db).
Proof.
  intros g serverId p db Hlit Hne.
  unfold storage.getFiles_as. rewrite run_await. unfold storage.select_files.
  apply String.eqb_neq in Hne. rewrite Hne.
  erewrite select_where_total; [reflexivity |].
  intros f. unfold storage.files_where, at_or_under.
  rewrite (like_literal_prefix p (File.path f) Hlit).
  destruct g, (String.eqb (File.serverId f) serverId),
    (String.eqb (File.path f) p), (String.prefix (p ++ "/") (File.path f));
    reflexivity.
Qed.

(** ** Singleton settings tables *)

Lemma update_where_ids :
  forall (R : Type) (id : R -> Z) (p : R -> bool) (f : R -> R) (rs : list R),
  (forall r, id (f r) = id r) ->
  map id (map (fun r => if p r then f r else r) rs) = map id rs.
Proof.
  intros R id p f rs Hid.
  induction rs as [| r rs IH]; simpl; [reflexivity |].
  rewrite IH. destruct (p r); [now rewrite Hid | reflexivity].
Qed.

Lemma updateInstallerSettings_rows :
  forall (now : Timestamp) (v : InsertInstallerSettings.t) (db : Db),
  let db' := snd (run (storage.updateInstallerSettings now v) db) in
  apiConfig db' = apiConfig db
  /\ siteSettings db' = siteSettings db
  /\ match rows (installerSettings db) with
     | [] => exists r, rows (installerSettings db') = [r]
     | _ :: _ =>
         map InstallerSetting.id (rows (installerSettings db'))
         = map InstallerSetting.id (rows (installerSettings db))
     end.
Proof.
  intros now v db. unfold storage.updateInstallerSettings.
  rewrite run_bind. rewrite (run_await _ _ db).
  unfold storage.select_installerSettings.
  destruct (rows (installerSettings db)) as [| r0 rest] eqn:Hrows; cbn [first].
  - rewrite run_bind. rewrite (run_await _ _ db).
    unfold storage.insert_installerSettings, append. rewrite Hrows.
    cbn. repeat split. eauto.
  - rewrite run_bind. rewrite (run_await _ _ db).
    unfold storage.update_installerSettings.
    cbn. repeat split.
    change (InstallerSetting.id r0 :: map InstallerSetting.id rest)
      with (map InstallerSetting.id (r0 :: rest)).
    rewrite <- Hrows. apply update_where_ids. reflexivity.
Qed.

Lemma updateApiConfig_rows : forall (v : InsertApiConfig.t) (db : Db),
  let db' := snd (run (storage.updateApiConfig v) db) in
  installerSettings db' = installerSettings db
  /\ siteSettings db' = siteSettings db
  /\ match rows (apiConfig db) with
     | [] => exists r, rows (apiConfig db') = [r]
     | _ :: _ =>
         map ApiConfig.id (rows (apiConfig db')) = map ApiConfig.id (rows (apiConfig db))
     end.
Proof.
  intros v db. unfold storage.updateApiConfig.
  rewrite run_bind. rewrite (run_await _ _ db).
  unfold storage.select_apiConfig.
  destruct (rows (apiConfig db)) as [| r0 rest] eqn:Hrows; cbn [first].
  - rewrite run_bind. rewrite (run_await _ _ db).
    unfold storage.insert_apiConfig, append. rewrite Hrows.
    cbn. repeat split. eauto.
  - destruct (storage.no_values_to_set v).
    + cbn. rewrite Hrows. repeat split.
    + rewrite run_bind. rewrite (run_await _ _ db).
      unfold storage.update_apiConfig.
      cbn. repeat split.
      change (ApiConfig.id r0 :: map ApiConfig.id rest)
        with (map ApiConfig.id (r0 :: rest)).
      rewrite <- Hrows. apply update_where_ids. reflexivity.
Qed.

Lemma site_settings_rows :
  forall (now : Timestamp) (v : InsertSiteSettings.t) (db : Db),
  let db' :=
    snd (run (xs <- await storage.select_siteSettings ;;
              match first xs with
              | Some existingSettings =>
                  ys <- await (storage.update_siteSettings v now
                                 (SiteSettings.id existingSettings)) ;;
                  Return (first ys)
              | None =>
                  settings <- await (storage.insert_siteSettings v now) ;;
                  Return (Some settings)
              end) db) in
  installerSettings db' = installerSettings db
  /\ apiConfig db' = apiConfig db
  /\ match rows (siteSettings db) with
     | [] => exists r, rows (siteSettings db') = [r]
     | _ :: _ =>
         map SiteSettings.id (rows (siteSettings db'))
         = map SiteSettings.id (rows (siteSettings db))
     end.
Proof.
  intros now v db.
  rewrite run_bind. rewrite (run_await _ _ db).
  unfold storage.select_siteSettings.
  destruct (rows (siteSettings db)) as [| r0 rest] eqn:Hrows; cbn [first].
  - rewrite run_bind. rewrite (run_await _ _ db).
    unfold storage.insert_siteSettings, append. rewrite Hrows.
    cbn. repeat split. eauto.
  - rewrite run_bind. rewrite (run_await _ _ db).
    unfold storage.update_siteSettings.
    cbn. repeat split.
    change (SiteSettings.id r0 :: map SiteSettings.id rest)
      with (map SiteSettings.id (r0 :: rest)).
    rewrite <- Hrows. apply update_where_ids. reflexivity.
Qed.

Lemma at_most_one_step :
  forall (R : Type) (id : R -> Z) (t t' : Table R),
  at_most_one t ->
  match rows t with
  | [] => exists r, rows t' = [r]
  | _ :: _ => map id (rows t') = map id (rows t)
  end ->
  at_most_one t'.
Proof.
  unfold at_most_one. intros R id t t' Hone Hstep.
  destruct (rows t) as [| r0 rest] eqn:Hrows.
  - destruct Hstep as [r ->]. simpl. lia.
  - rewrite <- (length_map id), Hstep, length_map. exact Hone.
Qed.

Lemma target_step :
  forall (R : Type) (id : R -> Z) (t t' : Table R),
  match rows t with
  | [] => exists r, rows t' = [r]
  | _ :: _ => map id (rows t') = map id (rows t)
  end ->
  match map id (rows t) with
  | [] => exists i, map id (rows t') = [i]
  | _ :: _ => map id (rows t') = map id (rows t)
  end.
Proof.
  intros R id t t' Hstep.
  destruct (rows t) as [| r0 rest]; simpl.
  - destruct Hstep as [r ->]. simpl. eauto.
  - exact Hstep.
Qed.

Lemma perform_keeps_singletons : forall (c : SettingsCall) (db : Db),
  singletons db -> singletons (perform db c).
Proof.
  intros c db (Hi & Ha & Hs). unfold singletons.
  destruct c as [now v | v | now v | now logoUrl]; cbn [perform].
  - destruct (updateInstallerSettings_rows now v db) as (Ea & Es & Hstep).
    rewrite Ea, Es. repeat split; try assumption.
    exact (at_most_one_step _ InstallerSetting.id _ _ Hi Hstep).
  - destruct (updateApiConfig_rows v db) as (Ei & Es & Hstep).
    rewrite Ei, Es. repeat split; try assumption.
    exact (at_most_one_step _ ApiConfig.id _ _ Ha Hstep).
  - destruct (site_settings_rows now v db) as (Ei & Ea & Hstep).
    unfold storage.updateSiteSettings.
    rewrite Ei, Ea. repeat split; try assumption.
    exact (at_most_one_step _ SiteSettings.id _ _ Hs Hstep).
  - destruct (site_settings_rows now (storage.logo_only logoUrl) db) as (Ei & Ea & Hstep).
    unfold storage.updateLogo.
    rewrite Ei, Ea. repeat split; try assumption.
    exact (at_most_one_step _ SiteSettings.id _ _ Hs Hstep).
Qed.

Lemma perform_targets : forall (c : SettingsCall) (db : Db),
  match target_ids c db with
  | [] => exists i, target_ids c (perform db c) = [i]
  | _ :: _ => target_ids c (perform db c) = target_ids c db
  end.
Proof.
  intros c db.
  destruct c as [now v | v | now v | now logoUrl]; cbn [perform target_ids].
  - apply target_step. apply updateInstallerSettings_rows.
  - apply target_step. apply updateApiConfig_rows.
  - apply target_step. apply (site_settings_rows now v db).
  - apply target_step. apply (site_settings_rows now (storage.logo_only logoUrl) db).
Qed.

Lemma single_row : forall (R : Type) (t : Table R) (r0 : R) (rest : list R),
  at_most_one t -> rows t = r0 :: rest -> rows t = [r0].
Proof.
  unfold at_most_one. intros R t r0 rest Hone Hrows.
  rewrite Hrows in *. destruct rest; [reflexivity | simpl in Hone; lia].
Qed.

Lemma run_updateInstallerSettings :
  forall (now : Timestamp) (v : InsertInstallerSettings.t) (db : Db),
  at_most_one (installerSettings db) ->
  run (storage.updateInstallerSettings now v) db
  = match rows (installerSettings db) with
    | [] =>
        let r :=
          InstallerSetting.mk (nextval (installerSettings db))
            (or_default false (InsertInstallerSettings.isInstalled v))
            (or_null (InsertInstallerSettings.dbHost v))
            (or_null (InsertInstallerSettings.dbPort v))
            (or_null (InsertInstallerSettings.dbName v))
            (or_null (InsertInstallerSettings.dbUser v))
            (Some now) in
        (Ok (Some r),
         set_installerSettings (mkTable [r] (nextval (installerSettings db) + 1)) db)
    | r0 :: _ =>
        let r :=
          InstallerSetting.mk (InstallerSetting.id r0)
            (or_keep (InstallerSetting.isInstalled r0) (InsertInstallerSettings.isInstalled v))
            (or_keep (InstallerSetting.dbHost r0) (InsertInstallerSettings.dbHost v))
            (or_keep (InstallerSetting.dbPort r0) (InsertInstallerSettings.dbPort v))
            (or_keep (InstallerSetting.dbName r0) (InsertInstallerSettings.dbName v))
            (or_keep (InstallerSetting.dbUser r0) (InsertInstallerSettings.dbUser v))
            (Some now) in
        (Ok (Some r),
         set_installerSettings (mkTable [r] (nextval (installerSettings db))) db)
    end.
Proof.
  intros now v db Hone. unfold storage.updateInstallerSettings.
  rewrite run_bind. rewrite (run_await _ _ db).
  unfold storage.select_installerSettings.
  destruct (rows (installerSettings db)) as [| r0 rest] eqn:Hrows; cbn [first].
  - rewrite run_bind. rewrite (run_await _ _ db).
    unfold storage.insert_installerSettings, append. rewrite Hrows.
    reflexivity.
  - pose proof (single_row _ _ _ _ Hone Hrows) as Hsingle.
    rewrite run_bind. rewrite (run_await _ _ db).
    unfold storage.update_installerSettings, update_where. rewrite Hsingle.
    cbn [map filter]. rewrite Z.eqb_refl. reflexivity.
Qed.

Lemma run_updateApiConfig : forall (v : InsertApiConfig.t) (db : Db),
  at_most_one (apiConfig db) ->
  run (storage.updateApiConfig v) db
  = match rows (apiConfig db) with
    | [] =>
        let r :=
          ApiConfig.mk (nextval (apiConfig db))
            (or_null (InsertApiConfig.rssUrl v))
            (or_null (InsertApiConfig.discordClientId v))
            (or_null (InsertApiConfig.discordSmallImageText v))
            (or_null (InsertApiConfig.discordSmallImageKey v))
            (or_default "1.0.0" (InsertApiConfig.version v)) in
        (Ok (Some r), set_apiConfig (mkTable [r] (nextval (apiConfig db) + 1)) db)
    | r0 :: _ =>
        if storage.no_values_to_set v
        then (Err (OtherError "No values to set"), db)
        else
          let r :=
            ApiConfig.mk (ApiConfig.id r0)
              (or_keep (ApiConfig.rssUrl r0) (InsertApiConfig.rssUrl v))
              (or_keep (ApiConfig.discordClientId r0) (InsertApiConfig.discordClientId v))
              (or_keep (ApiConfig.discordSmallImageText r0)
                       (InsertApiConfig.discordSmallImageText v))
              (or_keep (ApiConfig.discordSmallImageKey r0)
                       (InsertApiConfig.discordSmallImageKey v))
              (or_keep (ApiConfig.version r0) (InsertApiConfig.version v)) in
          (Ok (Some r), set_apiConfig (mkTable [r] (nextval (apiConfig db))) db)
    end.
Proof.
  intros v db Hone. unfold storage.updateApiConfig.
  rewrite run_bind. rewrite (run_await _ _ db).
  unfold storage.select_apiConfig.
  destruct (rows (apiConfig db)) as [| r0 rest] eqn:Hrows; cbn [first].
  - rewrite run_bind. rewrite (run_await _ _ db).
    unfold storage.insert_apiConfig, append. rewrite Hrows.
    reflexivity.
  - pose proof (single_row _ _ _ _ Hone Hrows) as Hsingle.
    destruct (storage.no_values_to_set v); [reflexivity |].
    rewrite run_bind. rewrite (run_await _ _ db).
    unfold storage.update_apiConfig, update_where. rewrite Hsingle.
    cbn [map filter]. rewrite Z.eqb_refl. reflexivity.
Qed.

Lemma run_site_settings :
  forall (now : Timestamp) (v : InsertSiteSettings.t) (db : Db),
  at_most_one (siteSettings db) ->
  run (xs <- await storage.select_siteSettings ;;
       match first xs with
       | Some existingSettings =>
           ys <- await (storage.update_siteSettings v now
                          (SiteSettings.id existingSettings)) ;;
           Return (first ys)
       | None =>
           settings <- await (storage.insert_siteSettings v now) ;;
           Return (Some settings)
       end) db
  = match rows (siteSettings db) with
    | [] =>
        let r :=
          SiteSettings.mk (nextval (siteSettings db))
            (or_default "MineLaunch Admin Panel" (InsertSiteSettings.siteName v))
            (or_default "https://admin.minelauncher.com" (InsertSiteSettings.siteUrl v))
            (or_null (InsertSiteSettings.logoUrl v))
            (or_default false (InsertSiteSettings.maintenanceMode v))
            (or_default true (InsertSiteSettings.enableRegistration v))
            now in
        (Ok (Some r), set_siteSettings (mkTable [r] (nextval (siteSettings db) + 1)) db)
    | r0 :: _ =>
        let r :=
          SiteSettings.mk (SiteSettings.id r0)
            (or_keep (SiteSettings.siteName r0) (InsertSiteSettings.siteName v))
            (or_keep (SiteSettings.siteUrl r0) (InsertSiteSettings.siteUrl v))
            (or_keep (SiteSettings.logoUrl r0) (InsertSiteSettings.logoUrl v))
            (or_keep (SiteSettings.maintenanceMode r0)
                     (InsertSiteSettings.maintenanceMode v))
            (or_keep (SiteSettings.enableRegistration r0)
                     (InsertSiteSettings.enableRegistration v))
            now in
        (Ok (Some r), set_siteSettings (mkTable [r] (nextval (siteSettings db))) db)
    end.
Proof.
  intros now v db Hone.
  rewrite run_bind. rewrite (run_await _ _ db).
  unfold storage.select_siteSettings.
  destruct (rows (siteSettings db)) as [| r0 rest] eqn:Hrows; cbn [first].
  - rewrite run_bind. rewrite (run_await _ _ db).
    unfold storage.insert_siteSettings, append. rewrite Hrows.
    reflexivity.
  - pose proof (single_row _ _ _ _ Hone Hrows) as Hsingle.
    rewrite run_bind. rewrite (run_await _ _ db).
    unfold storage.update_siteSettings, update_where. rewrite Hsingle.
    cbn [map filter]. rewrite Z.eqb_refl. reflexivity.
Qed.

(** C5, as the code has it.  From a state in which the installer settings,
    the API config and the site settings hold at most one row each, any
    sequence of [updateInstallerSettings], [updateApiConfig],
    [updateSiteSettings] and [updateLogo] calls, run one after the other,
    ends in such a state, and a call leaves the rows of its table with the
    ids they had when the table held a row, and with one first row when it
    held none.  Call by call: on an empty table the call inserts one row,
    numbered by the table's sequence, with the given columns and the
    defaults of the others, and fulfils with it; on a table with a row the
    call rewrites that row, keeping its id and every column not given,
    setting every column given, and fulfils with it.  [installedAt] and
    [updatedAt] are set to the time of the call, and [updateLogo] gives
    [logoUrl] alone.  The exception is [updateApiConfig] with no column
    given on a table with a row: it rejects with ["No values to set"] and
    the database stays as it is. *)
Theorem settings_tables_stay_singletons :
  forall (calls : list SettingsCall) (db : Db),
  singletons db ->
  singletons (fold_left perform calls db)
  /\ (forall c : SettingsCall,
        match target_ids c db with
        | [] => exists i, target_ids c (perform db c) = [i]
        | _ :: _ => target_ids c (perform db c) = target_ids c db
        end)
  /\ (forall (now : Timestamp) (v : InsertInstallerSettings.t),
        run (storage.updateInstallerSettings now v) db
        = match rows (installerSettings db) with
          | [] =>
              let r :=
                InstallerSetting.mk (nextval (installerSettings db))
                  (or_default false (InsertInstallerSettings.isInstalled v))
                  (or_null (InsertInstallerSettings.dbHost v))
                  (or_null (InsertInstallerSettings.dbPort v))
                  (or_null (InsertInstallerSettings.dbName v))
                  (or_null (InsertInstallerSettings.dbUser v))
                  (Some now) in
              (Ok (Some r),
               set_installerSettings
                 (mkTable [r] (nextval (installerSettings db) + 1)) db)
          | r0 :: _ =>
              let r :=
                InstallerSetting.mk (InstallerSetting.id r0)
                  (or_keep (InstallerSetting.isInstalled r0)
                           (InsertInstallerSettings.isInstalled v))
                  (or_keep (InstallerSetting.dbHost r0) (InsertInstallerSettings.dbHost v))
                  (or_keep (InstallerSetting.dbPort r0) (InsertInstallerSettings.dbPort v))
                  (or_keep (InstallerSetting.dbName r0) (InsertInstallerSettings.dbName v))
                  (or_keep (InstallerSetting.dbUser r0) (InsertInstallerSettings.dbUser v))
                  (Some now) in
              (Ok (Some r),
               set_installerSettings (mkTable [r] (nextval (installerSettings db))) db)
          end)
  /\ (forall v : InsertApiConfig.t,
        run (storage.updateApiConfig v) db
        = match rows (apiConfig db) with
          | [] =>
              let r :=
                ApiConfig.mk (nextval (apiConfig db))
                  (or_null (InsertApiConfig.rssUrl v))
                  (or_null (InsertApiConfig.discordClientId v))
                  (or_null (InsertApiConfig.discordSmallImageText v))
                  (or_null (InsertApiConfig.discordSmallImageKey v))
                  (or_default "1.0.0" (InsertApiConfig.version v)) in
              (Ok (Some r), set_apiConfig (mkTable [r] (nextval (apiConfig db) + 1)) db)
          | r0 :: _ =>
              if storage.no_values_to_set v
              then (Err (OtherError "No values to set"), db)
              else
                let r :=
                  ApiConfig.mk (ApiConfig.id r0)
                    (or_keep (ApiConfig.rssUrl r0) (InsertApiConfig.rssUrl v))
                    (or_keep (ApiConfig.discordClientId r0)
                             (InsertApiConfig.discordClientId v))
                    (or_keep (ApiConfig.discordSmallImageText r0)
                             (InsertApiConfig.discordSmallImageText v))
                    (or_keep (ApiConfig.discordSmallImageKey r0)
                             (InsertApiConfig.discordSmallImageKey v))
                    (or_keep (ApiConfig.version r0) (InsertApiConfig.version v)) in
                (Ok (Some r), set_apiConfig (mkTable [r] (nextval (apiConfig db))) db)
          end)
  /\ (forall (now : Timestamp) (v : InsertSiteSettings.t),
        run (storage.updateSiteSettings now v) db
        = match rows (siteSettings db) with
          | [] =>
              let r :=
                SiteSettings.mk (nextval (siteSettings db))
                  (or_default "MineLaunch Admin Panel" (InsertSiteSettings.siteName v))
                  (or_default "https://admin.minelauncher.com"
                              (InsertSiteSettings.siteUrl v))
                  (or_null (InsertSiteSettings.logoUrl v))
                  (or_default false (InsertSiteSettings.maintenanceMode v))
                  (or_default true (InsertSiteSettings.enableRegistration v))
                  now in
              (Ok (Some r),
               set_siteSettings (mkTable [r] (nextval (siteSettings db) + 1)) db)
          | r0 :: _ =>
              let r :=
                SiteSettings.mk (SiteSettings.id r0)
                  (or_keep (SiteSettings.siteName r0) (InsertSiteSettings.siteName v))
                  (or_keep (SiteSettings.siteUrl r0) (InsertSiteSettings.siteUrl v))
                  (or_keep (SiteSettings.logoUrl r0) (InsertSiteSettings.logoUrl v))
                  (or_keep (SiteSettings.maintenanceMode r0)
                           (InsertSiteSettings.maintenanceMode v))
                  (or_keep (SiteSettings.enableRegistration r0)
                           (InsertSiteSettings.enableRegistration v))
                  now in
              (Ok (Some r), set_siteSettings (mkTable [r] (nextval (siteSettings db))) db)
          end)
  /\ (forall (now : Timestamp) (logoUrl : string),
        run (storage.updateLogo now logoUrl) db
        = match rows (siteSettings db) with
          | [] =>
              let r :=
                SiteSettings.mk (nextval (siteSettings db))
                  (Some "MineLaunch Admin Panel") (Some "https://admin.minelauncher.com")
                  (Some logoUrl) (Some false) (Some true) now in
              (Ok (Some r),
               set_siteSettings (mkTable [r] (nextval (siteSettings db) + 1)) db)
          | r0 :: _ =>
              let r :=
                SiteSettings.mk (SiteSettings.id r0)
                  (SiteSettings.siteName r0) (SiteSettings.siteUrl r0)
                  (Some logoUrl)
                  (SiteSettings.maintenanceMode r0) (SiteSettings.enableRegistration r0)
                  now in
              (Ok (Some r), set_siteSettings (mkTable [r] (nextval (siteSettings db))) db)
          end).
Proof.
  intros calls db Hinv.
  split; [| split; [intros c; apply perform_targets |]].
  - revert db Hinv.
    induction calls as [| c calls IH]; intros db Hinv; simpl.
    + exact Hinv.
    + apply IH. now apply perform_keeps_singletons.
  - destruct Hinv as (Hi & Ha & Hs). repeat split.
    + intros now v. now apply run_updateInstallerSettings.
    + intros v. now apply run_updateApiConfig.
    + intros now v. unfold storage.updateSiteSettings.
      now apply run_site_settings.
    + intros now logoUrl. unfold storage.updateLogo.
      now rewrite (run_site_settings now (storage.logo_only logoUrl) db Hs).
Qed.

Lemma settings_tables_stay_singletons_witness :
  singletons (fold_left perform
                [UpdateLogo 1000 "/uploads/logo.png";
                 UpdateApiConfig (InsertApiConfig.mk (Given (Some "https://news.example.org/rss"))
                                    Absent Absent Absent Absent);
                 UpdateSiteSettings 2000
                   (InsertSiteSettings.mk (Given (Some "Panel")) Absent Absent Absent Absent);
                 UpdateApiConfig (InsertApiConfig.mk Absent Absent Absent Absent Absent);
                 UpdateInstallerSettings 3000
                   (InsertInstallerSettings.mk (Given (Some true)) Absent Absent Absent Absent)]
                (panel [] []))
  /\ run (storage.updateApiConfig
            (InsertApiConfig.mk (Given (Some "https://news.example.org/rss"))
               Absent Absent Absent Absent))
         (panel [] [])
     = (Ok (Some (ApiConfig.mk 1 (Some "https://news.example.org/rss") None None None
                    (Some "1.0.0"))),
        set_apiConfig
          (mkTable [ApiConfig.mk 1 (Some "https://news.example.org/rss") None None None
                      (Some "1.0.0")] 2)
          (panel [] []))
  /\ run (storage.updateApiConfig (InsertApiConfig.mk Absent Absent Absent Absent Absent))
         (panel [] [])
     = (Err (OtherError "No values to set"), panel [] [])
  /\ run (storage.updateLogo 1000 "/uploads/logo.png") (panel [] [])
     = (Ok (Some (SiteSettings.mk 1 (Some "MineLaunch Admin Panel")
                    (Some "https://admin.minelauncher.com") (Some "/uploads/logo.png")
                    (Some false) (Some true) 1000)),
        set_siteSettings
          (mkTable [SiteSettings.mk 1 (Some "MineLaunch Admin Panel")
                      (Some "https://admin.minelauncher.com") (Some "/uploads/logo.png")
                      (Some false) (Some true) 1000] 2)
          (panel [] [])).
Proof.
  assert (Hinv : singletons (panel [] [])).
  { unfold singletons, at_most_one. simpl. lia. }
  destruct (settings_tables_stay_singletons
              [UpdateLogo 1000 "/uploads/logo.png";
               UpdateApiConfig (InsertApiConfig.mk (Given (Some "https://news.example.org/rss"))
                                  Absent Absent Absent Absent);
               UpdateSiteSettings 2000
                 (InsertSiteSettings.mk (Given (Some "Panel")) Absent Absent Absent Absent);
               UpdateApiConfig (InsertApiConfig.mk Absent Absent Absent Absent Absent);
               UpdateInstallerSettings 3000
                 (InsertInstallerSettings.mk (Given (Some true)) Absent Absent Absent Absent)]
              (panel [] []) Hinv)
    as (Hall & _ & _ & Hapi & _ & Hlogo).
  split; [exact Hall |].
  split; [exact (Hapi _) |].
  split; [exact (Hapi _) |].
  exact (Hlogo _ _).
Defined.

(** C5 as stated fails: [updateApiConfig] with an object that gives no
    column, on a table that holds a row, does not update the row.  The set
    clause is refused, the call rejects, and row and database are as
    before. *)
Lemma update_without_values_rejects :
  run (storage.updateApiConfig (InsertApiConfig.mk Absent Absent Absent Absent Absent))
      (panel [] [])
  = (Err (OtherError "No values to set"), panel [] [])
  /\ ~ (forall (v : InsertApiConfig.t) (db : Db),
          singletons db ->
          rows (apiConfig db) <> [] ->
          exists r, fst (run (storage.updateApiConfig v) db) = Ok (Some r)).
Proof.
  split; [reflexivity |].
  intros H.
  destruct (H (InsertApiConfig.mk Absent Absent Absent Absent Absent) (panel [] []))
    as [r Hr].
  - unfold singletons, at_most_one. simpl. lia.
  - discriminate.
  - discriminate Hr.
Qed.

(** ** Stat ingestion *)

Lemma first_filter : forall (R : Type) (p : R -> bool) (xs : list R),
  match first (filter p xs) with
  | Some _ => existsb p xs = true
  | None => existsb p xs = false
  end.
Proof.
  intros R p xs. induction xs as [| x xs IH]; simpl; [reflexivity |].
  destruct (p x); simpl; [reflexivity | exact IH].
Qed.

Lemma run_getServer : forall (id : string) (db : Db),
  run (storage.getServer id) db
  = (Ok (first (filter (fun s => String.eqb (Server.serverId s) id)
                       (rows (servers db)))), db).
Proof.
  intros id db. unfold storage.getServer.
  rewrite run_bind. rewrite (run_await _ _ db). reflexivity.
Qed.

(** C6.  A report that passes validation: when no server row has its
    [serverId], the handler answers 404 and the database, [server_stats]
    included, is as before; when one has, the handler appends one row to
    [server_stats], built from the report, and answers 201 with that row. *)
Theorem stat_report_needs_known_server :
  forall (RequestBody : Type)
         (parse : RequestBody -> Result InsertServerStat.t)
         (now : Timestamp) (req_body : RequestBody)
         (statData : InsertServerStat.t) (db : Db),
  parse req_body = Ok statData ->
  if existsb (fun s => String.eqb (Server.serverId s)
                                  (InsertServerStat.serverId statData))
             (rows (servers db))
  then
    let stat :=
      ServerStat.mk (nextval (serverStats db)) (InsertServerStat.serverId statData)
        (or_default 0 (InsertServerStat.activePlayers statData))
        (or_default 0 (InsertServerStat.currentBandwidth statData))
        (or_default 0 (InsertServerStat.totalBandwidth statData))
        (or_default 0 (InsertServerStat.totalSessionTime statData))
        now in
    run (post_api_stats RequestBody parse now req_body) db
    = (Ok (mkResponse 201 (StatBody stat)),
       set_serverStats (mkTable (rows (serverStats db) ++ [stat])
                                (nextval (serverStats db) + 1)) db)
  else
    run (post_api_stats RequestBody parse now req_body) db
    = (Ok (mkResponse 404 (MessageBody "Server not found")), db).
Proof.
  intros RequestBody parse now req_body statData db Hvalid.
  unfold post_api_stats. rewrite Hvalid.
  rewrite run_try_catch, run_bind, run_getServer.
  pose proof (first_filter _ (fun s => String.eqb (Server.serverId s)
                                         (InsertServerStat.serverId statData))
                           (rows (servers db))) as Hfound.
  destruct (first _) as [server |]; rewrite Hfound.
  - rewrite run_bind. unfold storage.createServerStat.
    rewrite (run_await _ _ db). unfold storage.insert_stat.
    rewrite Hfound. reflexivity.
  - reflexivity.
Qed.

Lemma stat_report_needs_known_server_witness :
  (if existsb (fun s => String.eqb (Server.serverId s) "lobby")
              (rows (servers (panel [] [])))
   then
     let stat :=
       ServerStat.mk (nextval (serverStats (panel [] []))) "lobby"
         (or_default 0 (Given (Some 3))) (or_default 0 Absent)
         (or_default 0 Absent) (or_default 0 Absent) 5000 in
     run (post_api_stats InsertServerStat.t (fun b => Ok b) 5000
            (InsertServerStat.mk "lobby" (Given (Some 3)) Absent Absent Absent))
         (panel [] [])
     = (Ok (mkResponse 201 (StatBody stat)),
        set_serverStats (mkTable (rows (serverStats (panel [] [])) ++ [stat])
                                 (nextval (serverStats (panel [] [])) + 1))
          (panel [] []))
   else
     run (post_api_stats InsertServerStat.t (fun b => Ok b) 5000
            (InsertServerStat.mk "lobby" (Given (Some 3)) Absent Absent Absent))
         (panel [] [])
     = (Ok (mkResponse 404 (MessageBody "Server not found")), panel [] []))
  /\ (if existsb (fun s => String.eqb (Server.serverId s) "survival")
                 (rows (servers (panel [] [])))
      then
        let stat :=
          ServerStat.mk (nextval (serverStats (panel [] []))) "survival"
            (or_default 0 (Given (Some 3))) (or_default 0 Absent)
            (or_default 0 Absent) (or_default 0 Absent) 5000 in
        run (post_api_stats InsertServerStat.t (fun b => Ok b) 5000
               (InsertServerStat.mk "survival" (Given (Some 3)) Absent Absent Absent))
            (panel [] [])
        = (Ok (mkResponse 201 (StatBody stat)),
           set_serverStats (mkTable (rows (serverStats (panel [] [])) ++ [stat])
                                    (nextval (serverStats (panel [] [])) + 1))
             (panel [] []))
      else
        run (post_api_stats InsertServerStat.t (fun b => Ok b) 5000
               (InsertServerStat.mk "survival" (Given (Some 3)) Absent Absent Absent))
            (panel [] [])
        = (Ok (mkResponse 404 (MessageBody "Server not found")), panel [] [])).
Proof.
  split.
  - apply (stat_report_needs_known_server InsertServerStat.t (fun b => Ok b) 5000
             (InsertServerStat.mk "lobby" (Given (Some 3)) Absent Absent Absent)
             (InsertServerStat.mk "lobby" (Given (Some 3)) Absent Absent Absent)
             (panel [] [])).
    reflexivity.
  - apply (stat_report_needs_known_server InsertServerStat.t (fun b => Ok b) 5000
             (InsertServerStat.mk "survival" (Given (Some 3)) Absent Absent Absent)
             (InsertServerStat.mk "survival" (Given (Some 3)) Absent Absent Absent)
             (panel [] [])).
    reflexivity.
Defined.

(** ** The stats channel *)

Lemma sendCurrentStats_socket :
  forall (db : Db) (fault : option Error) (ws : Socket),
  readyState (snd (sendCurrentStats db fault ws)) = readyState ws
  /\ statsInterval (snd (sendCurrentStats db fault ws)) = statsInterval ws
  /\ calls (snd (sendCurrentStats db fault ws)) = S (calls ws)
  /\ fst (sendCurrentStats db fault ws) = Fulfilled.
Proof.
  intros db fault ws. unfold sendCurrentStats.
  destruct (match fault with Some e => Err e | None => fst (run allStats db) end)
    as [data | e]; cbn [fst snd].
  - unfold ws_send, called. cbn [readyState].
    destruct (is_open (readyState ws)); repeat split.
  - repeat split.
Qed.

Lemma open_tick :
  forall (db : Db) (fault : option Error) (ws : Socket),
  is_open (readyState ws) = true ->
  readyState (intervalCallback db fault ws) = readyState ws
  /\ statsInterval (intervalCallback db fault ws) = statsInterval ws
  /\ calls (intervalCallback db fault ws) = S (calls ws).
Proof.
  intros db fault ws Hopen. unfold intervalCallback. rewrite Hopen.
  destruct (sendCurrentStats_socket db fault ws) as (Hr & Ht & Hc & _).
  destruct (sendCurrentStats db fault ws) as [p ws']. exact (conj Hr (conj Ht Hc)).
Qed.







(** The [catch] of the interval callback is never entered. *)
Lemma interval_catch_unreachable :
  forall (db : Db) (fault : option Error) (ws : Socket),
  intervalCallback db fault ws
  = if is_open (readyState ws)
    then snd (sendCurrentStats db fault ws)
    else clearInterval ws.
Proof.
  intros db fault ws. unfold intervalCallback.
  destruct (is_open (readyState ws)); [| reflexivity].
  destruct (sendCurrentStats db fault ws) as [p ws']. reflexivity.
Qed.

(** A tick on an open socket leaves the interval as it was, whatever
    happens to the snapshot. *)
Lemma failed_tick_keeps_timer :
  forall (db : Db) (e : Error) (ws : Socket),
  is_open (readyState ws) = true ->
  statsInterval (intervalCallback db (Some e) ws) = statsInterval ws.
Proof.
  intros db e ws Hopen. now destruct (open_tick db (Some e) ws Hopen) as (_ & Ht & _).
Qed.

(** C8 (the code departs from the claim).  A connection whose second
    snapshot fails on a database outage while the socket stays open: the
    error is caught inside [sendCurrentStats], the promise that the interval
    callback drops is fulfilled, and the callback's own [catch] with its
    [clearInterval] is not reached.  The interval is still armed after the
    failure, and the next tick sends a snapshot to the same connection. *)
Theorem failed_send_does_not_cancel :
  statsInterval (connection (panel [] []) None [Tick (panel [] []) (Some outage)])
  = Some 5000
  /\ sent (connection (panel [] []) None [Tick (panel [] []) (Some outage)])
     = [snapshot]
  /\ console (connection (panel [] []) None [Tick (panel [] []) (Some outage)])
     = ["Stats WebSocket client connected"; "Error sending stats via WebSocket:"]
  /\ sent (connection (panel [] []) None
             [Tick (panel [] []) (Some outage); Tick (panel [] []) None])
     = [snapshot; snapshot]
  /\ calls (connection (panel [] []) None
              [Tick (panel [] []) (Some outage); Tick (panel [] []) None])
     = 3%nat.
Proof.
  repeat split.
Qed.

(* ------------------------------------------------------------------ *)
(** * Further properties of the storage layer *)

(** ** Deleting by key *)

Lemma filter_out_same :
  forall (R : Type) (key : R -> string) (id : string) (xs : list R),
  filter (fun x => String.eqb (key x) id)
         (filter (fun x => negb (String.eqb (key x) id)) xs) = [].
Proof.
  intros R key id xs. induction xs as [| x xs IH]; simpl; [reflexivity |].
  destruct (String.eqb (key x) id) eqn:E; simpl; [exact IH |].
  now rewrite E.
Qed.

Lemma filter_out_other :
  forall (R : Type) (key : R -> string) (id other : string) (xs : list R),
  other <> id ->
  filter (fun x => String.eqb (key x) other)
         (filter (fun x => negb (String.eqb (key x) id)) xs)
  = filter (fun x => String.eqb (key x) other) xs.
Proof.
  intros R key id other xs Hne. induction xs as [| x xs IH]; simpl; [reflexivity |].
  destruct (String.eqb (key x) id) eqn:E; simpl.
  - apply String.eqb_eq in E.
    assert (Ho : String.eqb (key x) other = false)
      by (apply String.eqb_neq; congruence).
    now rewrite Ho.
  - now rewrite IH.
Qed.

Lemma filter_out_absent :
  forall (R : Type) (key : R -> string) (id : string) (xs : list R),
  filter (fun x => String.eqb (key x) id) xs = [] ->
  filter (fun x => negb (String.eqb (key x) id)) xs = xs.
Proof.
  intros R key id xs. induction xs as [| x xs IH]; simpl; [reflexivity |].
  destruct (String.eqb (key x) id); simpl; [discriminate |].
  intros H. now rewrite IH.
Qed.

Lemma filter_app_out :
  forall (R : Type) (p : R -> bool) (xs ys : list R),
  filter p xs = xs ->
  filter p ys = [] ->
  filter p (xs ++ ys) = xs.
Proof.
  intros R p xs ys Hx Hy. now rewrite filter_app, Hx, Hy, app_nil_r.
Qed.

Lemma run_deleteServer : forall (id : string) (db : Db),
  run (DatabaseStorage.deleteServer id) db
  = (Ok true,
     mkDb (delete_where (fun s => String.eqb (Server.serverId s) id) (servers db))
          (delete_where (fun m => String.eqb (Mod.serverId m) id) (mods db))
          (delete_where (fun f => String.eqb (File.serverId f) id) (files db))
          (delete_where (fun s => String.eqb (ServerStat.serverId s) id) (serverStats db))
          (installerSettings db) (apiConfig db) (siteSettings db)).
Proof.
  reflexivity.
Qed.

(** X1.  [deleteServer(id)] always fulfils with [true].  Afterwards no
    server, mod, file or stat row carries that [serverId], so the reads by
    that id come back empty, and the rows of every other server are, table
    by table, the ones that were there. *)
Theorem deleteServer_cascades : forall (id other : string) (db : Db),
  fst (run (DatabaseStorage.deleteServer id) db) = Ok true
  /\ fst (run (storage.getServer id) (snd (run (DatabaseStorage.deleteServer id) db)))
     = Ok None
  /\ fst (run (storage.getMods id) (snd (run (DatabaseStorage.deleteServer id) db)))
     = Ok []
  /\ fst (run (storage.getFiles id None) (snd (run (DatabaseStorage.deleteServer id) db)))
     = Ok []
  /\ fst (run (storage.getServerStats id None)
            (snd (run (DatabaseStorage.deleteServer id) db)))
     = Ok []
  /\ (other <> id ->
      fst (run (storage.getServer other) (snd (run (DatabaseStorage.deleteServer id) db)))
      = fst (run (storage.getServer other) db)
      /\ mods_of (snd (run (DatabaseStorage.deleteServer id) db)) other
         = mods_of db other
      /\ files_of (snd (run (DatabaseStorage.deleteServer id) db)) other
         = files_of db other
      /\ stats_of (snd (run (DatabaseStorage.deleteServer id) db)) other
         = stats_of db other).
Proof.
  intros id other db. rewrite run_deleteServer. cbn [fst snd].
  repeat split.
  - rewrite run_getServer. cbn [fst servers delete_where rows].
    now rewrite (filter_out_same _ Server.serverId).
  - rewrite run_getMods. unfold mods_of. cbn [fst mods delete_where rows].
    now rewrite (filter_out_same _ Mod.serverId).
  - unfold storage.getFiles, storage.getFiles_as. rewrite run_await.
    cbn [fst storage.select_files files delete_where rows].
    now rewrite (filter_out_same _ File.serverId).
  - unfold storage.getServerStats. rewrite run_await.
    unfold storage.select_stats. cbn [fst serverStats delete_where rows].
    now rewrite (filter_out_same _ ServerStat.serverId).
  - rewrite !run_getServer. cbn [fst servers delete_where rows].
    now rewrite (filter_out_other _ Server.serverId).
  - unfold mods_of. cbn [mods delete_where rows].
    now apply (filter_out_other _ Mod.serverId).
  - unfold files_of. cbn [files delete_where rows].
    now apply (filter_out_other _ File.serverId).
  - unfold stats_of. cbn [serverStats delete_where rows].
    now apply (filter_out_other _ ServerStat.serverId).
Qed.

Lemma deleteServer_cascades_witness :
  fst (run (DatabaseStorage.deleteServer "survival") shelves) = Ok true
  /\ fst (run (storage.getServer "survival")
            (snd (run (DatabaseStorage.deleteServer "survival") shelves)))
     = Ok None
  /\ fst (run (storage.getMods "survival")
            (snd (run (DatabaseStorage.deleteServer "survival") shelves)))
     = Ok []
  /\ fst (run (storage.getFiles "survival" None)
            (snd (run (DatabaseStorage.deleteServer "survival") shelves)))
     = Ok []
  /\ fst (run (storage.getServerStats "survival" None)
            (snd (run (DatabaseStorage.deleteServer "survival") shelves)))
     = Ok []
  /\ ("creative" <> "survival" ->
      fst (run (storage.getServer "creative")
             (snd (run (DatabaseStorage.deleteServer "survival") shelves)))
      = fst (run (storage.getServer "creative") shelves)
      /\ mods_of (snd (run (DatabaseStorage.deleteServer "survival") shelves)) "creative"
         = mods_of shelves "creative"
      /\ files_of (snd (run (DatabaseStorage.deleteServer "survival") shelves)) "creative"
         = files_of shelves "creative"
      /\ stats_of (snd (run (DatabaseStorage.deleteServer "survival") shelves)) "creative"
         = stats_of shelves "creative").
Proof.
  exact (deleteServer_cascades "survival" "creative" shelves).
Defined.

(** ** Referential integrity is kept *)

Lemma existsb_key_false :
  forall (R : Type) (key : R -> string) (id : string) (xs : list R),
  existsb (fun x => String.eqb (key x) id) xs = false ->
  ~ In id (map key xs).
Proof.
  intros R key id xs. induction xs as [| x xs IH]; simpl; [tauto |].
  intros H. apply orb_false_iff in H. destruct H as [Hx Hxs].
  apply String.eqb_neq in Hx. intros [Heq | Hin]; [congruence | now apply IH].
Qed.

Lemma existsb_key_filter :
  forall (R : Type) (key : R -> string) (id k : string) (xs : list R),
  k <> id ->
  existsb (fun x => String.eqb (key x) k)
          (filter (fun x => negb (String.eqb (key x) id)) xs)
  = existsb (fun x => String.eqb (key x) k) xs.
Proof.
  intros R key id k xs Hne. induction xs as [| x xs IH]; simpl; [reflexivity |].
  destruct (String.eqb (key x) id) eqn:E; simpl.
  - apply String.eqb_eq in E.
    assert (Hk : String.eqb (key x) k = false) by (apply String.eqb_neq; congruence).
    now rewrite Hk.
  - now rewrite IH.
Qed.

Lemma NoDup_map_filter :
  forall (R K : Type) (key : R -> K) (p : R -> bool) (xs : list R),
  NoDup (map key xs) -> NoDup (map key (filter p xs)).
Proof.
  intros R K key p xs. induction xs as [| x xs IH]; simpl; [trivial |].
  intros H. apply NoDup_cons_iff in H. destruct H as [Hx Hxs].
  destruct (p x); simpl; [| now apply IH].
  constructor; [| now apply IH].
  intros Hin. apply Hx. apply in_map_iff in Hin. destruct Hin as [y [Hy Hin]].
  apply filter_In in Hin. apply in_map_iff. exists y. tauto.
Qed.

Lemma Forall_filter_keeps :
  forall (R : Type) (P : R -> Prop) (p : R -> bool) (xs : list R),
  Forall P xs -> Forall P (filter p xs).
Proof.
  intros R P p xs H. apply Forall_forall. intros x Hin.
  apply filter_In in Hin. rewrite Forall_forall in H. now apply H.
Qed.

Lemma consistent_content : forall db db' : Db,
  content db' = content db -> consistent db -> consistent db'.
Proof.
  intros db db' Hc. unfold content in Hc. injection Hc as Hs Hm Hf Ht.
  unfold consistent, known. now rewrite Hs, Hm, Hf, Ht.
Qed.

Lemma perform_content : forall (c : SettingsCall) (db : Db),
  content (perform db c) = content db.
Proof.
  intros c db.
  destruct c as [now v | v | now v | now logoUrl]; cbn [perform].
  - unfold storage.updateInstallerSettings.
    rewrite run_bind. rewrite (run_await _ _ db).
    unfold storage.select_installerSettings.
    destruct (rows (installerSettings db)) as [| r0 rest]; cbn [first];
      rewrite run_bind; rewrite (run_await _ _ db); reflexivity.
  - unfold storage.updateApiConfig.
    rewrite run_bind. rewrite (run_await _ _ db).
    unfold storage.select_apiConfig.
    destruct (rows (apiConfig db)) as [| r0 rest]; cbn [first].
    + rewrite run_bind. rewrite (run_await _ _ db). reflexivity.
    + destruct (storage.no_values_to_set v); [reflexivity |].
      rewrite run_bind. rewrite (run_await _ _ db). reflexivity.
  - unfold storage.updateSiteSettings.
    rewrite run_bind. rewrite (run_await _ _ db).
    unfold storage.select_siteSettings.
    destruct (rows (siteSettings db)) as [| r0 rest]; cbn [first];
      rewrite run_bind; rewrite (run_await _ _ db); reflexivity.
  - unfold storage.updateLogo.
    rewrite run_bind. rewrite (run_await _ _ db).
    unfold storage.select_siteSettings.
    destruct (rows (siteSettings db)) as [| r0 rest]; cbn [first];
      rewrite run_bind; rewrite (run_await _ _ db); reflexivity.
Qed.

Lemma consistent_createServer :
  forall (now : Timestamp) (v : InsertServer.t) (db : Db),
  consistent db -> consistent (snd (run (storage.createServer now v) db)).
Proof.
  intros now v db (Hu & Hm & Hf & Ht). rewrite run_createServer.
  destruct (existsb _ (rows (servers db))) eqn:Hnew.
  - apply (consistent_content db); [reflexivity | now repeat split].
  - cbv zeta. cbn [snd]. unfold consistent, known.
    cbn [servers mods files serverStats set_mods set_servers rows Server.serverId].
    assert (Hgrow : forall k,
      existsb (fun s => String.eqb (Server.serverId s) k) (rows (servers db)) = true ->
      existsb (fun s => String.eqb (Server.serverId s) k)
        (rows (servers db)
         ++ [Server.mk (nextval (servers db)) (InsertServer.serverId v)
               (InsertServer.name v) (InsertServer.description v)
               (InsertServer.icon v) (InsertServer.version v)
               (InsertServer.address v) (InsertServer.minecraftVersion v)
               (InsertServer.loaderType v) (InsertServer.loaderVersion v)
               (or_default false (InsertServer.mainServer v))
               (or_default false (InsertServer.autoconnect v)) now now])%list = true).
    { intros k Hk. rewrite existsb_app, Hk. reflexivity. }
    repeat split.
    + rewrite map_app. apply NoDup_app; [exact Hu | |].
      * simpl. constructor; [tauto | constructor].
      * intros a Ha [<- | []]. revert Ha.
        now apply (existsb_key_false _ Server.serverId).
    + apply Forall_app. split.
      * eapply Forall_impl; [| exact Hm]. intros m. apply Hgrow.
      * repeat constructor; cbn [Mod.serverId]; rewrite existsb_app; simpl;
          rewrite String.eqb_refl; now rewrite orb_true_r.
    + eapply Forall_impl; [| exact Hf]. intros f. apply Hgrow.
    + eapply Forall_impl; [| exact Ht]. intros s. apply Hgrow.
Qed.

Lemma consistent_deleteServer : forall (id : string) (db : Db),
  consistent db -> consistent (snd (run (DatabaseStorage.deleteServer id) db)).
Proof.
  intros id db (Hu & Hm & Hf & Ht). rewrite run_deleteServer.
  cbn [snd]. unfold consistent, known.
  cbn [servers mods files serverStats delete_where rows].
  repeat split.
  - now apply NoDup_map_filter.
  - apply Forall_forall. intros m Hin. apply filter_In in Hin.
    destruct Hin as [Hin Hne]. apply negb_true_iff, String.eqb_neq in Hne.
    rewrite (existsb_key_filter _ Server.serverId) by exact Hne.
    rewrite Forall_forall in Hm. now apply Hm.
  - apply Forall_forall. intros f Hin. apply filter_In in Hin.
    destruct Hin as [Hin Hne]. apply negb_true_iff, String.eqb_neq in Hne.
    rewrite (existsb_key_filter _ Server.serverId) by exact Hne.
    rewrite Forall_forall in Hf. now apply Hf.
  - apply Forall_forall. intros s Hin. apply filter_In in Hin.
    destruct Hin as [Hin Hne]. apply negb_true_iff, String.eqb_neq in Hne.
    rewrite (existsb_key_filter _ Server.serverId) by exact Hne.
    rewrite Forall_forall in Ht. now apply Ht.
Qed.

Lemma consistent_write : forall (w : Write) (db : Db),
  consistent db -> consistent (write db w).
Proof.
  intros w db H.
  destruct w as [now v | id | now v | id | now v | id | now v | c]; cbn [write].
  - now apply consistent_createServer.
  - now apply consistent_deleteServer.
  - destruct H as (Hu & Hm & Hf & Ht).
    unfold storage.createMod. rewrite run_await. unfold storage.insert_mod.
    destruct (existsb _ (rows (servers db))) eqn:Hfk.
    + cbn. unfold consistent, known. cbn. repeat split; try assumption.
      apply Forall_app. split; [exact Hm |]. repeat constructor. exact Hfk.
    + apply (consistent_content db); [reflexivity | now repeat split].
  - destruct H as (Hu & Hm & Hf & Ht).
    cbn. unfold consistent, known. cbn. repeat split; try assumption.
    now apply Forall_filter_keeps.
  - destruct H as (Hu & Hm & Hf & Ht).
    unfold DatabaseStorage.createFile. rewrite run_await.
    unfold DatabaseStorage.insert_file.
    destruct (existsb _ (rows (servers db))) eqn:Hfk.
    + cbn. unfold consistent, known. cbn. repeat split; try assumption.
      apply Forall_app. split; [exact Hf |]. repeat constructor. exact Hfk.
    + apply (consistent_content db); [reflexivity | now repeat split].
  - destruct H as (Hu & Hm & Hf & Ht).
    cbn. unfold consistent, known. cbn. repeat split; try assumption.
    now apply Forall_filter_keeps.
  - destruct H as (Hu & Hm & Hf & Ht).
    unfold storage.createServerStat. rewrite run_await. unfold storage.insert_stat.
    destruct (existsb _ (rows (servers db))) eqn:Hfk.
    + cbn. unfold consistent, known. cbn. repeat split; try assumption.
      apply Forall_app. split; [exact Ht |]. repeat constructor. exact Hfk.
    + apply (consistent_content db); [reflexivity | now repeat split].
  - apply (consistent_content db); [apply perform_content | exact H].
Qed.

(** X2.  The keys of the schema hold along any sequence of writes: from a
    state in which [serverId] is unique among the servers and every mod,
    file and stat row names a stored server, any sequence of server, mod,
    file and stat creations and deletions and of settings updates, each run
    to its end (rejected ones included), leads to such a state. *)
Theorem writes_keep_keys : forall (ws : list Write) (db : Db),
  consistent db -> consistent (fold_left write ws db).
Proof.
  induction ws as [| w ws IH]; intros db H; simpl; [exact H |].
  apply IH. now apply consistent_write.
Qed.

Lemma writes_keep_keys_witness :
  consistent
    (fold_left write
       [CreateServer 1000 survival;
        CreateMod 1100 (InsertMod.mk "lobby" "sodium" "Sodium" "FabricMod" None
                          Absent Absent Absent None "https://cdn.example.org/s.jar" None);
        CreateFile 1200 (InsertFile.mk "survival" "config" (Given (Some true)) Absent None);
        CreateServerStat 1300 (InsertServerStat.mk "survival" (Given (Some 4))
                                 Absent Absent Absent);
        CreateServer 1400 survival;
        Settings (UpdateLogo 1500 "/uploads/logo.png");
        DeleteFile 1;
        DeleteServer "survival"]
       empty_db).
Proof.
  apply (writes_keep_keys
           [CreateServer 1000 survival;
            CreateMod 1100 (InsertMod.mk "lobby" "sodium" "Sodium" "FabricMod" None
                              Absent Absent Absent None "https://cdn.example.org/s.jar" None);
            CreateFile 1200 (InsertFile.mk "survival" "config" (Given (Some true)) Absent None);
            CreateServerStat 1300 (InsertServerStat.mk "survival" (Given (Some 4))
                                     Absent Absent Absent);
            CreateServer 1400 survival;
            Settings (UpdateLogo 1500 "/uploads/logo.png");
            DeleteFile 1;
            DeleteServer "survival"]
           empty_db).
  unfold consistent. simpl. repeat split; constructor.
Defined.

(** ** Creating a server, then reading or deleting it *)

Lemma existsb_false_filter : forall (R : Type) (p : R -> bool) (xs : list R),
  existsb p xs = false -> filter p xs = [].
Proof.
  intros R p xs. induction xs as [| x xs IH]; simpl; [reflexivity |].
  destruct (p x); simpl; [discriminate | exact IH].
Qed.

Lemma unknown_server_has_no_rows :
  forall (R : Type) (key : R -> string) (db : Db) (id : string) (xs : list R),
  Forall (fun x => known db (key x) = true) xs ->
  known db id = false ->
  filter (fun x => String.eqb (key x) id) xs = [].
Proof.
  intros R key db id xs Hall Hnew.
  induction Hall as [| x xs Hx Hxs IH]; simpl; [reflexivity |].
  destruct (String.eqb (key x) id) eqn:E; [| exact IH].
  apply String.eqb_eq in E. congruence.
Qed.

(** X3.  In a database whose keys hold, a [createServer] call that succeeds
    is seen by the reads that follow: [getServer] on the new [serverId]
    returns the row the call returned, and [getMods] returns the two seeded
    libraries and nothing else. *)
Theorem created_server_is_read_back :
  forall (now : Timestamp) (v : InsertServer.t) (db db' : Db) (server : Server.t),
  consistent db ->
  run (storage.createServer now v) db = (Ok server, db') ->
  fst (run (storage.getServer (Server.serverId server)) db') = Ok (Some server)
  /\ map Mod.modId (mods_of db' (Server.serverId server))
     = ["net.fabricmc:fabric-loader:0.16.13"; "net.fabricmc:intermediary:1.20.1"]
  /\ fst (run (storage.getMods (Server.serverId server)) db')
     = Ok (mods_of db' (Server.serverId server))
  /\ Forall (fun m => Mod.type m = "Library" /\ Mod.required m = Some true)
            (mods_of db' (Server.serverId server)).
Proof.
  intros now v db db' server (Hu & Hm & Hf & Ht) Hrun.
  rewrite run_createServer in Hrun.
  destruct (existsb _ (rows (servers db))) eqn:Hnew; [discriminate |].
  cbv zeta in Hrun. injection Hrun as <- <-.
  pose proof (unknown_server_has_no_rows _ Mod.serverId db _ _ Hm Hnew) as Hnone.
  rewrite run_getServer, run_getMods. unfold mods_of.
  cbn [fst servers mods set_mods set_servers rows Server.serverId].
  rewrite !filter_app, Hnone, (existsb_false_filter _ _ _ Hnew).
  simpl. rewrite String.eqb_refl. simpl.
  repeat split; repeat constructor.
Qed.

Lemma created_server_is_read_back_witness :
  fst (run (storage.getServer (Server.serverId survival_row))
         (snd (run (storage.createServer 1000 survival) empty_db)))
  = Ok (Some survival_row)
  /\ map Mod.modId (mods_of (snd (run (storage.createServer 1000 survival) empty_db))
                            (Server.serverId survival_row))
     = ["net.fabricmc:fabric-loader:0.16.13"; "net.fabricmc:intermediary:1.20.1"]
  /\ fst (run (storage.getMods (Server.serverId survival_row))
            (snd (run (storage.createServer 1000 survival) empty_db)))
     = Ok (mods_of (snd (run (storage.createServer 1000 survival) empty_db))
                   (Server.serverId survival_row))
  /\ Forall (fun m => Mod.type m = "Library" /\ Mod.required m = Some true)
            (mods_of (snd (run (storage.createServer 1000 survival) empty_db))
                     (Server.serverId survival_row)).
Proof.
  apply (created_server_is_read_back 1000 survival empty_db).
  - unfold consistent. simpl. repeat split; constructor.
  - reflexivity.
Defined.

(** X4.  In a database whose keys hold, deleting a server right after a
    [createServer] call that succeeded puts the rows of [servers], [mods],
    [files] and [server_stats] back as they were before the creation: the
    cascade takes the two seeded libraries with the server and nothing
    else. *)
Theorem create_then_delete_restores :
  forall (now : Timestamp) (v : InsertServer.t) (db db' : Db) (server : Server.t),
  consistent db ->
  run (storage.createServer now v) db = (Ok server, db') ->
  content (snd (run (DatabaseStorage.deleteServer (Server.serverId server)) db'))
  = content db.
Proof.
  intros now v db db' server (Hu & Hm & Hf & Ht) Hrun.
  rewrite run_createServer in Hrun.
  destruct (existsb _ (rows (servers db))) eqn:Hnew; [discriminate |].
  cbv zeta in Hrun. injection Hrun as <- <-.
  rewrite run_deleteServer. unfold content.
  cbn [snd servers mods files serverStats set_mods set_servers delete_where rows
       Server.serverId].
  pose proof (existsb_false_filter _ _ _ Hnew) as Hs.
  pose proof (unknown_server_has_no_rows _ Mod.serverId db _ _ Hm Hnew) as Hms.
  pose proof (unknown_server_has_no_rows _ File.serverId db _ _ Hf Hnew) as Hfs.
  pose proof (unknown_server_has_no_rows _ ServerStat.serverId db _ _ Ht Hnew) as Hts.
  rewrite (filter_app_out _ _ (rows (servers db))),
          (filter_app_out _ _ (rows (mods db))),
          (filter_out_absent _ File.serverId _ _ Hfs),
          (filter_out_absent _ ServerStat.serverId _ _ Hts).
  - reflexivity.
  - exact (filter_out_absent _ Mod.serverId _ _ Hms).
  - simpl. now rewrite String.eqb_refl.
  - exact (filter_out_absent _ Server.serverId _ _ Hs).
  - simpl. now rewrite String.eqb_refl.
Qed.

Lemma create_then_delete_restores_witness :
  content (snd (run (DatabaseStorage.deleteServer (Server.serverId creative_row))
                  (snd (run (storage.createServer 1000
                               (InsertServer.mk "creative" "Creative" None None "1.0.0"
                                  None "1.20.1" "Fabric" "0.16.13" Absent Absent))
                            (panel [sodium] [config_dir])))))
  = content (panel [sodium] [config_dir]).
Proof.
  apply (create_then_delete_restores 1000
           (InsertServer.mk "creative" "Creative" None None "1.0.0"
              None "1.20.1" "Fabric" "0.16.13" Absent Absent)
           (panel [sodium] [config_dir])
           (snd (run (storage.createServer 1000
                        (InsertServer.mk "creative" "Creative" None None "1.0.0"
                           None "1.20.1" "Fabric" "0.16.13" Absent Absent))
                     (panel [sodium] [config_dir])))).
  - unfold consistent. simpl. repeat split; repeat constructor; simpl; tauto.
  - reflexivity.
Defined.

(** ** [ORDER BY] *)

Lemma insert_sorted_sorted :
  forall (R : Type) (le : R -> R -> bool) (x : R) (xs : list R),
  (forall a b, le a b = true \/ le b a = true) ->
  Sorted (fun a b => le a b = true) xs ->
  Sorted (fun a b => le a b = true) (insert_sorted le x xs).
Proof.
  intros R le x xs Htotal Hs.
  induction Hs as [| y ys Hys IH Hhd]; simpl.
  - repeat constructor.
  - destruct (le x y) eqn:E.
    + constructor; [now constructor | now constructor].
    + constructor; [exact IH |].
      destruct Hhd as [| z zs Hyz]; simpl.
      * constructor. destruct (Htotal x y); congruence.
      * destruct (le x z); constructor; [| exact Hyz].
        destruct (Htotal x y); congruence.
Qed.

Lemma order_by_sorted : forall (R : Type) (le : R -> R -> bool) (xs : list R),
  (forall a b, le a b = true \/ le b a = true) ->
  Sorted (fun a b => le a b = true) (order_by le xs).
Proof.
  intros R le xs Htotal. unfold order_by.
  induction xs as [| x xs IH]; simpl; [constructor |].
  now apply insert_sorted_sorted.
Qed.

Lemma Sorted_map :
  forall (A B : Type) (f : A -> B) (r : B -> B -> Prop) (xs : list A),
  Sorted (fun a b => r (f a) (f b)) xs -> Sorted r (map f xs).
Proof.
  intros A B f r xs H. induction H as [| x xs Hxs IH Hhd]; simpl; [constructor |].
  constructor; [exact IH |].
  destruct Hhd; simpl; now constructor.
Qed.



Lemma names_total : forall a b : Server.t,
  String.leb (Server.name a) (Server.name b) = true
  \/ String.leb (Server.name b) (Server.name a) = true.
Proof.
  intros a b. apply String.leb_total.
Qed.

Lemma newest_first_total : forall a b : ServerStat.t,
  (ServerStat.timestamp b <=? ServerStat.timestamp a) = true
  \/ (ServerStat.timestamp a <=? ServerStat.timestamp b) = true.
Proof.
  intros a b. rewrite !Z.leb_le. lia.
Qed.


Lemma getServerStats_most_recent_example :
  fst (run (storage.getServerStats "survival" (Some 2))
         (set_serverStats
            (mkTable [ServerStat.mk 1 "survival" (Some 1) None None None 100;
                      ServerStat.mk 2 "creative" (Some 9) None None None 400;
                      ServerStat.mk 3 "survival" (Some 3) None None None 300;
                      ServerStat.mk 4 "survival" (Some 2) None None None 200] 5)
            shelves))
  = Ok [ServerStat.mk 3 "survival" (Some 3) None None None 300;
        ServerStat.mk 4 "survival" (Some 2) None None None 200].
Proof. reflexivity. Qed.

Lemma getServerStats_negative_limit_example :
  fst (run (storage.getServerStats "survival" (Some (-1)))
         (set_serverStats
            (mkTable [ServerStat.mk 1 "survival" (Some 1) None None None 100;
                      ServerStat.mk 2 "creative" (Some 9) None None None 400;
                      ServerStat.mk 3 "survival" (Some 3) None None None 300;
                      ServerStat.mk 4 "survival" (Some 2) None None None 200] 5)
            shelves))
  = Ok [ServerStat.mk 3 "survival" (Some 3) None None None 300;
        ServerStat.mk 4 "survival" (Some 2) None None None 200;
        ServerStat.mk 1 "survival" (Some 1) None None None 100].
Proof. reflexivity. Qed.

(** ** What the listings contain *)

Lemma collect_Forall2 :
  forall (A B : Type) (g : A -> Result B) (xs : list A) (ys : list B),
  collect g xs = Ok ys -> Forall2 (fun x y => g x = Ok y) xs ys.
Proof.
  intros A B g xs. induction xs as [| x xs IH]; simpl; intros ys H.
  - injection H as <-. constructor.
  - destruct (g x) as [y | e] eqn:Hx; [| discriminate].
    destruct (collect g xs) as [ys' | e]; [| discriminate].
    injection H as <-. constructor; [exact Hx | now apply IH].
Qed.

Lemma Forall2_map_eq :
  forall (A B C : Type) (h : B -> C) (k : A -> C) (xs : list A) (ys : list B),
  Forall2 (fun x y => h y = k x) xs ys -> map h ys = map k xs.
Proof.
  intros A B C h k xs ys H. induction H as [| x y xs ys Hxy _ IH]; simpl.
  - reflexivity.
  - now rewrite Hxy, IH.
Qed.

Lemma collect_total :
  forall (A B : Type) (f : A -> B) (xs : list A),
  collect (fun x => Ok (f x)) xs = Ok (map f xs).
Proof.
  intros A B f xs. induction xs as [| x xs IH]; simpl; [reflexivity |].
  now rewrite IH.
Qed.

Lemma sorted_by_name : forall xs : list Server.t,
  Sorted (fun a b => String.leb a b = true)
         (map Server.name
              (order_by (fun a b => String.leb (Server.name a) (Server.name b)) xs)).
Proof.
  intros xs. apply Sorted_map.
  apply (order_by_sorted _ (fun a b => String.leb (Server.name a) (Server.name b))).
  exact names_total.
Qed.

(** X6.  When the distribution route answers 200, the manifest lists every
    stored server exactly once, under its [serverId] and name, in ascending
    order of name, and the database is as it was. *)
Theorem manifest_lists_every_server :
  forall (sc : Scope) (db db' : Db) (d : Distribution),
  run (get_api_distribution sc) db = (Ok (mkResponse 200 (DistributionBody d)), db') ->
  db' = db
  /\ Permutation (map (fun e => (s_id e, s_name e)) (d_servers d))
                 (map (fun s => (Server.serverId s, Server.name s)) (rows (servers db)))
  /\ Sorted (fun a b => String.leb a b = true) (map s_name (d_servers d)).
Proof.
  intros sc db db' d Hrun.
  rewrite run_get_api_distribution in Hrun.
  destruct (rows (apiConfig db)) as [| cfg rest]; [discriminate |].
  destruct (collect _ _) as [entries | e] eqn:Hcollect; [| discriminate].
  injection Hrun as <- <-. cbn [d_servers].
  apply collect_Forall2 in Hcollect.
  assert (Hpairs : Forall2 (fun (s : Server.t) (e : ServerEntry) =>
                              (s_id e, s_name e) = (Server.serverId s, Server.name s))
                     (order_by (fun a b => String.leb (Server.name a) (Server.name b))
                               (rows (servers db))) entries).
  { eapply Forall2_impl; [| exact Hcollect].
    intros s e He. cbv beta in He.
    destruct (push_files sc s _ _); [| discriminate].
    injection He as <-. reflexivity. }
  split; [reflexivity |]. split.
  - rewrite (Forall2_map_eq _ _ _ _ _ _ _ Hpairs).
    apply Permutation_map. apply order_by_perm.
  - assert (Hnames : map s_name entries
                     = map Server.name
                         (order_by (fun a b => String.leb (Server.name a) (Server.name b))
                                   (rows (servers db)))).
    { apply Forall2_map_eq. eapply Forall2_impl; [| exact Hpairs].
      intros s e He. now injection He. }
    rewrite Hnames. apply sorted_by_name.
Qed.

Lemma manifest_lists_every_server_witness :
  shelves_with_config = shelves_with_config
  /\ Permutation
       (map (fun e => (s_id e, s_name e))
            [server_entry config_row creative_row []; server_entry config_row survival_row []])
       (map (fun s => (Server.serverId s, Server.name s))
            (rows (servers shelves_with_config)))
  /\ Sorted (fun a b => String.leb a b = true)
            (map s_name
               [server_entry config_row creative_row [];
                server_entry config_row survival_row []]).
Proof.
  apply (manifest_lists_every_server api_ts shelves_with_config shelves_with_config
           (mkDistribution "1.0.0" "" (mkDiscord "" "logo" "logo")
              [server_entry config_row creative_row [];
               server_entry config_row survival_row []])).
  reflexivity.
Defined.

Lemma newest_is_first :
  forall (xs : list ServerStat.t),
  match first (firstn 1 (order_by (fun a b => ServerStat.timestamp b <=? ServerStat.timestamp a) xs)) with
  | None => xs = []
  | Some s =>
      In s xs
      /\ forall s', In s' xs -> ServerStat.timestamp s' <= ServerStat.timestamp s
  end.
Proof.
  intros xs.
  set (le := fun a b => ServerStat.timestamp b <=? ServerStat.timestamp a).
  pose proof (order_by_perm _ le xs) as Hperm.
  pose proof (order_by_sorted _ le xs newest_first_total) as Hsorted.
  destruct (order_by le xs) as [| s rest]; cbn [firstn first].
  - now apply Permutation_nil.
  - split; [apply (Permutation_in _ Hperm); now left |].
    intros s' Hin.
    apply (Permutation_in _ (Permutation_sym Hperm)) in Hin.
    apply Sorted_StronglySorted in Hsorted.
    + apply StronglySorted_inv in Hsorted. destruct Hsorted as [_ Hall].
      destruct Hin as [<- | Hin]; [lia |].
      rewrite Forall_forall in Hall. specialize (Hall s' Hin).
      unfold le in Hall. now apply Z.leb_le in Hall.
    + intros a b c Hab Hbc. unfold le in *.
      apply Z.leb_le in Hab, Hbc. apply Z.leb_le. lia.
Qed.

(** X7.  The snapshot that [sendCurrentStats] reads from the database has
    one entry for every stored server, under its [serverId] and name, in
    ascending order of name.  The entry of a server with no stat row carries
    the all-zero placeholder; otherwise it carries a stat row of that server
    whose timestamp no other stat row of the server exceeds. *)
Theorem snapshot_has_latest_stats : forall db : Db,
  exists entries,
    run allStats db = (Ok entries, db)
    /\ Permutation (map (fun e => (e_serverId e, e_serverName e)) entries)
                   (map (fun s => (Server.serverId s, Server.name s)) (rows (servers db)))
    /\ Sorted (fun a b => String.leb a b = true) (map e_serverName entries)
    /\ Forall (fun e =>
                 match e_stats e with
                 | Zeros => stats_of db (e_serverId e) = []
                 | Latest s =>
                     In s (stats_of db (e_serverId e))
                     /\ forall s', In s' (stats_of db (e_serverId e)) ->
                                   ServerStat.timestamp s' <= ServerStat.timestamp s
                 end) entries.
Proof.
  intros db.
  set (entry := fun server : Server.t =>
         mkStatsEntry (Server.serverId server) (Server.name server)
           (match first (firstn 1
                    (order_by (fun a b => ServerStat.timestamp b <=? ServerStat.timestamp a)
                              (stats_of db (Server.serverId server)))) with
            | Some s => Latest s
            | None => Zeros
            end)).
  set (sorted := order_by (fun a b => String.leb (Server.name a) (Server.name b))
                          (rows (servers db))).
  exists (map entry sorted). repeat split.
  - unfold allStats. rewrite run_bind. unfold storage.getServers.
    rewrite (run_await _ _ db). unfold storage.select_servers_ordered.
    fold sorted.
    rewrite (run_all _ _ _ (fun server => Ok (entry server))).
    + now rewrite collect_total.
    + intros server. rewrite run_bind. unfold storage.getServerStats.
      rewrite (run_await _ _ db). reflexivity.
  - rewrite map_map. cbn [entry e_serverId e_serverName].
    apply Permutation_map. apply order_by_perm.
  - rewrite map_map. cbn [entry e_serverName]. apply sorted_by_name.
  - apply Forall_forall. intros e He. apply in_map_iff in He.
    destruct He as [server [<- _]]. cbn [entry e_stats e_serverId].
    pose proof (newest_is_first (stats_of db (Server.serverId server))) as Hnew.
    destruct (first _); exact Hnew.
Qed.

(* ------------------------------------------------------------------ *)
(** * Settings, written and read back *)

(** X8.  When [updateApiConfig] fulfils, it has returned a row; a
    [getApiConfig] that follows returns that same row; every field that the
    update gave has the given value in it; and a manifest that the
    distribution route then produces takes its version, rss url and discord
    fields from that row. *)
Theorem updated_config_is_read_back :
  forall (v : InsertApiConfig.t) (db db' : Db) (r : option ApiConfig.t),
  run (storage.updateApiConfig v) db = (Ok r, db') ->
  exists cfg,
    r = Some cfg
    /\ fst (run storage.getApiConfig db') = Ok (Some cfg)
    /\ (forall x, InsertApiConfig.rssUrl v = Given x -> ApiConfig.rssUrl cfg = x)
    /\ (forall x, InsertApiConfig.discordClientId v = Given x ->
                  ApiConfig.discordClientId cfg = x)
    /\ (forall x, InsertApiConfig.discordSmallImageText v = Given x ->
                  ApiConfig.discordSmallImageText cfg = x)
    /\ (forall x, InsertApiConfig.discordSmallImageKey v = Given x ->
                  ApiConfig.discordSmallImageKey cfg = x)
    /\ (forall x, InsertApiConfig.version v = Given x -> ApiConfig.version cfg = x)
    /\ (forall sc d db'',
          run (get_api_distribution sc) db'
          = (Ok (mkResponse 200 (DistributionBody d)), db'') ->
          d_version d = or_str (ApiConfig.version cfg) "1.0.0"
          /\ d_rss d = or_str (ApiConfig.rssUrl cfg) ""
          /\ d_discord d
             = mkDiscord (or_str (ApiConfig.discordClientId cfg) "")
                         (or_str (ApiConfig.discordSmallImageText cfg) "logo")
                         (or_str (ApiConfig.discordSmallImageKey cfg) "logo")).
Proof.
  intros v db db' r Hrun.
  assert (Hread : exists cfg rest,
            r = Some cfg /\ rows (apiConfig db') = cfg :: rest
            /\ (forall x, InsertApiConfig.rssUrl v = Given x -> ApiConfig.rssUrl cfg = x)
            /\ (forall x, InsertApiConfig.discordClientId v = Given x ->
                          ApiConfig.discordClientId cfg = x)
            /\ (forall x, InsertApiConfig.discordSmallImageText v = Given x ->
                          ApiConfig.discordSmallImageText cfg = x)
            /\ (forall x, InsertApiConfig.discordSmallImageKey v = Given x ->
                          ApiConfig.discordSmallImageKey cfg = x)
            /\ (forall x, InsertApiConfig.version v = Given x ->
                          ApiConfig.version cfg = x)).
  { unfold storage.updateApiConfig in Hrun.
    rewrite run_bind in Hrun. rewrite (run_await _ _ db) in Hrun.
    unfold storage.select_apiConfig in Hrun.
    destruct (rows (apiConfig db)) as [| r0 rest] eqn:Hrows; cbn [first] in Hrun.
    - rewrite run_bind in Hrun. rewrite (run_await _ _ db) in Hrun.
      unfold storage.insert_apiConfig, append in Hrun. rewrite Hrows in Hrun.
      cbn in Hrun. injection Hrun as <- <-.
      eexists. exists []. cbn.
      repeat split; intros x Hx; rewrite Hx; reflexivity.
    - destruct (storage.no_values_to_set v); [discriminate |].
      rewrite run_bind in Hrun. rewrite (run_await _ _ db) in Hrun.
      unfold storage.update_apiConfig, update_where in Hrun.
      rewrite Hrows in Hrun. cbn in Hrun. rewrite Z.eqb_refl in Hrun.
      cbn in Hrun. injection Hrun as <- <-.
      eexists. eexists. cbn.
      repeat split; intros x Hx; rewrite Hx; reflexivity. }
  destruct Hread as (cfg & rest & -> & Hrows & H1 & H2 & H3 & H4 & H5).
  exists cfg. repeat split; try assumption.
  - unfold storage.getApiConfig. rewrite run_bind. rewrite (run_await _ _ db').
    unfold storage.select_apiConfig. now rewrite Hrows.
  - rewrite run_get_api_distribution, Hrows in H.
    destruct (collect _ _); [| discriminate]. now injection H as <- _.
  - rewrite run_get_api_distribution, Hrows in H.
    destruct (collect _ _); [| discriminate]. now injection H as <- _.
  - rewrite run_get_api_distribution, Hrows in H.
    destruct (collect _ _); [| discriminate]. now injection H as <- _.
Qed.

Lemma updated_config_is_read_back_witness :
  exists cfg,
    Some (ApiConfig.mk 1 (Some "https://news.example.org/rss") None None None
                       (Some "1.0.0")) = Some cfg
    /\ fst (run storage.getApiConfig
              (snd (run (storage.updateApiConfig
                           (InsertApiConfig.mk (Given (Some "https://news.example.org/rss"))
                              Absent Absent Absent Absent))
                        (panel [] []))))
       = Ok (Some cfg)
    /\ (forall x, Given (Some "https://news.example.org/rss") = Given x ->
                  ApiConfig.rssUrl cfg = x)
    /\ (forall x, @Absent string = Given x -> ApiConfig.discordClientId cfg = x)
    /\ (forall x, @Absent string = Given x -> ApiConfig.discordSmallImageText cfg = x)
    /\ (forall x, @Absent string = Given x -> ApiConfig.discordSmallImageKey cfg = x)
    /\ (forall x, @Absent string = Given x -> ApiConfig.version cfg = x)
    /\ (forall sc d db'',
          run (get_api_distribution sc)
              (snd (run (storage.updateApiConfig
                           (InsertApiConfig.mk (Given (Some "https://news.example.org/rss"))
                              Absent Absent Absent Absent))
                        (panel [] [])))
          = (Ok (mkResponse 200 (DistributionBody d)), db'') ->
          d_version d = or_str (ApiConfig.version cfg) "1.0.0"
          /\ d_rss d = or_str (ApiConfig.rssUrl cfg) ""
          /\ d_discord d
             = mkDiscord (or_str (ApiConfig.discordClientId cfg) "")
                         (or_str (ApiConfig.discordSmallImageText cfg) "logo")
                         (or_str (ApiConfig.discordSmallImageKey cfg) "logo")).
Proof.
  apply (updated_config_is_read_back
           (InsertApiConfig.mk (Given (Some "https://news.example.org/rss"))
              Absent Absent Absent Absent)
           (panel [] [])).
  reflexivity.
Defined.

(** X9.  [updateLogo(logoUrl)] always fulfils, and the row that
    [getSiteSettings] returns afterwards has that logo url and the time of
    the call as [updatedAt].  When a settings row existed, the row read back
    keeps its id, site name, site url, maintenance flag and registration
    flag; when none did, it is a new row with the column defaults. *)
Theorem updateLogo_changes_only_the_logo :
  forall (now : Timestamp) (logoUrl : string) (db : Db),
  exists settings,
    fst (run (storage.updateLogo now logoUrl) db) = Ok (Some settings)
    /\ fst (run storage.getSiteSettings (snd (run (storage.updateLogo now logoUrl) db)))
       = Ok (Some settings)
    /\ SiteSettings.logoUrl settings = Some logoUrl
    /\ SiteSettings.updatedAt settings = now
    /\ match first (rows (siteSettings db)) with
       | Some old =>
           SiteSettings.id settings = SiteSettings.id old
           /\ SiteSettings.siteName settings = SiteSettings.siteName old
           /\ SiteSettings.siteUrl settings = SiteSettings.siteUrl old
           /\ SiteSettings.maintenanceMode settings = SiteSettings.maintenanceMode old
           /\ SiteSettings.enableRegistration settings
              = SiteSettings.enableRegistration old
       | None =>
           SiteSettings.siteName settings = Some "MineLaunch Admin Panel"
           /\ SiteSettings.siteUrl settings = Some "https://admin.minelauncher.com"
           /\ SiteSettings.maintenanceMode settings = Some false
           /\ SiteSettings.enableRegistration settings = Some true
       end.
Proof.
  intros now logoUrl db.
  destruct (run (storage.updateLogo now logoUrl) db) as [r db'] eqn:Hrun.
  unfold storage.updateLogo in Hrun.
  rewrite run_bind in Hrun. rewrite (run_await _ _ db) in Hrun.
  unfold storage.select_siteSettings in Hrun.
  unfold storage.getSiteSettings. rewrite run_bind.
  destruct (rows (siteSettings db)) as [| r0 rest] eqn:Hrows; cbn [first] in *.
  - rewrite run_bind in Hrun. rewrite (run_await _ _ db) in Hrun.
    unfold storage.insert_siteSettings, append in Hrun. rewrite Hrows in Hrun.
    cbn in Hrun. injection Hrun as <- <-.
    eexists. cbn. repeat split.
  - rewrite run_bind in Hrun. rewrite (run_await _ _ db) in Hrun.
    unfold storage.update_siteSettings, update_where in Hrun.
    rewrite Hrows in Hrun. cbn in Hrun. rewrite Z.eqb_refl in Hrun.
    cbn in Hrun. injection Hrun as <- <-.
    eexists. cbn. repeat split.
Qed.

(** X10.  Completing the installation with a body that passes validation
    answers 201 with a settings row whose [isInstalled] is true, whatever
    the table held before and without any authentication check, and the
    status route then reports [installed: true]; on a database with no
    installer row the status route reports [installed: false]. *)
Theorem installation_is_reported :
  forall (RequestBody : Type)
         (parse : RequestBody -> Result InsertInstallerSettings.t)
         (now : Timestamp) (req_body : RequestBody)
         (installerData : InsertInstallerSettings.t) (db : Db),
  parse req_body = Ok installerData ->
  (exists settings,
     fst (run (post_api_installer_complete RequestBody parse now req_body) db)
     = Ok (mkReply 201 (InstallerJson (Some settings)))
     /\ InstallerSetting.isInstalled settings = Some true
     /\ InstallerSetting.installedAt settings = Some now)
  /\ fst (run get_api_installer_status
            (snd (run (post_api_installer_complete RequestBody parse now req_body) db)))
     = Ok (mkReply 200 (InstalledJson true))
  /\ (rows (installerSettings db) = [] ->
      fst (run get_api_installer_status db) = Ok (mkReply 200 (InstalledJson false))).
Proof.
  intros RequestBody parse now req_body installerData db Hvalid.
  destruct (run (post_api_installer_complete RequestBody parse now req_body) db)
    as [r db'] eqn:Hrun.
  unfold post_api_installer_complete in Hrun. rewrite Hvalid in Hrun.
  rewrite run_try_catch, run_bind in Hrun.
  unfold storage.updateInstallerSettings in Hrun.
  rewrite run_bind in Hrun. rewrite (run_await _ _ db) in Hrun.
  unfold storage.select_installerSettings in Hrun.
  unfold get_api_installer_status, DatabaseStorage.isInstalled.
  rewrite !run_try_catch, !run_bind.
  destruct (rows (installerSettings db)) as [| r0 rest] eqn:Hrows; cbn [first] in *.
  - rewrite run_bind in Hrun. rewrite (run_await _ _ db) in Hrun.
    unfold storage.insert_installerSettings, append in Hrun. rewrite Hrows in Hrun.
    cbn in Hrun. injection Hrun as <- <-.
    cbn. rewrite Hrows. repeat split. eexists. repeat split.
  - rewrite run_bind in Hrun. rewrite (run_await _ _ db) in Hrun.
    unfold storage.update_installerSettings, update_where in Hrun.
    rewrite Hrows in Hrun. cbn in Hrun. rewrite Z.eqb_refl in Hrun.
    cbn in Hrun. injection Hrun as <- <-.
    cbn. repeat split.
    + eexists. repeat split.
    + discriminate.
Qed.

Lemma installation_is_reported_witness :
  (exists settings,
     fst (run (post_api_installer_complete InsertInstallerSettings.t (fun b => Ok b) 7000
                 (InsertInstallerSettings.mk (Given (Some false)) (Given (Some "db.local"))
                    Absent Absent Absent)) empty_db)
     = Ok (mkReply 201 (InstallerJson (Some settings)))
     /\ InstallerSetting.isInstalled settings = Some true
     /\ InstallerSetting.installedAt settings = Some 7000)
  /\ fst (run get_api_installer_status
            (snd (run (post_api_installer_complete InsertInstallerSettings.t
                         (fun b => Ok b) 7000
                         (InsertInstallerSettings.mk (Given (Some false))
                            (Given (Some "db.local")) Absent Absent Absent)) empty_db)))
     = Ok (mkReply 200 (InstalledJson true))
  /\ (rows (installerSettings empty_db) = [] ->
      fst (run get_api_installer_status empty_db)
      = Ok (mkReply 200 (InstalledJson false))).
Proof.
  apply (installation_is_reported InsertInstallerSettings.t (fun b => Ok b) 7000
           (InsertInstallerSettings.mk (Given (Some false)) (Given (Some "db.local"))
              Absent Absent Absent)
           (InsertInstallerSettings.mk (Given (Some false)) (Given (Some "db.local"))
              Absent Absent Absent)
           empty_db).
  reflexivity.
Defined.

(* ------------------------------------------------------------------ *)
(** * Server routes *)

(** X11.  [POST /api/servers] with a body that passes validation.  Without
    a session it answers 401 and stores nothing.  With one, a [serverId]
    that a stored server already has is refused by the unique key and
    comes out as 500 "Internal server error", with the rows of the server
    and mod tables as they were; a new [serverId] answers 201 with the
    stored row, which [GET /api/servers/:id] then returns. *)
Theorem post_servers_answers :
  forall (RequestBody : Type) (parse : RequestBody -> Result InsertServer.t)
         (now : Timestamp) (req_body : RequestBody) (serverData : InsertServer.t)
         (db : Db),
  parse req_body = Ok serverData ->
  run (post_api_servers RequestBody parse now false req_body) db
  = (Ok (mkReply 401 (Message "Not authenticated")), db)
  /\ if known db (InsertServer.serverId serverData)
     then
       fst (run (post_api_servers RequestBody parse now true req_body) db)
       = Ok (mkReply 500 (Message "Internal server error"))
       /\ content (snd (run (post_api_servers RequestBody parse now true req_body) db))
          = content db
     else
       exists server,
         fst (run (post_api_servers RequestBody parse now true req_body) db)
         = Ok (mkReply 201 (ServerJson server))
         /\ Server.serverId server = InsertServer.serverId serverData
         /\ fst (run (get_api_server (InsertServer.serverId serverData))
                   (snd (run (post_api_servers RequestBody parse now true req_body) db)))
            = Ok (mkReply 200 (ServerJson server)).
Proof.
  intros RequestBody parse now req_body serverData db Hvalid.
  split; [reflexivity |].
  unfold post_api_servers, get_api_server. cbn [negb]. rewrite Hvalid.
  rewrite !run_try_catch, run_bind, run_createServer. unfold known.
  destruct (existsb _ (rows (servers db))) eqn:Hnew.
  - split; reflexivity.
  - cbv zeta. eexists. cbn [fst snd run]. repeat split.
    rewrite run_bind, run_getServer.
    cbn [servers set_mods set_servers rows].
    rewrite filter_app, (existsb_false_filter _ _ _ Hnew).
    simpl. rewrite String.eqb_refl. reflexivity.
Qed.

Lemma post_servers_answers_witness :
  run (post_api_servers InsertServer.t (fun b => Ok b) 1000 false survival) empty_db
  = (Ok (mkReply 401 (Message "Not authenticated")), empty_db)
  /\ if known empty_db (InsertServer.serverId survival)
     then
       fst (run (post_api_servers InsertServer.t (fun b => Ok b) 1000 true survival)
              empty_db)
       = Ok (mkReply 500 (Message "Internal server error"))
       /\ content (snd (run (post_api_servers InsertServer.t (fun b => Ok b) 1000 true
                               survival) empty_db))
          = content empty_db
     else
       exists server,
         fst (run (post_api_servers InsertServer.t (fun b => Ok b) 1000 true survival)
                empty_db)
         = Ok (mkReply 201 (ServerJson server))
         /\ Server.serverId server = InsertServer.serverId survival
         /\ fst (run (get_api_server (InsertServer.serverId survival))
                   (snd (run (post_api_servers InsertServer.t (fun b => Ok b) 1000 true
                                survival) empty_db)))
            = Ok (mkReply 200 (ServerJson server)).
Proof.
  apply (post_servers_answers InsertServer.t (fun b => Ok b) 1000 survival survival
           empty_db).
  reflexivity.
Defined.

(** X12.  [DELETE /api/servers/:id] without a session answers 401 and
    leaves the database alone.  With one it answers 204 whether or not a
    server has that id, and [GET /api/servers/:id] answers 404 "Server not
    found" afterwards. *)
Theorem delete_server_answers : forall (id : string) (db : Db),
  run (delete_api_server false id) db
  = (Ok (mkReply 401 (Message "Not authenticated")), db)
  /\ fst (run (delete_api_server true id) db) = Ok (mkReply 204 Empty)
  /\ fst (run (get_api_server id) (snd (run (delete_api_server true id) db)))
     = Ok (mkReply 404 (Message "Server not found")).
Proof.
  intros id db. split; [reflexivity |].
  unfold delete_api_server, get_api_server. cbn [negb].
  rewrite !run_try_catch, run_bind, run_deleteServer.
  cbn [fst snd run]. split; [reflexivity |].
  rewrite run_bind, run_getServer.
  cbn [servers delete_where rows].
  now rewrite (filter_out_same _ Server.serverId).
Qed.

(* ------------------------------------------------------------------ *)
(** * File routes *)

(** ** The pattern [path + '/%'] is always well formed *)

Lemma like_skip_total : forall (p s : list ascii),
  (forall s', exists b, like_chars p s' = Some b) ->
  exists b, like_chars ("%"%char :: p) s = Some b.
Proof.
  intros p s Hp. induction s as [| x s IH].
  - destruct (Hp []) as [b Hb]. simpl. simpl in Hb. rewrite Hb. destruct b; eauto.
  - destruct (Hp (x :: s)) as [b Hb]. destruct IH as [b' Hb'].
    change (like_chars ("%"%char :: p) (x :: s))
      with (match like_chars p (x :: s) with
            | None => None
            | Some true => Some true
            | Some false => like_chars ("%"%char :: p) s
            end).
    rewrite Hb. destruct b; eauto.
Qed.

Lemma like_suffix_total : forall (n : nat) (p s : list ascii),
  (List.length p <= n)%nat ->
  exists b, like_chars (p ++ ["/"%char; "%"%char])%list s = Some b.
Proof.
  induction n as [| n IH]; intros p s Hlen.
  - destruct p; [| simpl in Hlen; lia]. rewrite like_slash_percent. eauto.
  - destruct p as [| c p]; [rewrite like_slash_percent; eauto |].
    simpl in Hlen.
    assert (Hp : forall s', exists b, like_chars (p ++ ["/"%char; "%"%char])%list s' = Some b)
      by (intros s'; apply IH; lia).
    change ((c :: p) ++ ["/"%char; "%"%char])%list
      with (c :: (p ++ ["/"%char; "%"%char]))%list.
    destruct (Ascii.eqb c "%") eqn:Epc.
    { apply Ascii.eqb_eq in Epc. subst c. now apply like_skip_total. }
    destruct (Ascii.eqb c "_") eqn:Eus.
    { cbn [like_chars]. rewrite Epc, Eus.
      destruct s as [| x s].
      - destruct (Hp []) as [b ->]. eauto.
      - apply Hp. }
    destruct (Ascii.eqb c "\") eqn:Ebs.
    { cbn [like_chars]. rewrite Epc, Eus, Ebs.
      destruct p as [| e q]; cbn [app].
      - destruct s as [| x s].
        + simpl. eauto.
        + rewrite like_percent. eauto.
      - assert (Hq : forall s', exists b,
                  like_chars (q ++ ["/"%char; "%"%char])%list s' = Some b)
          by (intros s'; apply IH; simpl in Hlen; lia).
        destruct s as [| x s].
        + destruct (Hq []) as [b ->]. eauto.
        + destruct (Hq s) as [b ->]. eauto. }
    cbn [like_chars]. rewrite Epc, Eus, Ebs.
    destruct s as [| x s].
    + destruct (Hp []) as [b ->]. eauto.
    + destruct (Hp s) as [b ->]. eauto.
Qed.

Lemma list_ascii_app : forall a b : string,
  list_ascii_of_string (a ++ b) = (list_ascii_of_string a ++ list_ascii_of_string b)%list.
Proof.
  induction a as [| c a IH]; intros b; simpl; [reflexivity |].
  now rewrite IH.
Qed.

Lemma files_where_total :
  forall (g : Fragment) (serverId p : string) (f : File.t),
  exists b, storage.files_where g serverId p f = Some b.
Proof.
  intros g serverId p f. unfold storage.files_where, like.
  rewrite list_ascii_app.
  change (list_ascii_of_string "/%") with ["/"%char; "%"%char].
  destruct (like_suffix_total (List.length (list_ascii_of_string p))
              (list_ascii_of_string p) (list_ascii_of_string (File.path f))
              (Nat.le_refl _)) as [b ->].
  eauto.
Qed.

(** The rows that the filter selects, as a boolean test. *)
Lemma select_files_filter :
  forall (g : Fragment) (serverId p : string) (xs : list File.t),
  storage.select_where (storage.files_where g serverId p) xs
  = Some (filter (fun f =>
                    match storage.files_where g serverId p f with
                    | Some b => b
                    | None => false
                    end) xs).
Proof.
  intros g serverId p xs. apply select_where_total.
  intros f. destruct (files_where_total g serverId p f) as [b ->]. reflexivity.
Qed.

Lemma getFiles_always_fulfils_aux :
  forall (serverId : string) (path : option string) (db : Db),
  exists found, run (storage.getFiles serverId path) db = (Ok found, db).
Proof.
  intros serverId path db.
  unfold storage.getFiles, storage.getFiles_as. rewrite run_await.
  unfold storage.select_files.
  destruct path as [p |]; [| eauto].
  destruct (String.eqb p ""); [eauto |].
  rewrite select_files_filter. eauto.
Qed.

(** X13.  [getFiles] never rejects: whatever the path, the [LIKE] pattern
    [path + '/%'] cannot end in a lone escape character.  The call returns
    rows of the files table in table order, leaves the database as it was,
    and always includes the rows of the server whose path is the filter
    path itself. *)
Theorem getFiles_always_fulfils :
  forall (serverId : string) (path : option string) (db : Db),
  exists found,
    run (storage.getFiles serverId path) db = (Ok found, db)
    /\ (exists keep, found = filter keep (rows (files db)))
    /\ (forall f p,
          path = Some p ->
          In f (rows (files db)) ->
          File.serverId f = serverId ->
          File.path f = p ->
          In f found).
Proof.
  intros serverId path db.
  unfold storage.getFiles, storage.getFiles_as. rewrite run_await.
  unfold storage.select_files.
  assert (Hall : forall f,
            In f (rows (files db)) -> File.serverId f = serverId ->
            In f (filter (fun f => String.eqb (File.serverId f) serverId)
                         (rows (files db)))).
  { intros f Hin Hs. apply filter_In. split; [exact Hin |].
    now apply String.eqb_eq. }
  destruct path as [p |].
  - destruct (String.eqb p "") eqn:Hp.
    + eexists. split; [reflexivity |]. split; [eauto |].
      intros f p' _ Hin Hs _. now apply Hall.
    + rewrite select_files_filter.
      eexists. split; [reflexivity |]. split; [eauto |].
      intros f p' Hp' Hin Hs Hpath. injection Hp' as <-.
      apply filter_In. split; [exact Hin |].
      destruct (files_where_total drizzle_fragment serverId p f) as [b Hb].
      rewrite Hb. unfold storage.files_where in Hb.
      destruct (like (File.path f) (p ++ "/%")); [| discriminate].
      injection Hb as <-. unfold drizzle_fragment.
      apply String.eqb_eq in Hpath. rewrite Hpath. apply orb_true_r.
  - eexists. split; [reflexivity |]. split; [eauto |].
    intros f p Hp. discriminate.
Qed.

(** ** Splitting and joining on ["/"] *)

Lemma split_slash_nonempty : forall s : string, split_slash s <> [].
Proof.
  intros [| c s]; simpl; [discriminate |].
  destruct (Ascii.eqb c "/"); [discriminate |].
  destruct (split_slash s); discriminate.
Qed.

Lemma split_slash_plain : forall s : string,
  includes_slash s = false -> split_slash s = [s].
Proof.
  induction s as [| c s IH]; simpl; [reflexivity |].
  intros H. apply orb_false_iff in H. destruct H as [Hc Hs].
  now rewrite Hc, (IH Hs).
Qed.

Lemma split_slash_app : forall a b : string,
  split_slash (a ++ "/" ++ b) = (split_slash a ++ split_slash b)%list.
Proof.
  induction a as [| c a IH]; intros b.
  - reflexivity.
  - change (String c a ++ "/" ++ b) with (String c (a ++ "/" ++ b)).
    cbn [split_slash]. rewrite IH.
    destruct (Ascii.eqb c "/"); [reflexivity |].
    pose proof (split_slash_nonempty a) as Hne.
    destruct (split_slash a) as [| part parts]; [congruence | reflexivity].
Qed.

Lemma join_split_slash : forall s : string, join_slash (split_slash s) = s.
Proof.
  induction s as [| c s IH]; [reflexivity |].
  cbn [split_slash].
  pose proof (split_slash_nonempty s) as Hne.
  destruct (Ascii.eqb c "/") eqn:Ec.
  - apply Ascii.eqb_eq in Ec. subst c.
    destruct (split_slash s) as [| part parts]; [congruence |].
    cbn [join_slash]. cbn [join_slash] in IH. rewrite IH. reflexivity.
  - destruct (split_slash s) as [| part parts]; [congruence |].
    cbn [join_slash] in *.
    destruct parts as [| part' parts]; rewrite <- IH; reflexivity.
Qed.

Lemma includes_slash_app : forall a b : string,
  includes_slash (a ++ b) = includes_slash a || includes_slash b.
Proof.
  induction a as [| c a IH]; intros b; simpl; [reflexivity |].
  now rewrite IH, orb_assoc.
Qed.

Lemma prefix_app : forall a b : string, String.prefix a (a ++ b) = true.
Proof.
  induction a as [| c a IH]; intros b; simpl.
  - apply prefix_empty.
  - destruct (ascii_dec c c); [apply IH | congruence].
Qed.

Lemma prefix_slice : forall a s : string,
  String.prefix a s = true -> s = a ++ slice (String.length a) s.
Proof.
  induction a as [| c a IH]; intros s H; [reflexivity |].
  destruct s as [| x s]; [discriminate |].
  simpl in H. destruct (ascii_dec c x) as [<- | Hne]; [| discriminate].
  simpl. f_equal. now apply IH.
Qed.

Lemma string_app_assoc : forall a b c : string, (a ++ b) ++ c = a ++ b ++ c.
Proof.
  induction a as [| x a IH]; intros b c; simpl; [reflexivity |].
  now rewrite IH.
Qed.

Lemma pop_split_child : forall dir name : string,
  includes_slash name = false -> pop_split (dir ++ "/" ++ name) = name.
Proof.
  intros dir name Hname. unfold pop_split.
  rewrite split_slash_app, (split_slash_plain _ Hname). apply last_last.
Qed.

Lemma pop_split_plain : forall name : string,
  includes_slash name = false -> pop_split name = name.
Proof.
  intros name Hname. unfold pop_split. now rewrite (split_slash_plain _ Hname).
Qed.

(** Climbing from a child gives its directory. *)
Lemma navigate_up_from_child : forall dir name : string,
  includes_slash name = false ->
  handleNavigateUp (dir ++ "/" ++ name) = dir.
Proof.
  intros dir name Hname. unfold handleNavigateUp.
  assert (Hne : String.eqb (dir ++ "/" ++ name) "" = false)
    by (destruct dir; reflexivity).
  rewrite Hne, split_slash_app, (split_slash_plain _ Hname), removelast_last.
  apply join_split_slash.
Qed.

Lemma not_own_child : forall dir name : string, dir <> dir ++ "/" ++ name.
Proof.
  induction dir as [| c dir IH]; intros name H; [discriminate |].
  injection H as H. now apply (IH name).
Qed.

(** X14.  The file browser shows in a directory only rows from which
    "navigate up" leads back to that directory: a row shown at the root has
    no ["/"] in its path, and a row shown in [currentPath] has the path
    [currentPath + "/" + name] with no ["/"] in [name]; the row of the
    directory itself is not shown in its own listing. *)
Theorem shown_rows_are_direct_children :
  forall (currentPath : string) (file : File.t),
  shown currentPath file = true ->
  handleNavigateUp (File.path file) = currentPath
  /\ (exists name,
        includes_slash name = false
        /\ File.path file
           = if String.eqb currentPath "" then name else currentPath ++ "/" ++ name)
  /\ (currentPath <> "" -> File.path file <> currentPath).
Proof.
  intros currentPath file. unfold shown.
  destruct (String.eqb currentPath "") eqn:Hroot; cbn [andb negb].
  - apply String.eqb_eq in Hroot. subst currentPath.
    destruct (includes_slash (File.path file)) eqn:Hslash; [discriminate |].
    intros _. repeat split.
    + unfold handleNavigateUp.
      destruct (String.eqb (File.path file) "") eqn:He.
      * now apply String.eqb_eq in He.
      * now rewrite (split_slash_plain _ Hslash).
    + exists (File.path file). now split.
    + congruence.
  - intros H. apply andb_true_iff in H. destruct H as [Hpre Hrest].
    apply negb_true_iff in Hrest.
    pose proof (prefix_slice _ _ Hpre) as Hpath.
    rewrite string_app_assoc in Hpath.
    set (name := slice (String.length (currentPath ++ "/")) (File.path file)) in *.
    repeat split.
    + rewrite Hpath. now apply navigate_up_from_child.
    + exists name. now split.
    + intros _ Heq. rewrite Heq in Hpath at 1.
      exact (not_own_child _ _ Hpath).
Qed.

Lemma shown_rows_are_direct_children_witness :
  handleNavigateUp (File.path mods_a_jar) = "mods_a"
  /\ (exists name,
        includes_slash name = false
        /\ File.path mods_a_jar
           = if String.eqb "mods_a" "" then name else "mods_a" ++ "/" ++ name)
  /\ ("mods_a" <> "" -> File.path mods_a_jar <> "mods_a").
Proof.
  apply (shown_rows_are_direct_children "mods_a" mods_a_jar).
  reflexivity.
Defined.

(** ** Uploading and deleting files *)

Lemma or_str_given : forall d : string, or_str (Some d) "" = d.
Proof.
  intros d. unfold or_str. destruct (String.eqb d "") eqn:E; [| reflexivity].
  now apply String.eqb_eq in E.
Qed.

Lemma like_percent_step : forall (p s : list ascii),
  like_chars p s = Some true -> like_chars ("%"%char :: p) s = Some true.
Proof.
  intros p s H. destruct s as [| x s]; simpl; simpl in H; now rewrite H.
Qed.

Lemma like_own_prefix : forall p rest : string,
  no_backslash p = true ->
  like (p ++ "/" ++ rest) (p ++ "/%") = Some true.
Proof.
  unfold like. induction p as [| c p IH]; intros rest Hp.
  - change (list_ascii_of_string ("" ++ "/%")) with ["/"%char; "%"%char].
    now rewrite like_slash_percent.
  - cbn [no_backslash] in Hp. apply andb_true_iff in Hp. destruct Hp as [Hc Hp].
    apply negb_true_iff in Hc. specialize (IH rest Hp).
    change (list_ascii_of_string (String c p ++ "/%"))
      with (c :: list_ascii_of_string (p ++ "/%")).
    change (list_ascii_of_string (String c p ++ "/" ++ rest))
      with (c :: list_ascii_of_string (p ++ "/" ++ rest)).
    destruct (Ascii.eqb c "%") eqn:Epc.
    { apply Ascii.eqb_eq in Epc. subst c.
      change (like_chars ("%"%char :: list_ascii_of_string (p ++ "/%"))
                         ("%"%char :: list_ascii_of_string (p ++ "/" ++ rest)))
        with (match like_chars (list_ascii_of_string (p ++ "/%"))
                               ("%"%char :: list_ascii_of_string (p ++ "/" ++ rest)) with
              | None => None
              | Some true => Some true
              | Some false =>
                  like_chars ("%"%char :: list_ascii_of_string (p ++ "/%"))
                             (list_ascii_of_string (p ++ "/" ++ rest))
              end).
      assert (Htotal : exists b,
                like_chars (list_ascii_of_string (p ++ "/%"))
                           ("%"%char :: list_ascii_of_string (p ++ "/" ++ rest)) = Some b).
      { rewrite (list_ascii_app p "/%").
        apply (like_suffix_total (List.length (list_ascii_of_string p))).
        apply Nat.le_refl. }
      destruct Htotal as [b ->].
      destruct b; [reflexivity |].
      now apply like_percent_step. }
    cbn [like_chars]. rewrite Epc, Hc.
    destruct (Ascii.eqb c "_"); [exact IH |].
    now rewrite IH, Ascii.eqb_refl.
Qed.

Lemma taken_name_is_found :
  forall (serverId dir name : string) (db : Db) (row : File.t),
  no_backslash dir = true ->
  In row (rows (files db)) ->
  File.serverId row = serverId ->
  dir = "" \/ String.prefix (dir ++ "/") (File.path row) = true ->
  pop_split (File.path row) = name ->
  exists found,
    run (storage.getFiles serverId (Some dir)) db = (Ok found, db)
    /\ existsb (fun f => String.eqb (pop_split (File.path f)) name) found = true.
Proof.
  intros serverId dir name db row Hlit Hin Hs Hunder Hname.
  assert (Hserver : String.eqb (File.serverId row) serverId = true)
    by now apply String.eqb_eq.
  assert (Hlast : String.eqb (pop_split (File.path row)) name = true)
    by now apply String.eqb_eq.
  destruct (String.eqb dir "") eqn:Hroot.
  - apply String.eqb_eq in Hroot. subst dir.
    eexists. split; [reflexivity |].
    apply existsb_exists. exists row. split; [| exact Hlast].
    apply filter_In. now split.
  - apply String.eqb_neq in Hroot.
    destruct Hunder as [-> | Hpre]; [congruence |].
    unfold storage.getFiles, storage.getFiles_as. rewrite run_await.
    unfold storage.select_files.
    apply String.eqb_neq in Hroot. rewrite Hroot, select_files_filter.
    eexists. split; [reflexivity |].
    apply existsb_exists. exists row. split; [| exact Hlast].
    apply filter_In. split; [exact Hin |].
    unfold storage.files_where, drizzle_fragment.
    rewrite (prefix_slice _ _ Hpre) at 1.
    rewrite string_app_assoc, (like_own_prefix dir _ Hlit), Hserver.
    reflexivity.
Qed.

(** X15.  An upload into a directory whose path has no backslash (or into
    the root) is refused with 400 "A file with this name already
    exists in this directory", and stores nothing, as soon as some row of
    the server below that directory, at any depth, has the uploaded name as
    the last segment of its path. *)
Theorem upload_refuses_taken_name :
  forall (now : Timestamp) (req_file : UploadedFile) (serverId dir : string)
         (db : Db) (row : File.t),
  no_backslash dir = true ->
  In row (rows (files db)) ->
  File.serverId row = serverId ->
  dir = "" \/ String.prefix (dir ++ "/") (File.path row) = true ->
  pop_split (File.path row) = originalname req_file ->
  run (post_api_files_upload now true (Some req_file) serverId (Some dir)) db
  = (Ok (mkReply 400
           (Message "A file with this name already exists in this directory")), db).
Proof.
  intros now req_file serverId dir db row Hdir Hin Hs Hunder Hname.
  destruct (taken_name_is_found serverId dir (originalname req_file) db row
              Hdir Hin Hs Hunder Hname) as (found & Hfound & Htaken).
  unfold post_api_files_upload. cbn [negb]. cbv zeta.
  rewrite run_try_catch, run_bind, or_str_given, Hfound, Htaken.
  reflexivity.
Qed.

Lemma upload_refuses_taken_name_witness :
  run (post_api_files_upload 5000 true (Some (mkUploadedFile "options.txt" 12))
         "survival" (Some "config"))
      (panel [] [config_dir; nested_options])
  = (Ok (mkReply 400
           (Message "A file with this name already exists in this directory")),
     panel [] [config_dir; nested_options]).
Proof.
  apply (upload_refuses_taken_name 5000 (mkUploadedFile "options.txt" 12)
           "survival" "config" (panel [] [config_dir; nested_options]) nested_options).
  - reflexivity.
  - simpl. tauto.
  - reflexivity.
  - right. reflexivity.
  - reflexivity.
Defined.

(** X16.  An upload that succeeded cannot be repeated: when the name has no
    ["/"] and the directory path no backslash, the first upload
    stores one file row under [directory + "/" + name] (the bare name at the
    root), not a directory, with the uploaded size, and the same upload
    sent again answers 400 and stores nothing more. *)
Theorem upload_is_not_repeated :
  forall (now later : Timestamp) (req_file : UploadedFile) (serverId dir : string)
         (db db' : Db) (stored : File.t),
  no_backslash dir = true ->
  includes_slash (originalname req_file) = false ->
  run (post_api_files_upload now true (Some req_file) serverId (Some dir)) db
  = (Ok (mkReply 200 (FileJson stored)), db') ->
  rows (files db') = (rows (files db) ++ [stored])%list
  /\ File.serverId stored = serverId
  /\ File.path stored
     = (if String.eqb dir "" then originalname req_file
        else dir ++ "/" ++ originalname req_file)
  /\ File.isDirectory stored = Some false
  /\ File.size stored = Some (file_size req_file)
  /\ run (post_api_files_upload later true (Some req_file) serverId (Some dir)) db'
     = (Ok (mkReply 400
              (Message "A file with this name already exists in this directory")), db').
Proof.
  intros now later req_file serverId dir db db' stored Hlit Hname Hrun.
  assert (Hstored : rows (files db') = (rows (files db) ++ [stored])%list
                    /\ File.serverId stored = serverId
                    /\ File.path stored
                       = (if String.eqb dir "" then originalname req_file
                          else dir ++ "/" ++ originalname req_file)
                    /\ File.isDirectory stored = Some false
                    /\ File.size stored = Some (file_size req_file)).
  { unfold post_api_files_upload in Hrun. cbn [negb] in Hrun. cbv zeta in Hrun.
    rewrite run_try_catch, run_bind, or_str_given in Hrun.
    destruct (getFiles_always_fulfils_aux serverId (Some dir) db) as [found Hfound].
    rewrite Hfound in Hrun.
    destruct (existsb _ found); [discriminate |].
    rewrite run_bind in Hrun. unfold DatabaseStorage.createFile in Hrun.
    rewrite (run_await _ _ db) in Hrun.
    unfold DatabaseStorage.insert_file in Hrun. cbn [InsertFile.serverId] in Hrun.
    destruct (existsb _ (rows (servers db))); [| discriminate].
    cbn in Hrun. injection Hrun as <- <-. cbn. repeat split. }
  destruct Hstored as (Hrows & Hs & Hpath & Hdir & Hsize).
  repeat split; try assumption.
  destruct (taken_name_is_found serverId dir (originalname req_file) db' stored Hlit)
    as (found & Hfound & Htaken).
  - rewrite Hrows. apply in_or_app. right. now left.
  - exact Hs.
  - destruct (String.eqb dir "") eqn:Hroot.
    + left. now apply String.eqb_eq.
    + right. rewrite Hpath, <- string_app_assoc. apply prefix_app.
  - rewrite Hpath. destruct (String.eqb dir "").
    + now apply pop_split_plain.
    + now apply pop_split_child.
  - unfold post_api_files_upload. cbn [negb]. cbv zeta.
    rewrite run_try_catch, run_bind, or_str_given, Hfound, Htaken.
    reflexivity.
Qed.

Lemma upload_is_not_repeated_witness :
  rows (files (snd (run (post_api_files_upload 5000 true (Some server_properties)
                           "survival" (Some "config")) (panel [] [config_dir]))))
  = (rows (files (panel [] [config_dir]))
     ++ [File.mk 3 "survival" "config/server.properties" (Some false) (Some false)
           (Some 640) 5000])%list
  /\ File.serverId (File.mk 3 "survival" "config/server.properties" (Some false)
                      (Some false) (Some 640) 5000) = "survival"
  /\ File.path (File.mk 3 "survival" "config/server.properties" (Some false)
                  (Some false) (Some 640) 5000)
     = (if String.eqb "config" "" then originalname server_properties
        else "config" ++ "/" ++ originalname server_properties)
  /\ File.isDirectory (File.mk 3 "survival" "config/server.properties" (Some false)
                         (Some false) (Some 640) 5000) = Some false
  /\ File.size (File.mk 3 "survival" "config/server.properties" (Some false)
                  (Some false) (Some 640) 5000) = Some (file_size server_properties)
  /\ run (post_api_files_upload 6000 true (Some server_properties) "survival"
            (Some "config"))
         (snd (run (post_api_files_upload 5000 true (Some server_properties)
                      "survival" (Some "config")) (panel [] [config_dir])))
     = (Ok (mkReply 400
              (Message "A file with this name already exists in this directory")),
        snd (run (post_api_files_upload 5000 true (Some server_properties)
                    "survival" (Some "config")) (panel [] [config_dir]))).
Proof.
  apply (upload_is_not_repeated 5000 6000 server_properties "survival" "config"
           (panel [] [config_dir])).
  - reflexivity.
  - reflexivity.
  - reflexivity.
Defined.

Lemma filter_filter_and : forall (R : Type) (p q : R -> bool) (xs : list R),
  filter p (filter q xs) = filter (fun x => q x && p x) xs.
Proof.
  intros R p q xs. induction xs as [| x xs IH]; simpl; [reflexivity |].
  destruct (q x); simpl; [destruct (p x); now rewrite IH | exact IH].
Qed.

Lemma delete_each_rows : forall (xs rows0 : list File.t),
  fold_left (fun rows x => filter (fun f => negb (File.id f =? File.id x)) rows) xs rows0
  = filter (fun f => negb (existsb (fun x => File.id f =? File.id x) xs)) rows0.
Proof.
  induction xs as [| x xs IH]; intros rows0; simpl.
  - induction rows0 as [| f fs IHf]; simpl; [reflexivity | now rewrite <- IHf].
  - rewrite IH, filter_filter_and. apply filter_ext.
    intros f. now rewrite negb_orb.
Qed.

Lemma run_delete_each : forall (xs : list File.t) (db : Db),
  exists db',
    run (for_each xs (fun file =>
           _ <- DatabaseStorage.deleteFile (File.id file) ;; Return tt)) db
    = (Ok tt, db')
    /\ rows (files db')
       = fold_left (fun rows x => filter (fun f => negb (File.id f =? File.id x)) rows)
                   xs (rows (files db))
    /\ servers db' = servers db
    /\ mods db' = mods db
    /\ serverStats db' = serverStats db.
Proof.
  induction xs as [| x xs IH]; intros db.
  - exists db. repeat split.
  - cbn [for_each]. rewrite run_bind.
    destruct (IH (set_files (delete_where (fun f => File.id f =? File.id x) (files db)) db))
      as (db' & Hrun & Hrows & Hs & Hm & Ht).
    exists db'. cbn. cbn in Hrun. rewrite Hrun. repeat split; assumption.
Qed.

Lemma filter_none : forall (R : Type) (p keep : R -> bool) (xs : list R),
  (forall x, In x xs -> p x = true -> keep x = false) ->
  filter p (filter keep xs) = [].
Proof.
  intros R p keep xs H. induction xs as [| x xs IH]; simpl; [reflexivity |].
  destruct (keep x) eqn:Hk; simpl.
  - destruct (p x) eqn:Hp.
    + rewrite (H x (or_introl eq_refl) Hp) in Hk. discriminate.
    + apply IH. intros y Hy. apply H. now right.
  - apply IH. intros y Hy. apply H. now right.
Qed.

(** X17.  [DELETE /api/files/:serverId/delete].  Without a session: 401.
    With no path or an empty one: 400 "Path is required".  When the disk
    call throws, the error goes to [handleError] and no row is deleted.
    When it succeeds the route answers 204, having deleted file rows only:
    [getFiles] with the same server and path then returns nothing, and the
    servers, mods and stats are as they were. *)
Theorem delete_files_answers :
  forall (disk : Disk) (serverId : string) (isDirectory : bool) (db : Db),
  run (delete_api_files disk false serverId None isDirectory) db
  = (Ok (mkReply 401 (Message "Not authenticated")), db)
  /\ run (delete_api_files disk true serverId None isDirectory) db
     = (Ok (mkReply 400 (Message "Path is required")), db)
  /\ run (delete_api_files disk true serverId (Some "") isDirectory) db
     = (Ok (mkReply 400 (Message "Path is required")), db)
  /\ forall filePath : string,
       filePath <> "" ->
       match (if isDirectory then fs_remove disk else fs_unlink disk) with
       | Some e =>
           run (delete_api_files disk true serverId (Some filePath) isDirectory) db
           = (Ok (reply_error e), db)
       | None =>
           exists db',
             run (delete_api_files disk true serverId (Some filePath) isDirectory) db
             = (Ok (mkReply 204 Empty), db')
             /\ fst (run (storage.getFiles serverId (Some filePath)) db') = Ok []
             /\ (exists keep, rows (files db') = filter keep (rows (files db)))
             /\ servers db' = servers db
             /\ mods db' = mods db
             /\ serverStats db' = serverStats db
       end.
Proof.
  intros disk serverId isDirectory db.
  split; [reflexivity |]. split; [reflexivity |]. split; [reflexivity |].
  intros filePath Hne. apply String.eqb_neq in Hne.
  unfold delete_api_files. cbn [negb]. rewrite Hne.
  destruct (if isDirectory then fs_remove disk else fs_unlink disk) as [e |];
    [reflexivity |].
  rewrite run_try_catch, run_bind.
  unfold storage.getFiles, storage.getFiles_as. rewrite (run_await _ _ db).
  unfold storage.select_files. rewrite Hne, select_files_filter.
  set (matches := fun f => match storage.files_where drizzle_fragment serverId filePath f with
                           | Some b => b
                           | None => false
                           end).
  rewrite run_bind.
  destruct (run_delete_each (filter matches (rows (files db))) db)
    as (db' & Hrun & Hrows & Hs & Hm & Ht).
  rewrite Hrun. cbn [run]. exists db'.
  rewrite delete_each_rows in Hrows.
  repeat split; try assumption; [| eauto].
  rewrite (run_await _ _ db'). rewrite select_files_filter, Hrows.
  fold matches. cbn [fst]. f_equal.
  apply filter_none. intros f Hin Hmatch.
  apply negb_false_iff. apply existsb_exists. exists f.
  split; [| apply Z.eqb_refl].
  apply filter_In. now split.
Qed.

(* ------------------------------------------------------------------ *)
(** * What the public stat route can change *)

(** X18.  [POST /api/stats] always answers.  A body that the validator
    rejects with a ZodError gets 400 with the validator's message, any other
    error thrown by it 500 "Internal server error", and in both cases the
    database is untouched.  Whatever the body, the servers, mods, files and
    the three settings tables are as before, and [server_stats] is either
    as before or has one more row, stored under the reported [serverId],
    which is the id of a stored server. *)
Theorem stats_route_only_appends :
  forall (RequestBody : Type) (parse : RequestBody -> Result InsertServerStat.t)
         (now : Timestamp) (req_body : RequestBody) (db : Db),
  exists res,
    fst (run (post_api_stats RequestBody parse now req_body) db) = Ok res
    /\ match parse req_body with
       | Err (ZodError message) =>
           res = mkResponse 400 (MessageBody message)
           /\ snd (run (post_api_stats RequestBody parse now req_body) db) = db
       | Err _ =>
           res = mkResponse 500 (MessageBody "Internal server error")
           /\ snd (run (post_api_stats RequestBody parse now req_body) db) = db
       | Ok statData =>
           servers (snd (run (post_api_stats RequestBody parse now req_body) db))
           = servers db
           /\ mods (snd (run (post_api_stats RequestBody parse now req_body) db))
              = mods db
           /\ files (snd (run (post_api_stats RequestBody parse now req_body) db))
              = files db
           /\ installerSettings
                (snd (run (post_api_stats RequestBody parse now req_body) db))
              = installerSettings db
           /\ apiConfig (snd (run (post_api_stats RequestBody parse now req_body) db))
              = apiConfig db
           /\ siteSettings (snd (run (post_api_stats RequestBody parse now req_body) db))
              = siteSettings db
           /\ (rows (serverStats
                       (snd (run (post_api_stats RequestBody parse now req_body) db)))
               = rows (serverStats db)
               \/ exists stat,
                    rows (serverStats
                            (snd (run (post_api_stats RequestBody parse now req_body) db)))
                    = (rows (serverStats db) ++ [stat])%list
                    /\ ServerStat.serverId stat = InsertServerStat.serverId statData
                    /\ known db (ServerStat.serverId stat) = true)
       end.
Proof.
  intros RequestBody parse now req_body db.
  unfold post_api_stats.
  destruct (parse req_body) as [statData | e].
  - rewrite run_try_catch, run_bind, run_getServer.
    pose proof (first_filter _ (fun s => String.eqb (Server.serverId s)
                                           (InsertServerStat.serverId statData))
                             (rows (servers db))) as Hfound.
    destruct (first _) as [server |].
    + rewrite run_bind. unfold storage.createServerStat.
      rewrite (run_await _ _ db). unfold storage.insert_stat. rewrite Hfound.
      eexists. cbn. repeat split. right. eexists. repeat split. exact Hfound.
    + eexists. cbn. repeat split. now left.
  - destruct e; eexists; cbn; repeat split.
Qed.
